(** * ChromaAdaptEmbed: the linear-adapter launcher

    A shallow embedding of [adapt_embed/models/linear/run_linear_launcher.py]:
    the grid of hyperparameter variants built in [__main__], and
    [run_experiment] with its three closures [get_dataset], [get_results] and
    [train_and_evaluate].

    The launcher is sequential glue around external libraries, so it is
    embedded as a computation in a state / exception / event-log monad.  The
    external calls (SentenceTransformer, LinearAdapter, fit, get_mteb_results,
    LocalLogger, plot_comparison) are parameters of the development; every
    call of one of them is recorded, in program order, in the event log. *)

From Stdlib Require Import Ascii String PrimFloat.
From stdpp Require Import gmap strings list pretty.

Set Warnings "-inexact-float".

(** ** Python values found in a variant dictionary *)

Inductive pyval :=
| PNone
| PBool (b : bool)
| PInt (z : Z)
| PFloat (f : float)
| PStr (s : string).

(** [v is None] *)
Definition is_None (v : pyval) : bool :=
  match v with PNone => true | _ => false end.

(** [v == s] for a string literal [s]: only a [str] equals a [str]. *)
Definition py_eq_str (v : pyval) (s : string) : bool :=
  match v with PStr t => String.eqb t s | _ => false end.

(** [v in [s1, ..., sn]] for string literals. *)
Definition py_in_strs (v : pyval) (l : list string) : bool :=
  existsb (py_eq_str v) l.

(** A dictionary keyed by strings; a variant is one of them. *)
Abbreviation variant_t := (gmap string pyval).

(** ** The functions of [os.path] the launcher calls (posixpath) *)

Module posixpath.

Definition is_sep (c : ascii) : bool := Ascii.eqb c "/"%char.

Fixpoint contains_sep (s : string) : bool :=
  match s with
  | EmptyString => false
  | String c r => is_sep c || contains_sep r
  end.

(** [s.endswith('/')] *)
Fixpoint endswith_sep (s : string) : bool :=
  match s with
  | EmptyString => false
  | String c EmptyString => is_sep c
  | String _ r => endswith_sep r
  end.

(** [b.startswith('/')] *)
Definition startswith_sep (s : string) : bool :=
  match s with
  | String c _ => is_sep c
  | EmptyString => false
  end.

(** One turn of the loop of [join]: [path] is the path so far, [b] the next
    component. *)
Definition join_step (path b : string) : string :=
  if startswith_sep b then b
  else if String.eqb path "" || endswith_sep path then path +:+ b
  else path +:+ "/" +:+ b.

(** [os.path.join(a, *p)] *)
Definition join (a : string) (p : list string) : string :=
  fold_left join_step p a.

(** [p[:i]] and [p[i:]] for [i = p.rfind('/') + 1] *)
Fixpoint head (p : string) : string :=
  match p with
  | EmptyString => ""
  | String c r =>
      if contains_sep r then String c (head r)
      else if is_sep c then String c "" else ""
  end.

Fixpoint basename (p : string) : string :=
  match p with
  | EmptyString => ""
  | String c r =>
      if contains_sep r then basename r
      else if is_sep c then r else p
  end.

Fixpoint all_sep (s : string) : bool :=
  match s with
  | EmptyString => true
  | String c r => is_sep c && all_sep r
  end.

(** [s.rstrip('/')] *)
Fixpoint rstrip_sep (s : string) : string :=
  match s with
  | EmptyString => ""
  | String c r => if all_sep s then "" else String c (rstrip_sep r)
  end.

(** [os.path.dirname(p)] *)
Definition dirname (p : string) : string :=
  let h := head p in
  if negb (String.eqb h "") && negb (all_sep h) then rstrip_sep h else h.

End posixpath.

(** ** The hyperparameter sweeper *)

(** A grid is a Python dict of lists; the order of its keys is the order
    they were written in, so it is kept as an association list. *)
Abbreviation grid_t := (list (string * list pyval)).

(** Modelled from the spec: [DeterministicHyperparameterSweeper] and its
    [iterate_hyperparameters] belong to the [launchkit] package, which is not
    part of the sources.  The specification describes it as "a deterministic
    Cartesian-product generator over configuration dictionaries" and "a
    straightforward nested Cartesian-product iterator": one loop per key of
    the grid, the first key outermost, each variant choosing one value per
    key. *)
Fixpoint iterate_hyperparameters (grid : grid_t) : list variant_t :=
  match grid with
  | [] => [∅]
  | (k, vs) :: rest =>
      flat_map (λ v, map (λ m, <[k := v]> m) (iterate_hyperparameters rest)) vs
  end.

(** [variants_list] of [__main__]. *)
Definition variants_list : list grid_t :=
  [ (* triplet *)
    [ ("model_name", [PStr "all-MiniLM-L6-v2"]);
      ("task", [PStr "CQADupstackEnglishRetrieval"]);
      ("split", [PStr "test"]);
      ("num_epochs", [PInt 15]);
      ("lr", [PFloat 1e-2; PFloat 3e-3; PFloat 1e-3; PFloat 3e-4]);
      ("batch_size", [PInt 256]);
      ("triplet_margin", [PFloat (1 / 3); PInt 1; PInt 3]);
      ("loss_type", [PStr "triplet"]);
      ("data_augmentation_threshold", [PInt 5]) ];
    (* pairwise *)
    [ ("model_name", [PStr "all-MiniLM-L6-v2"]);
      ("task", [PStr "CQADupstackEnglishRetrieval"]);
      ("split", [PStr "test"]);
      ("num_epochs", [PInt 15]);
      ("lr", [PFloat 1e-2; PFloat 3e-3; PFloat 1e-3; PFloat 3e-4]);
      ("batch_size", [PInt 256]);
      ("loss_type", [PStr "mse"; PStr "bce"]);
      ("data_augmentation_threshold", [PInt 5]) ] ].

(** [[variant for variants in variants_list
             for variant in DeterministicHyperparameterSweeper(variants)
                              .iterate_hyperparameters()]] *)
Definition sweep (vl : list grid_t) : list variant_t :=
  flat_map iterate_hyperparameters vl.

Definition variants : list variant_t := sweep variants_list.

(** ** Objects of the external libraries *)

(** A tensor: its shape and its entries. *)
Record Tensor := { t_shape : list nat; t_data : list float }.

(** A parameter of the sentence-embedding model. *)
Record Param := { p_data : Tensor; requires_grad : bool }.

(** A [SentenceTransformer]: only what the launcher reads or writes. *)
Record STModel := {
  st_name : pyval;
  st_dim : nat;                     (* get_sentence_embedding_dimension() *)
  st_params : list Param            (* parameters() *)
}.

(** The state dict of a [LinearAdapter]: [model[0].weight], [model[0].bias]
    and whatever other tensors the adapter owns. *)
Record StateDict := {
  weight0 : Tensor;
  bias0 : Tensor;
  sd_rest : list Tensor
}.

Record Adapter := {
  a_base : STModel;
  a_dim : nat;
  a_query_only : bool;
  a_separate_embeddings : bool;
  a_state : StateDict
}.

Inductive DatasetKind := TripletDataset | PairwiseScoreDataset.

(** A dataset object: [ds_id] is its identity, the other fields are the
    arguments its constructor was called with. *)
Record Dataset := {
  ds_id : nat;
  ds_kind : DatasetKind;
  ds_task : pyval;
  ds_split : pyval;
  ds_relevance_threshold : float;
  ds_normalized : option bool;
  ds_negative_sampling : pyval;
  ds_synthetic_data : pyval;
  ds_data_augmentation_threshold : pyval
}.

(** The keyword arguments of [fit]. *)
Record FitArgs := {
  fa_num_epochs : pyval;
  fa_lr : pyval;
  fa_batch_size : pyval;
  fa_loss_type : pyval;
  fa_margin : pyval;
  fa_model_save_path : string
}.

(** What [get_mteb_results] evaluates: the base model or an adapter. *)
Inductive EvalModel :=
| EvalBase (m : STModel)
| EvalAdapter (a : Adapter).

(** MTEB results: task, then split, then metric. *)
Abbreviation Results := (gmap string (gmap string (gmap string pyval))).

(** ** Exceptions, events and the world *)

Inductive exn :=
| ValueError (msg : string)
| KeyError (key : pyval)
| IndexError
| TypeError
| FileNotFoundError (path : string)
| ReferenceError (r : nat).       (* a dangling adapter reference: never raised
                                     by a reference [LinearAdapter_new] gave *)

Inductive result (A : Type) :=
| Ok (a : A)
| Raise (e : exn).
Arguments Ok {A} a.
Arguments Raise {A} e.

(** One entry of the event log per call into an external library. *)
Inductive Event :=
| EvSentenceTransformer (name : pyval)
| EvDataset (d : Dataset)
| EvEnter (key value : string)
| EvExit (key value : string)
| EvLinearAdapter (r : nat) (a : Adapter)
| EvMakedirs (dir : string)
| EvLoadStateDict (r : nat) (path : string)
| EvPrint (line : string)
| EvFit (r : nat) (a : Adapter) (d : Dataset) (args : FitArgs)
| EvMtebResults (task : pyval) (path : string) (m : EvalModel)
| EvRecordDict (row : gmap string pyval)
| EvDumpTabular
| EvCopyWeights (dst src : nat)
| EvPlotComparison (series : list (Results * string)) (exp_name : string)
    (variant : gmap string pyval).

(** The mutable state the launcher touches. *)
Record World := {
  files : gmap string StateDict;    (* the weights files on disk *)
  heap : gmap nat Adapter;          (* the adapter objects, by reference *)
  dataset : option Dataset;         (* the nonlocal [dataset] of run_experiment *)
  snapshot_dir : string;            (* logger.get_snapshot_dir() *)
  next_id : nat                     (* the next fresh object identity *)
}.

Definition set_files (f : gmap string StateDict) (w : World) : World :=
  {| files := f; heap := heap w; dataset := dataset w;
     snapshot_dir := snapshot_dir w; next_id := next_id w |}.
Definition set_heap (h : gmap nat Adapter) (w : World) : World :=
  {| files := files w; heap := h; dataset := dataset w;
     snapshot_dir := snapshot_dir w; next_id := next_id w |}.
Definition set_dataset (d : option Dataset) (w : World) : World :=
  {| files := files w; heap := heap w; dataset := d;
     snapshot_dir := snapshot_dir w; next_id := next_id w |}.
Definition set_snapshot_dir (s : string) (w : World) : World :=
  {| files := files w; heap := heap w; dataset := dataset w;
     snapshot_dir := s; next_id := next_id w |}.
Definition set_next_id (n : nat) (w : World) : World :=
  {| files := files w; heap := heap w; dataset := dataset w;
     snapshot_dir := snapshot_dir w; next_id := n |}.

(** ** The monad: state, exceptions and an event log *)

Definition M (A : Type) : Type := World → result A * World * list Event.

Definition ret {A} (a : A) : M A := λ w, (Ok a, w, []).

Definition bind {A B} (m : M A) (k : A → M B) : M B :=
  λ w, match m w with
       | (Ok a, w1, t1) =>
           match k a w1 with
           | (r, w2, t2) => (r, w2, (t1 ++ t2)%list)
           end
       | (Raise e, w1, t1) => (Raise e, w1, t1)
       end.

Definition raise {A} (e : exn) : M A := λ w, (Raise e, w, []).
Definition emit (ev : Event) : M unit := λ w, (Ok tt, w, [ev]).
Definition get : M World := λ w, (Ok w, w, []).
Definition modify (f : World → World) : M unit := λ w, (Ok tt, f w, []).

(** [try: m finally: h] *)
Definition finally {A} (m : M A) (h : M unit) : M A :=
  λ w, match m w with
       | (r, w1, t1) =>
           match h w1 with
           | (Ok _, w2, t2) => (r, w2, (t1 ++ t2)%list)
           | (Raise e, w2, t2) => (Raise e, w2, (t1 ++ t2)%list)
           end
       end.

Declare Scope py_scope.
Delimit Scope py_scope with py.
Notation "'let*' x ':=' m 'in' k" := (bind m (λ x, k))
  (at level 10, x name, m at level 99, k at level 200) : py_scope.
Notation "m ';;' k" := (bind m (λ _, k))
  (at level 100, k at level 200, right associativity) : py_scope.
Local Open Scope py_scope.

(** [for x in l: body(x)] *)
Fixpoint for_each {A} (l : list A) (body : A → M unit) : M unit :=
  match l with
  | [] => ret tt
  | x :: l' => body x ;; for_each l' body
  end.

(** The three projections of a run. *)
Definition outcome {A} (m : M A) (w : World) : result A := (m w).1.1.
Definition final {A} (m : M A) (w : World) : World := (m w).1.2.
Definition log {A} (m : M A) (w : World) : list Event := (m w).2.

(** ** Python dictionary and list accesses *)

(** [d[k]] for a string literal [k] *)
Definition getitem {V} (d : gmap string V) (k : string) : M V :=
  match d !! k with
  | Some v => ret v
  | None => raise (KeyError (PStr k))
  end.

(** [d.get(k, dflt)] *)
Definition dict_get (d : gmap string pyval) (k : string) (dflt : pyval) : pyval :=
  default dflt (d !! k).

(** [k in d] and the value there, for a dictionary keyed by strings and a
    key that is any value: no other value equals a [str]. *)
Definition lookup_val {V} (d : gmap string V) (k : pyval) : option V :=
  match k with
  | PStr s => d !! s
  | _ => None
  end.

(** [d[k]] for such a dictionary *)
Definition getitem_val {V} (d : gmap string V) (k : pyval) : M V :=
  match lookup_val d k with
  | Some v => ret v
  | None => raise (KeyError k)
  end.

(** [l[-1]] *)
Definition last_item (l : list pyval) : M pyval :=
  match last l with
  | Some x => ret x
  | None => raise IndexError
  end.

(** [n - 1] where it is defined: [bool] is a subclass of [int]; [None] and
    [str] have no [-]. *)
Definition sub1 (n : pyval) : option pyval :=
  match n with
  | PInt z => Some (PInt (z - 1))
  | PBool b => Some (PInt (Z.b2z b - 1))
  | PFloat f => Some (PFloat (f - 1)%float)
  | PNone | PStr _ => None
  end.

Definition py_sub1 (n : pyval) : M pyval :=
  match sub1 n with
  | Some x => ret x
  | None => raise TypeError
  end.

(** [{'epoch': e, 'loss': l, **m}]: the keys of [m] come last and win. *)
Definition final_row (e l : pyval) (m : gmap string pyval) : gmap string pyval :=
  m ∪ <["loss" := l]> (<["epoch" := e]> ∅).

(** [{'epoch': i, 'loss': loss}] *)
Definition epoch_row (i : nat) (loss : pyval) : gmap string pyval :=
  <["loss" := loss]> (<["epoch" := PInt (Z.of_nat i)]> ∅).

(** [for p in model.parameters(): p.requires_grad = False] *)
Definition freeze (m : STModel) : STModel :=
  {| st_name := st_name m; st_dim := st_dim m;
     st_params := map (λ p, {| p_data := p_data p; requires_grad := false |})
                      (st_params m) |}.

Definition frozen (m : STModel) : Prop :=
  Forall (λ p, requires_grad p = false) (st_params m).

Definition exp_name : string := "linear".

(** ** The launcher *)

Section Launcher.

(** *** The external libraries, as parameters *)

(** [get_proj_dir()] *)
Variable proj_dir : string.
(** [repr] of a float, as an f-string prints it *)
Variable float_repr : float → string.
(** [SentenceTransformer(model_name, device=device)] *)
Variable SentenceTransformer : pyval → STModel.
(** The initial state dict of [LinearAdapter(model, dim, query_only=...,
    separate_embeddings=...)]; the last argument is the identity of the
    new object, so that two adapters need not start equal. *)
Variable LinearAdapter_init : STModel → nat → bool → bool → nat → StateDict.
(** [adapter.fit(dataset, ...)]: the trained state dict and the losses,
    one per epoch. *)
Variable fit : Adapter → Dataset → FitArgs → StateDict * list pyval.
(** [get_mteb_results(task, path, model=...)] *)
Variable get_mteb_results : pyval → string → EvalModel → Results.
(** The snapshot directory inside [LocalLogger(key, value, variant)],
    given the one outside. *)
Variable local_snapshot_dir : string → string → variant_t → string → string.

(** [str(v)], what an f-string puts for [{v}] *)
Definition py_str (v : pyval) : string :=
  match v with
  | PNone => "None"
  | PBool true => "True"
  | PBool false => "False"
  | PInt z => pretty z
  | PFloat f => float_repr f
  | PStr s => s
  end.

(** [os.path.join(a, *p)] where the components are any values: a
    component that is not a [str] is a [TypeError]. *)
Definition path_join (a : string) (p : list pyval) : M string :=
  let* comps :=
    (fix go (l : list pyval) : M (list string) :=
       match l with
       | [] => ret []
       | PStr s :: l' => let* r := go l' in ret (s :: r)
       | _ :: _ => raise TypeError
       end) p in
  ret (posixpath.join a comps).

(** *** Calls into the libraries *)

Definition SentenceTransformer_new (model_name : pyval) : M STModel :=
  emit (EvSentenceTransformer model_name) ;;
  ret (SentenceTransformer model_name).

(** [LinearAdapter(model, dim, query_only=q, separate_embeddings=s)
      .to(device)]: a new object on the heap. *)
Definition LinearAdapter_new (model : STModel) (dim : nat)
    (query_only separate_embeddings : bool) : M nat :=
  let* w := get in
  let r := next_id w in
  let a := {| a_base := model; a_dim := dim; a_query_only := query_only;
              a_separate_embeddings := separate_embeddings;
              a_state := LinearAdapter_init model dim query_only
                           separate_embeddings r |} in
  modify (λ w, set_next_id (S r) (set_heap (<[r := a]> (heap w)) w)) ;;
  emit (EvLinearAdapter r a) ;;
  ret r.

Definition deref (r : nat) : M Adapter :=
  let* w := get in
  match heap w !! r with
  | Some a => ret a
  | None => raise (ReferenceError r)
  end.

Definition with_state (a : Adapter) (sd : StateDict) : Adapter :=
  {| a_base := a_base a; a_dim := a_dim a; a_query_only := a_query_only a;
     a_separate_embeddings := a_separate_embeddings a; a_state := sd |}.

(** [os.path.exists(path)] *)
Definition path_exists (path : string) : M bool :=
  let* w := get in ret (bool_decide (is_Some (files w !! path))).

(** [torch.load(path)] *)
Definition torch_load (path : string) : M StateDict :=
  let* w := get in
  match files w !! path with
  | Some sd => ret sd
  | None => raise (FileNotFoundError path)
  end.

(** [adapted_model.load_state_dict(sd)] *)
Definition load_state_dict (r : nat) (path : string) (sd : StateDict) : M unit :=
  let* a := deref r in
  modify (λ w, set_heap (<[r := with_state a sd]> (heap w)) w) ;;
  emit (EvLoadStateDict r path).

(** Modelled from the spec: [LinearAdapter.fit] is defined in
    [adapt_embed.models.linear.linear], which is not part of the sources.
    The specification speaks of "a thin wrapper calling an external
    model's fit" and of "resumable training via checkpoint-file existence
    checks": [adapted_model.fit(ds, ..., model_save_path=weights_file)]
    trains the adapter in place, saves its state dict at
    [model_save_path], and returns the losses. *)
Definition fit_call (r : nat) (ds : Dataset) (args : FitArgs) : M (list pyval) :=
  let* a := deref r in
  emit (EvFit r a ds args) ;;
  let '(sd, losses) := fit a ds args in
  modify (λ w, set_files (<[fa_model_save_path args := sd]> (files w))
                 (set_heap (<[r := with_state a sd]> (heap w)) w)) ;;
  ret losses.

(** [with torch.no_grad(): dst.model[0].weight.copy_(src.model[0].weight);
                           dst.model[0].bias.copy_(src.model[0].bias)] *)
Definition copy_weight_and_bias (dst src : nat) : M unit :=
  let* d := deref dst in
  let* s := deref src in
  let sd := {| weight0 := weight0 (a_state s); bias0 := bias0 (a_state s);
               sd_rest := sd_rest (a_state d) |} in
  modify (λ w, set_heap (<[dst := with_state d sd]> (heap w)) w) ;;
  emit (EvCopyWeights dst src).

Definition get_snapshot_dir : M string :=
  let* w := get in ret (snapshot_dir w).

(** Modelled from the spec: [LocalLogger] is defined in [adapt_embed.utils],
    which is not part of the sources.  The specification speaks of
    "per-variant directory/logging isolation": inside
    [with LocalLogger(key, value, variant):] the logger has a snapshot
    directory of its own, and the previous one is back on exit, also when
    the body raises. *)
Definition LocalLogger {A} (key value : string) (variant : variant_t)
    (body : M A) : M A :=
  let* outer := get_snapshot_dir in
  emit (EvEnter key value) ;;
  modify (set_snapshot_dir (local_snapshot_dir key value variant outer)) ;;
  finally body
    (modify (set_snapshot_dir outer) ;; emit (EvExit key value)).

Definition record_dict (row : gmap string pyval) : M unit :=
  emit (EvRecordDict row).
Definition dump_tabular : M unit := emit EvDumpTabular.

(** *** [run_experiment] and its closures *)

(** The locals of [run_experiment] its closures read. *)
Record Env := {
  model : STModel;
  task : pyval;
  split : pyval;
  num_epochs : pyval;
  lr : pyval;
  batch_size : pyval;
  triplet_margin : pyval;
  loss_type : pyval;
  data_negative_sampling : pyval;
  data_synthetic_gen : pyval;
  data_augmentation_threshold : pyval
}.

(** [TripletDataset(MTEB(tasks=[task]).tasks[0], split=split,
      relevance_threshold=0.5, negative_sampling=..., synthetic_data=...,
      data_augmentation_threshold=...)], and [PairwiseScoreDataset] with
    [normalized=True] besides: the object whose identity is [id]. *)
Definition mk_dataset (env : Env) (kind : DatasetKind)
    (normalized : option bool) (id : nat) : Dataset :=
  {| ds_id := id; ds_kind := kind;
     ds_task := task env; ds_split := split env;
     ds_relevance_threshold := 0.5%float;
     ds_normalized := normalized;
     ds_negative_sampling := data_negative_sampling env;
     ds_synthetic_data := data_synthetic_gen env;
     ds_data_augmentation_threshold := data_augmentation_threshold env |}.

Definition new_dataset (env : Env) (kind : DatasetKind)
    (normalized : option bool) : M Dataset :=
  let* w := get in
  let d := mk_dataset env kind normalized (next_id w) in
  modify (λ w, set_next_id (S (next_id w)) w) ;;
  emit (EvDataset d) ;;
  ret d.

Definition get_dataset (env : Env) : M Dataset :=
  let* w := get in
  match dataset w with
  | None =>
      let* d :=
        (if py_eq_str (loss_type env) "triplet"
         then new_dataset env TripletDataset None
         else new_dataset env PairwiseScoreDataset (Some true)) in
      modify (set_dataset (Some d)) ;;
      ret d
  | Some d => ret d
  end.

Definition get_results (env : Env) (r : nat) (task : pyval) : M Results :=
  let* dir := get_snapshot_dir in
  let path := posixpath.join dir ["results.json"] in
  let* a := deref r in
  emit (EvMtebResults task path (EvalAdapter a)) ;;
  ret (get_mteb_results task path (EvalAdapter a)).

Definition train_and_evaluate (env : Env) (adapted_model : nat)
    (weights_file : string) (adapter_type : string) (force : bool)
    : M Results :=
  emit (EvMakedirs (posixpath.dirname weights_file)) ;;
  let losses : list pyval := [] in
  let* ex := path_exists weights_file in
  let* losses :=
    (if ex && negb force then
       let* sd := torch_load weights_file in
       load_state_dict adapted_model weights_file sd ;;
       ret losses
     else
       emit (EvPrint ("Training " +:+ adapter_type +:+ " Linear Adapter...")) ;;
       let* ds := get_dataset env in
       fit_call adapted_model ds
         {| fa_num_epochs := num_epochs env; fa_lr := lr env;
            fa_batch_size := batch_size env;
            fa_loss_type := loss_type env;
            fa_margin := triplet_margin env;
            fa_model_save_path := weights_file |}) in
  let* results := get_results env adapted_model (task env) in
  (* log last first so all the results keys are added *)
  let* e := py_sub1 (num_epochs env) in
  let* l := last_item losses in
  let* by_split := getitem_val results (task env) in
  let* metrics := getitem_val by_split (split env) in
  record_dict (final_row e l metrics) ;;
  dump_tabular ;;
  for_each (imap (λ i loss, (i, loss)) (removelast losses))   (* log rest *)
    (λ '(i, loss), record_dict (epoch_row i loss) ;; dump_tabular) ;;
  ret results.

Definition run_experiment (variant : variant_t) : M unit :=
  let* model_name := getitem variant "model_name" in
  let* task := getitem variant "task" in
  let* split := getitem variant "split" in
  let* num_epochs := getitem variant "num_epochs" in
  let* lr := getitem variant "lr" in
  let* batch_size := getitem variant "batch_size" in
  let triplet_margin := dict_get variant "triplet_margin" PNone in
  let* loss_type := getitem variant "loss_type" in
  let data_negative_sampling :=
    dict_get variant "data_negative_sampling" (PBool true) in
  let data_synthetic_gen :=
    dict_get variant "data_synthetic_gen" (PBool false) in
  let data_augmentation_threshold :=
    dict_get variant "data_augmentation_threshold" (PInt 10) in
  let force := dict_get variant "force" (PBool false) in
  if is_None triplet_margin && py_eq_str loss_type "triplet" then
    raise (ValueError "Must provide triplet_margin if using triplet loss.")
  else if negb (py_in_strs loss_type ["triplet"; "mse"; "bce"]) then
    raise (ValueError ("Invalid loss type: " +:+ py_str loss_type))
  else
  let* model := SentenceTransformer_new model_name in
  let model := freeze model in
  modify (set_dataset None) ;;
  let env :=
    {| model := model; task := task; split := split;
       num_epochs := num_epochs; lr := lr; batch_size := batch_size;
       triplet_margin := triplet_margin; loss_type := loss_type;
       data_negative_sampling := data_negative_sampling;
       data_synthetic_gen := data_synthetic_gen;
       data_augmentation_threshold := data_augmentation_threshold |} in
  let results : gmap string Results := ∅ in
  let* results :=
    LocalLogger "adapter_type" "query_adapted" variant
      (let* dir := get_snapshot_dir in
       let qa_weights_file :=
         posixpath.join dir ["weights_query_adapted.pt"] in
       let* q_adapted_model :=
         LinearAdapter_new model (st_dim model) true false in
       let* r := train_and_evaluate env q_adapted_model qa_weights_file
                   "Query-Adapted" false in
       ret (q_adapted_model, <["query_adapted" := r]> results)) in
  let '(q_adapted_model, results) := results in
  let* results :=
    LocalLogger "adapter_type" "adapted" variant
      (let* dir := get_snapshot_dir in
       let weights_file := posixpath.join dir ["weights.pt"] in
       let* adapted_model :=
         LinearAdapter_new model (st_dim model) false false in
       let* r := train_and_evaluate env adapted_model weights_file
                   "Joint" false in
       ret (<["adapted" := r]> results)) in
  let* results :=
    LocalLogger "adapter_type" "query_first" variant
      (let* dir := get_snapshot_dir in
       let query_first_weights_file :=
         posixpath.join dir ["weights_query_first.pt"] in
       let* query_first_adapted_model :=
         LinearAdapter_new model (st_dim model) false false in
       copy_weight_and_bias query_first_adapted_model q_adapted_model ;;
       let* r := train_and_evaluate env query_first_adapted_model
                   query_first_weights_file "Query-First" false in
       ret (<["query_first" := r]> results)) in
  let* results :=
    LocalLogger "adapter_type" "separate" variant
      (let* dir := get_snapshot_dir in
       let separate_weights_file :=
         posixpath.join dir ["weights_separate.pt"] in
       let* separate_adapted_model :=
         LinearAdapter_new model (st_dim model) false true in
       let* r := train_and_evaluate env separate_adapted_model
                   separate_weights_file "Separate" false in
       ret (<["separate" := r]> results)) in
  let* baseline_path :=
    path_join proj_dir
      [PStr "results"; model_name; PStr (py_str task +:+ ".json")] in
  emit (EvMtebResults task baseline_path (EvalBase model)) ;;
  let baseline_results :=
    get_mteb_results task baseline_path (EvalBase model) in
  let* r_adapted := getitem results "adapted" in
  let* r_query_adapted := getitem results "query_adapted" in
  let* r_query_first := getitem results "query_first" in
  let* r_separate := getitem results "separate" in
  emit (EvPlotComparison
          [(baseline_results, "Baseline");
           (r_adapted, "Linear (Joint)");
           (r_query_adapted, "Linear (Query-Only)");
           (r_query_first, "Linear (Query-First)");
           (r_separate, "Linear (Separate)")]
          exp_name variant).

End Launcher.

(** * Paths *)

Module posixpath_facts.
Import posixpath.

Lemma contains_sep_app (a b : string) :
  contains_sep (a +:+ b) = contains_sep a || contains_sep b.
Proof.
  induction a as [|c a IH]; simpl; [done|].
  by rewrite IH, orb_assoc.
Qed.

Lemma basename_no_sep (f : string) :
  contains_sep f = false → basename f = f.
Proof.
  destruct f as [|c r]; simpl; [done|].
  intros [Hc Hr]%orb_false_elim. by rewrite Hr, Hc.
Qed.

Lemma basename_sep_app (d f : string) :
  contains_sep f = false → basename (d +:+ "/" +:+ f) = f.
Proof.
  intros Hf. induction d as [|c d IH]; simpl.
  - change ("" +:+ f) with f. by rewrite Hf.
  - rewrite contains_sep_app. simpl. by rewrite orb_true_r.
Qed.

Lemma endswith_sep_split (d : string) :
  endswith_sep d = true → ∃ d0, d = d0 +:+ "/".
Proof.
  induction d as [|c d IH]; simpl; [done|].
  destruct d as [|c' d'].
  - unfold is_sep. intros ->%Ascii.eqb_eq. by exists "".
  - intros [d0 ->]%IH. by exists (String c d0).
Qed.

Lemma startswith_no_sep (f : string) :
  contains_sep f = false → startswith_sep f = false.
Proof.
  destruct f as [|c r]; simpl; [done|]. by intros [? ?]%orb_false_elim.
Qed.

Lemma string_app_cons (c : ascii) (a b : string) :
  String c a +:+ b = String c (a +:+ b).
Proof. reflexivity. Qed.

Lemma string_app_assoc (a b c : string) : (a +:+ b) +:+ c = a +:+ (b +:+ c).
Proof.
  induction a as [|x a IH]; [done|]. by rewrite !string_app_cons, IH.
Qed.

(** The last component of [os.path.join(d, f)] is [f], whatever the
    directory, when [f] is a plain file name. *)
Lemma basename_join (d f : string) :
  contains_sep f = false → basename (join d [f]) = f.
Proof.
  intros Hf. unfold join, join_step. simpl.
  rewrite (startswith_no_sep f Hf).
  destruct (String.eqb d "") eqn:Hd; simpl.
  - apply String.eqb_eq in Hd as ->. simpl. by apply basename_no_sep.
  - destruct (endswith_sep d) eqn:He.
    + apply endswith_sep_split in He as [d0 ->].
      rewrite string_app_assoc. by apply basename_sep_app.
    + by apply basename_sep_app.
Qed.

(** Two plain file names that differ give different paths, in whatever
    directories they are put. *)
Lemma join_inj_name (d1 d2 f1 f2 : string) :
  contains_sep f1 = false → contains_sep f2 = false →
  join d1 [f1] = join d2 [f2] → f1 = f2.
Proof.
  intros H1 H2 Heq.
  rewrite <- (basename_join d1 f1 H1), <- (basename_join d2 f2 H2).
  by rewrite Heq.
Qed.

End posixpath_facts.

(** * Observing a log *)

(** Every event that is not the start or the end of a [LocalLogger] block,
    with the value of the innermost block around it ([""] outside any). *)
Fixpoint in_context (cur : list string) (t : list Event)
    : list (string * Event) :=
  match t with
  | [] => []
  | EvEnter _ v :: t' => in_context (v :: cur) t'
  | EvExit _ _ :: t' => in_context (tail cur) t'
  | e :: t' => (default "" (head cur), e) :: in_context cur t'
  end.

(** The calls of [fit]: the block, the adapter as it is when [fit] starts,
    the dataset and the keyword arguments. *)
Definition fit_of (ce : string * Event)
    : option (string * nat * Adapter * Dataset * FitArgs) :=
  match ce with
  | (c, EvFit r a d args) => Some (c, r, a, d, args)
  | _ => None
  end.

Definition fits (t : list Event)
    : list (string * nat * Adapter * Dataset * FitArgs) :=
  omap fit_of (in_context [] t).

(** The calls of [load_state_dict]. *)
Definition load_of (ce : string * Event) : option (string * nat * string) :=
  match ce with
  | (c, EvLoadStateDict r p) => Some (c, r, p)
  | _ => None
  end.

Definition loads (t : list Event) : list (string * nat * string) :=
  omap load_of (in_context [] t).

(** The calls of [get_mteb_results]. *)
Definition evaluation_of (ce : string * Event)
    : option (string * pyval * string * EvalModel) :=
  match ce with
  | (c, EvMtebResults task p m) => Some (c, task, p, m)
  | _ => None
  end.

Definition evaluations (t : list Event)
    : list (string * pyval * string * EvalModel) :=
  omap evaluation_of (in_context [] t).

(** The adapters constructed. *)
Definition adapter_of (ce : string * Event) : option (string * nat * Adapter) :=
  match ce with
  | (c, EvLinearAdapter r a) => Some (c, r, a)
  | _ => None
  end.

Definition adapters_built (t : list Event) : list (string * nat * Adapter) :=
  omap adapter_of (in_context [] t).

(** The datasets constructed. *)
Definition datasets_built (t : list Event) : list Dataset :=
  omap (λ e, match e with EvDataset d => Some d | _ => None end) t.

(** The calls of [plot_comparison]. *)
Definition plots (t : list Event)
    : list (list (Results * string) * string * variant_t) :=
  omap (λ e, match e with
             | EvPlotComparison s n v => Some (s, n, v)
             | _ => None
             end) t.

(** The rows of the tabular log: [record_dict] adds to the pending row,
    [dump_tabular] writes it out and starts a new one. *)
Fixpoint tabular_rows (pending : gmap string pyval) (t : list Event)
    : list (gmap string pyval) :=
  match t with
  | [] => []
  | EvRecordDict row :: t' => tabular_rows (row ∪ pending) t'
  | EvDumpTabular :: t' => pending :: tabular_rows ∅ t'
  | _ :: t' => tabular_rows pending t'
  end.

(** The events of the loop that logs the remaining epochs, from epoch [i]. *)
Fixpoint epoch_events (i : nat) (losses : list pyval) : list Event :=
  match losses with
  | [] => []
  | loss :: l => EvRecordDict (epoch_row i loss) :: EvDumpTabular
                 :: epoch_events (S i) l
  end.

(** * Running the monad *)

Lemma bind_Ok {A B} (m : M A) (k : A → M B) w a w1 t1 r w2 t2 :
  m w = (Ok a, w1, t1) → k a w1 = (r, w2, t2) →
  bind m k w = (r, w2, (t1 ++ t2)%list).
Proof. unfold bind. by intros -> ->. Qed.

Lemma bind_Raise {A B} (m : M A) (k : A → M B) w e w1 t1 :
  m w = (Raise e, w1, t1) → bind m k w = (Raise e, w1, t1).
Proof. unfold bind. by intros ->. Qed.

Lemma run_eta {A} (m : M A) w : m w = (outcome m w, final m w, log m w).
Proof. unfold outcome, final, log. by destruct (m w) as [[? ?] ?]. Qed.

Lemma for_each_epochs_from (i : nat) (l : list pyval) (w : World) :
  for_each (imap (λ j loss, (i + j, loss)) l)
    (λ '(i, loss), record_dict (epoch_row i loss) ;; dump_tabular) w
  = (Ok tt, w, epoch_events i l).
Proof.
  revert i. induction l as [|x l IH]; intros i; [done|].
  simpl. unfold bind at 1. unfold bind at 1. simpl.
  rewrite Nat.add_0_r.
  assert (imap ((λ j loss, (i + j, loss)) ∘ S) l
          = imap (λ j loss, (S i + j, loss)) l) as ->.
  { apply imap_ext. intros j y _. simpl. f_equal. lia. }
  by rewrite IH.
Qed.

Lemma for_each_epochs (l : list pyval) (w : World) :
  for_each (imap (λ i loss, (i, loss)) l)
    (λ '(i, loss), record_dict (epoch_row i loss) ;; dump_tabular) w
  = (Ok tt, w, epoch_events 0 l).
Proof. apply (for_each_epochs_from 0). Qed.

(** * Runs of [train_and_evaluate] *)

Section Runs.

Context (fit : Adapter → Dataset → FitArgs → StateDict * list pyval).
Context (get_mteb_results : pyval → string → EvalModel → Results).

Local Abbreviation train_and_evaluate' :=
  (train_and_evaluate fit get_mteb_results).

(** The dataset [get_dataset] returns, and the world it leaves. *)
Definition expected_kind (loss_type : pyval) : DatasetKind :=
  if py_eq_str loss_type "triplet" then TripletDataset
  else PairwiseScoreDataset.

Definition fresh_dataset (env : Env) (id : nat) : Dataset :=
  if py_eq_str (loss_type env) "triplet"
  then mk_dataset env TripletDataset None id
  else mk_dataset env PairwiseScoreDataset (Some true) id.

Lemma get_dataset_cached env w d :
  dataset w = Some d → get_dataset env w = (Ok d, w, []).
Proof. intros H. unfold get_dataset, bind, get. simpl. by rewrite H. Qed.

Lemma get_dataset_fresh env w :
  dataset w = None →
  get_dataset env w
  = (Ok (fresh_dataset env (next_id w)),
     set_dataset (Some (fresh_dataset env (next_id w)))
       (set_next_id (S (next_id w)) w),
     [EvDataset (fresh_dataset env (next_id w))]).
Proof.
  intros H. unfold get_dataset, fresh_dataset, bind, get. simpl. rewrite H.
  by destruct (py_eq_str (loss_type env) "triplet").
Qed.

Definition fit_args (env : Env) (weights_file : string) : FitArgs :=
  {| fa_num_epochs := num_epochs env; fa_lr := lr env;
     fa_batch_size := batch_size env; fa_loss_type := loss_type env;
     fa_margin := triplet_margin env; fa_model_save_path := weights_file |}.

(** The world after a call of [fit] on the adapter at [r]. *)
Definition trained (r : nat) (a : Adapter) (sd : StateDict)
    (weights_file : string) (w : World) : World :=
  set_files (<[weights_file := sd]> (files w))
    (set_heap (<[r := with_state a sd]> (heap w)) w).

(** The training path, when nothing raises. *)
Lemma train_and_evaluate_trains env r wf ty w a d w1 tds sd losses l e
    by_split metrics :
  heap w !! r = Some a →
  files w !! wf = None →
  get_dataset env w = (Ok d, w1, tds) →
  heap w1 = heap w → snapshot_dir w1 = snapshot_dir w →
  fit a d (fit_args env wf) = (sd, losses ++ [l]) →
  let path := posixpath.join (snapshot_dir w) ["results.json"] in
  let res := get_mteb_results (task env) path
               (EvalAdapter (with_state a sd)) in
  sub1 (num_epochs env) = Some e →
  lookup_val res (task env) = Some by_split →
  lookup_val by_split (split env) = Some metrics →
  train_and_evaluate' env r wf ty false w
  = (Ok res, trained r a sd wf w1,
     [EvMakedirs (posixpath.dirname wf);
      EvPrint ("Training " +:+ ty +:+ " Linear Adapter...")]
     ++ tds
     ++ [EvFit r a d (fit_args env wf);
         EvMtebResults (task env) path (EvalAdapter (with_state a sd));
         EvRecordDict (final_row e l metrics); EvDumpTabular]
     ++ epoch_events 0 losses)%list.
Proof.
  intros Hr Hf Hds Hh1 Hs1 Hfit path res He Hbs Hm.
  unfold train_and_evaluate. etrans.
  eapply bind_Ok; [reflexivity|].
  eapply bind_Ok; [reflexivity|]. simpl.
  rewrite Hf. rewrite bool_decide_eq_false_2 by (by intros [? ?]). simpl.
  eapply bind_Ok.
  { eapply bind_Ok; [reflexivity|]. eapply bind_Ok; [exact Hds|].
    unfold fit_call. eapply bind_Ok.
    { unfold deref, bind, get. simpl. rewrite Hh1, Hr. reflexivity. }
    eapply bind_Ok; [reflexivity|]. fold (fit_args env wf). rewrite Hfit.
    eapply bind_Ok; reflexivity. }
  simpl.
  eapply bind_Ok.
  { unfold get_results. eapply bind_Ok; [reflexivity|]. simpl.
    eapply bind_Ok.
    { unfold deref, bind, get. simpl. rewrite lookup_insert_eq. reflexivity. }
    eapply bind_Ok; reflexivity. }
  rewrite Hs1. change (posixpath.join_step _ _) with path.
  change (get_mteb_results _ _ _) with res.
  eapply bind_Ok; [unfold py_sub1; rewrite He; reflexivity|].
  eapply bind_Ok; [unfold last_item; rewrite last_snoc; reflexivity|].
  eapply bind_Ok; [unfold getitem_val; rewrite Hbs; reflexivity|].
  eapply bind_Ok; [unfold getitem_val; rewrite Hm; reflexivity|].
  eapply bind_Ok; [reflexivity|].
  eapply bind_Ok; [reflexivity|].
  eapply bind_Ok.
  { rewrite removelast_last. apply for_each_epochs. }
  reflexivity.
  simpl. by rewrite Hs1, app_nil_r, <- app_assoc.
Qed.

(** The resuming path: the state dict is loaded and the adapter is
    evaluated, and then [losses[-1]] is taken of the empty list. *)
Lemma train_and_evaluate_resumes env r wf ty w a sd e :
  heap w !! r = Some a →
  files w !! wf = Some sd →
  sub1 (num_epochs env) = Some e →
  train_and_evaluate' env r wf ty false w
  = (Raise IndexError,
     set_heap (<[r := with_state a sd]> (heap w)) w,
     [EvMakedirs (posixpath.dirname wf);
      EvLoadStateDict r wf;
      EvMtebResults (task env)
        (posixpath.join (snapshot_dir w) ["results.json"])
        (EvalAdapter (with_state a sd))]).
Proof.
  intros Hr Hf He.
  unfold train_and_evaluate. etrans.
  eapply bind_Ok; [reflexivity|].
  eapply bind_Ok; [reflexivity|]. simpl.
  rewrite Hf. rewrite bool_decide_eq_true_2 by eauto. simpl.
  eapply bind_Ok.
  { eapply bind_Ok.
    { unfold torch_load, bind, get. simpl. rewrite Hf. reflexivity. }
    eapply bind_Ok; [|reflexivity].
    unfold load_state_dict. eapply bind_Ok.
    { unfold deref, bind, get. simpl. rewrite Hr. reflexivity. }
    eapply bind_Ok; reflexivity. }
  simpl.
  eapply bind_Ok.
  { unfold get_results. eapply bind_Ok; [reflexivity|]. simpl.
    eapply bind_Ok.
    { unfold deref, bind, get. simpl. rewrite lookup_insert_eq. reflexivity. }
    eapply bind_Ok; reflexivity. }
  eapply bind_Ok; [unfold py_sub1; rewrite He; reflexivity|].
  apply bind_Raise. reflexivity.
  reflexivity.
Qed.

(** What [train_and_evaluate] logs on the training path. *)
Definition last_loss (losses : list pyval) : pyval :=
  default PNone (last losses).

Definition metrics_in (res : Results) (task split : pyval)
    : option (gmap string pyval) :=
  by_split ← lookup_val res task; lookup_val by_split split.

Definition train_log (env : Env) (ty : string) (r : nat) (a : Adapter)
    (wf rpath : string) (tds : list Event) (d : Dataset) : list Event :=
  let f := fit a d (fit_args env wf) in
  let res := get_mteb_results (task env) rpath
               (EvalAdapter (with_state a f.1)) in
  [EvMakedirs (posixpath.dirname wf);
   EvPrint ("Training " +:+ ty +:+ " Linear Adapter...")]
  ++ tds
  ++ [EvFit r a d (fit_args env wf);
      EvMtebResults (task env) rpath (EvalAdapter (with_state a f.1));
      EvRecordDict
        (final_row (default PNone (sub1 (num_epochs env)))
           (last_loss f.2)
           (default ∅ (metrics_in res (task env) (split env))));
      EvDumpTabular]
  ++ epoch_events 0 (removelast f.2).

Lemma snoc_removelast (ls : list pyval) :
  ls ≠ [] → ls = removelast ls ++ [last_loss ls].
Proof.
  intros H. destruct (exists_last H) as (l' & x & ->).
  unfold last_loss. by rewrite removelast_last, last_snoc.
Qed.

Lemma train_and_evaluate_trains_log env r wf ty w a d w1 tds :
  heap w !! r = Some a →
  files w !! wf = None →
  get_dataset env w = (Ok d, w1, tds) →
  heap w1 = heap w → snapshot_dir w1 = snapshot_dir w →
  (fit a d (fit_args env wf)).2 ≠ [] →
  is_Some (sub1 (num_epochs env)) →
  let rpath := posixpath.join (snapshot_dir w) ["results.json"] in
  let sd := (fit a d (fit_args env wf)).1 in
  let res := get_mteb_results (task env) rpath
               (EvalAdapter (with_state a sd)) in
  is_Some (metrics_in res (task env) (split env)) →
  train_and_evaluate' env r wf ty false w
  = (Ok res, trained r a sd wf w1, train_log env ty r a wf rpath tds d).
Proof.
  intros Hr Hf Hds Hh1 Hs1 Hne [e He] rpath sd res [m Hm].
  unfold metrics_in in Hm.
  destruct (lookup_val res (task env)) as [bs|] eqn:Hbs; [|done].
  simpl in Hm.
  unfold train_log. fold rpath. fold sd. fold res.
  rewrite He. unfold metrics_in. rewrite Hbs. simpl. rewrite Hm. simpl.
  eapply train_and_evaluate_trains; eauto.
  rewrite (surjective_pairing (fit _ _ _)). f_equal.
  by apply snoc_removelast.
Qed.

End Runs.

(** * Invariants of runs

    [keeps Inv E m]: from a world and a log that satisfy [Inv], the run of
    [m] ends in a world and a log that satisfy [Inv], whether it returns or
    raises, and an exception it raises satisfies [E]. *)

Section Keeps.

Context (Inv : World → list Event → Prop) (E : exn → Prop).

Definition keeps {A} (m : M A) : Prop :=
  ∀ w t0, Inv w t0 →
    Inv (final m w) (t0 ++ log m w) ∧ ∀ e, outcome m w = Raise e → E e.

Lemma keeps_ret {A} (a : A) : keeps (ret a).
Proof. intros w t0 H. unfold final, log, outcome. simpl.
       rewrite app_nil_r. by split. Qed.

Lemma keeps_raise {A} (e : exn) : E e → keeps (@raise A e).
Proof. intros He w t0 H. unfold final, log, outcome. simpl.
       rewrite app_nil_r. split; [done|]. by intros ? [= <-]. Qed.

Lemma keeps_get : keeps get.
Proof. intros w t0 H. unfold final, log, outcome. simpl.
       rewrite app_nil_r. by split. Qed.

Lemma keeps_emit (ev : Event) :
  (∀ w t, Inv w t → Inv w (t ++ [ev])) → keeps (emit ev).
Proof. intros Hev w t0 H. unfold final, log, outcome. simpl. by split; auto. Qed.

Lemma keeps_modify (f : World → World) :
  (∀ w t, Inv w t → Inv (f w) t) → keeps (modify f).
Proof. intros Hf w t0 H. unfold final, log, outcome. simpl.
       rewrite app_nil_r. by split; auto. Qed.

Lemma keeps_bind {A B} (m : M A) (k : A → M B) :
  keeps m → (∀ a, keeps (k a)) → keeps (bind m k).
Proof.
  intros Hm Hk w t0 H. specialize (Hm w t0 H).
  unfold final, log, outcome, bind in *.
  destruct (m w) as [[[a|e] w1] t1]; simpl in *.
  - destruct Hm as [Hm _]. specialize (Hk a w1 _ Hm).
    unfold final, log, outcome in Hk.
    destruct (k a w1) as [[r w2] t2]; simpl in *.
    by rewrite app_assoc.
  - destruct Hm as [? He]. split; [done|]. intros ? [= <-]. by apply He.
Qed.

Lemma keeps_finally {A} (m : M A) (h : M unit) :
  keeps m → keeps h → keeps (finally m h).
Proof.
  intros Hm Hh w t0 H. specialize (Hm w t0 H).
  unfold final, log, outcome, finally in *.
  destruct (m w) as [[r w1] t1]; simpl in *.
  destruct Hm as [Hm Hr]. specialize (Hh w1 _ Hm).
  unfold final, log, outcome in Hh.
  destruct (h w1) as [[[[]|e] w2] t2]; simpl in *.
  - rewrite app_assoc. split; [apply Hh|apply Hr].
  - rewrite app_assoc. destruct Hh as [? He]. split; [done|].
    intros ? [= <-]. by apply He.
Qed.

Lemma keeps_for_each {A} (l : list A) (body : A → M unit) :
  (∀ x, keeps (body x)) → keeps (for_each l body).
Proof.
  intros Hb. induction l as [|x l IH]; simpl.
  - apply keeps_ret.
  - apply keeps_bind; [apply Hb|]. intros _. apply IH.
Qed.

(** ** Stepping from a known world

    [wp m Φ Ψ w t0]: the run of [m] from [w], after the events [t0], ends
    in [Φ] if it returns and in [Ψ] if it raises. *)

Definition wp {A} (m : M A) (Φ : A → World → list Event → Prop)
    (Ψ : exn → World → list Event → Prop) (w : World) (t0 : list Event)
    : Prop :=
  match m w with
  | (Ok a, w', t) => Φ a w' (t0 ++ t)
  | (Raise e, w', t) => Ψ e w' (t0 ++ t)
  end.

Lemma wp_bind {A B} (m : M A) (k : A → M B) Φ Ψ w t0 :
  wp m (λ a w' t', wp (k a) Φ Ψ w' t') Ψ w t0 → wp (bind m k) Φ Ψ w t0.
Proof.
  unfold wp, bind. destruct (m w) as [[[a|e] w1] t1]; [|done].
  destruct (k a w1) as [[[b|e] w2] t2]; by rewrite app_assoc.
Qed.

Lemma wp_ret {A} (a : A) Φ Ψ w t0 : Φ a w t0 → wp (ret a) Φ Ψ w t0.
Proof. unfold wp. simpl. by rewrite app_nil_r. Qed.

Lemma wp_raise {A} (e : exn) (Φ : A → _) Ψ w t0 :
  Ψ e w t0 → wp (raise e) Φ Ψ w t0.
Proof. unfold wp. simpl. by rewrite app_nil_r. Qed.

Lemma wp_emit (ev : Event) Φ Ψ w t0 :
  Φ tt w (t0 ++ [ev]) → wp (emit ev) Φ Ψ w t0.
Proof. done. Qed.

Lemma wp_modify (f : World → World) Φ Ψ w t0 :
  Φ tt (f w) t0 → wp (modify f) Φ Ψ w t0.
Proof. unfold wp. simpl. by rewrite app_nil_r. Qed.

Lemma wp_get Φ Ψ w t0 : Φ w w t0 → wp get Φ Ψ w t0.
Proof. unfold wp. simpl. by rewrite app_nil_r. Qed.

Lemma wp_finally {A} (m : M A) (h : M unit) Φ Ψ w t0 :
  wp m (λ a w1 t1, wp h (λ _, Φ a) Ψ w1 t1)
       (λ e w1 t1, wp h (λ _, Ψ e) Ψ w1 t1) w t0 →
  wp (finally m h) Φ Ψ w t0.
Proof.
  unfold wp, finally. destruct (m w) as [[[a|e] w1] t1];
    destruct (h w1) as [[[[]|e'] w2] t2]; by rewrite app_assoc.
Qed.

Lemma wp_keeps {A} (m : M A) Φ Ψ w t0 :
  keeps m → Inv w t0 →
  (∀ a w' t', Inv w' t' → Φ a w' t') →
  (∀ e w' t', Inv w' t' → E e → Ψ e w' t') →
  wp m Φ Ψ w t0.
Proof.
  intros Hm H HΦ HΨ. specialize (Hm w t0 H).
  unfold final, log, outcome, wp in *.
  destruct (m w) as [[[a|e] w1] t1]; simpl in *.
  - apply HΦ, Hm.
  - destruct Hm as [? He]. apply HΨ; [done|]. by apply He.
Qed.

Lemma wp_run {A} (m : M A) Φ Ψ w :
  wp m Φ Ψ w [] →
  match outcome m w with
  | Ok a => Φ a (final m w) (log m w)
  | Raise e => Ψ e (final m w) (log m w)
  end.
Proof.
  unfold wp, outcome, final, log. by destruct (m w) as [[[a|e] w1] t1].
Qed.

End Keeps.


(** * Runs of [run_experiment] *)

Section Experiment.

Context (proj_dir : string).
Context (float_repr : float → string).
Context (SentenceTransformer : pyval → STModel).
Context (LinearAdapter_init : STModel → nat → bool → bool → nat → StateDict).
Context (fit : Adapter → Dataset → FitArgs → StateDict * list pyval).
Context (get_mteb_results : pyval → string → EvalModel → Results).
Context (local_snapshot_dir : string → string → variant_t → string → string).

Local Abbreviation run_experiment' :=
  (run_experiment proj_dir float_repr SentenceTransformer LinearAdapter_init
     fit get_mteb_results local_snapshot_dir).
Local Abbreviation LocalLogger' := (LocalLogger local_snapshot_dir).
Local Abbreviation LinearAdapter_new' :=
  (LinearAdapter_new LinearAdapter_init).
Local Abbreviation train_log' := (train_log fit get_mteb_results).

(** ** The variants that pass the checks of [run_experiment] *)

(** [variant[k]], or [None] where [variant.get(k)] would give it. *)
Definition field (v : variant_t) (k : string) : pyval := dict_get v k PNone.

Definition required_keys : list string :=
  ["model_name"; "task"; "split"; "num_epochs"; "lr"; "batch_size";
   "loss_type"].

Definition has_required_keys (v : variant_t) : Prop :=
  Forall (λ k, is_Some (v !! k)) required_keys.

(** The condition under which [run_experiment] raises its [ValueError]. *)
Definition invalid_loss (v : variant_t) : bool :=
  negb (py_in_strs (field v "loss_type") ["triplet"; "mse"; "bce"])
  || (py_eq_str (field v "loss_type") "triplet"
      && is_None (field v "triplet_margin")).

(** The base model and the locals of [run_experiment], for a variant that
    has the required keys. *)
Definition base_model (v : variant_t) : STModel :=
  freeze (SentenceTransformer (field v "model_name")).

Definition env_of (v : variant_t) : Env :=
  {| model := base_model v;
     task := field v "task";
     split := field v "split";
     num_epochs := field v "num_epochs";
     lr := field v "lr";
     batch_size := field v "batch_size";
     triplet_margin := field v "triplet_margin";
     loss_type := field v "loss_type";
     data_negative_sampling :=
       dict_get v "data_negative_sampling" (PBool true);
     data_synthetic_gen := dict_get v "data_synthetic_gen" (PBool false);
     data_augmentation_threshold :=
       dict_get v "data_augmentation_threshold" (PInt 10) |}.

(** The snapshot directory of the block of one adapter type. *)
Definition block_dir (v : variant_t) (w : World) (k : string) : string :=
  local_snapshot_dir "adapter_type" k v (snapshot_dir w).

(** The four blocks: the value of [adapter_type] and the weights file. *)
Definition blocks : list (string * string) :=
  [("query_adapted", "weights_query_adapted.pt");
   ("adapted", "weights.pt");
   ("query_first", "weights_query_first.pt");
   ("separate", "weights_separate.pt")].

Definition weights_path (v : variant_t) (w : World) (b : string * string)
    : string :=
  posixpath.join (block_dir v w b.1) [b.2].

(** ** The run in which every adapter is trained *)

(** Nothing to resume from, [fit] gives a loss per epoch and there is at
    least one, the results have the task and the split of the variant, and
    the values of the variant have the types the launcher needs. *)
Record trains_all (v : variant_t) (w : World) : Prop := {
  ta_keys : has_required_keys v;
  ta_valid : invalid_loss v = false;
  ta_model_name : ∃ s, field v "model_name" = PStr s;
  ta_epochs : is_Some (sub1 (field v "num_epochs"));
  ta_no_checkpoint :
    Forall (λ b, files w !! weights_path v w b = None) blocks;
  ta_losses : ∀ a d args, (fit a d args).2 ≠ [];
  ta_metrics : ∀ p a,
    is_Some (metrics_in (get_mteb_results (field v "task") p (EvalAdapter a))
               (field v "task") (field v "split"))
}.

Definition new_adapter (m : STModel) (q s : bool) (r : nat) : Adapter :=
  {| a_base := m; a_dim := st_dim m; a_query_only := q;
     a_separate_embeddings := s;
     a_state := LinearAdapter_init m (st_dim m) q s r |}.

(** [dst] after the weight and the bias of [src] were copied into it. *)
Definition warm_start (dst : Adapter) (src : StateDict) : Adapter :=
  with_state dst {| weight0 := weight0 src; bias0 := bias0 src;
                    sd_rest := sd_rest (a_state dst) |}.

(** What one [with LocalLogger(...)] block logs: [a0] is the adapter as
    constructed, [pre] what happens before [train_and_evaluate], [a] the
    adapter as [fit] finds it. *)
Definition block_log (v : variant_t) (w : World) (b : string * string)
    (ty : string) (r : nat) (a0 : Adapter) (pre : list Event) (a : Adapter)
    (tds : list Event) (d : Dataset) : list Event :=
  [EvEnter "adapter_type" b.1; EvLinearAdapter r a0] ++ pre
  ++ train_log' (env_of v) ty r a (weights_path v w b)
       (posixpath.join (block_dir v w b.1) ["results.json"]) tds d
  ++ [EvExit "adapter_type" b.1].

(** The state dict and the results of a block. *)
Definition block_fit (v : variant_t) (w : World) (b : string * string)
    (a : Adapter) (d : Dataset) : StateDict :=
  (fit a d (fit_args (env_of v) (weights_path v w b))).1.

Definition block_results (v : variant_t) (w : World) (b : string * string)
    (a : Adapter) (d : Dataset) : Results :=
  get_mteb_results (field v "task")
    (posixpath.join (block_dir v w b.1) ["results.json"])
    (EvalAdapter (with_state a (block_fit v w b a d))).

Definition b_query_adapted := ("query_adapted", "weights_query_adapted.pt").
Definition b_adapted := ("adapted", "weights.pt").
Definition b_query_first := ("query_first", "weights_query_first.pt").
Definition b_separate := ("separate", "weights_separate.pt").

Definition baseline_path (v : variant_t) : string :=
  posixpath.join proj_dir
    ["results"; py_str float_repr (field v "model_name");
     py_str float_repr (field v "task") +:+ ".json"].

Section expected.
Variables (v : variant_t) (w : World).

Let n := next_id w.
Let m := base_model v.
Let d := fresh_dataset (env_of v) (S n).
Let a1 := new_adapter m true false n.
Let a2 := new_adapter m false false (2 + n).
Let a3 := new_adapter m false false (3 + n).
Let a3w := warm_start a3 (block_fit v w b_query_adapted a1 d).
Let a4 := new_adapter m false true (4 + n).

(** The log of the run in which every adapter is trained. *)
Definition expected_log : list Event :=
  [EvSentenceTransformer (field v "model_name")]
  ++ block_log v w b_query_adapted "Query-Adapted" n a1 [] a1
       [EvDataset d] d
  ++ block_log v w b_adapted "Joint" (2 + n) a2 [] a2 [] d
  ++ block_log v w b_query_first "Query-First" (3 + n) a3
       [EvCopyWeights (3 + n) n] a3w [] d
  ++ block_log v w b_separate "Separate" (4 + n) a4 [] a4 [] d
  ++ [EvMtebResults (field v "task") (baseline_path v) (EvalBase m);
      EvPlotComparison
        [(get_mteb_results (field v "task") (baseline_path v) (EvalBase m),
          "Baseline");
         (block_results v w b_adapted a2 d, "Linear (Joint)");
         (block_results v w b_query_adapted a1 d, "Linear (Query-Only)");
         (block_results v w b_query_first a3w d, "Linear (Query-First)");
         (block_results v w b_separate a4 d, "Linear (Separate)")]
        exp_name v].
End expected.

(** ** Stepping through the blocks *)

Lemma field_Some v k : is_Some (v !! k) → v !! k = Some (field v k).
Proof. intros [x Hx]. unfold field, dict_get. by rewrite Hx. Qed.

Lemma getitem_field (v : variant_t) k w :
  is_Some (v !! k) → getitem v k w = (Ok (field v k), w, []).
Proof. intros H. unfold getitem. by rewrite (field_Some v k H). Qed.

Lemma LocalLogger_Ok {A} key value v (body : M A) w a w1 t :
  body (set_snapshot_dir (local_snapshot_dir key value v (snapshot_dir w)) w)
    = (Ok a, w1, t) →
  LocalLogger' key value v body w
  = (Ok a, set_snapshot_dir (snapshot_dir w) w1,
     EvEnter key value :: t ++ [EvExit key value]).
Proof.
  intros H. unfold LocalLogger, finally, bind, get_snapshot_dir,
    get, emit, modify, ret. simpl. by rewrite H.
Qed.

Lemma LocalLogger_Raise {A} key value v (body : M A) w e w1 t :
  body (set_snapshot_dir (local_snapshot_dir key value v (snapshot_dir w)) w)
    = (Raise e, w1, t) →
  LocalLogger' key value v body w
  = (Raise e, set_snapshot_dir (snapshot_dir w) w1,
     EvEnter key value :: t ++ [EvExit key value]).
Proof.
  intros H. unfold LocalLogger, finally, bind, get_snapshot_dir,
    get, emit, modify, ret. simpl. by rewrite H.
Qed.

Lemma copy_weight_and_bias_Ok dst src w d s :
  heap w !! dst = Some d → heap w !! src = Some s →
  copy_weight_and_bias dst src w
  = (Ok tt, set_heap (<[dst := warm_start d (a_state s)]> (heap w)) w,
     [EvCopyWeights dst src]).
Proof.
  intros Hd Hs. unfold copy_weight_and_bias, deref, bind, get, ret, modify,
    emit. simpl. rewrite Hd. simpl. by rewrite Hs.
Qed.

(** The weights files of two different blocks are different files, whatever
    the snapshot directories are. *)
Lemma weights_path_inj v w b1 b2 :
  b1 ∈ blocks → b2 ∈ blocks →
  weights_path v w b1 = weights_path v w b2 → b1 = b2.
Proof.
  intros H1 H2 Heq. unfold weights_path in Heq.
  apply posixpath_facts.join_inj_name in Heq.
  - unfold blocks in H1, H2.
    repeat (apply elem_of_cons in H1 as [->|H1]);
      repeat (apply elem_of_cons in H2 as [->|H2]);
      try done; try (by apply elem_of_nil in H1);
      try (by apply elem_of_nil in H2).
  - unfold blocks in H1.
    repeat (apply elem_of_cons in H1 as [->|H1]); try done.
    by apply elem_of_nil in H1.
  - unfold blocks in H2.
    repeat (apply elem_of_cons in H2 as [->|H2]); try done.
    by apply elem_of_nil in H2.
Qed.

(** ** One block of the run in which every adapter is trained *)

Section blocks.
Variables (v : variant_t) (w : World).
Hypothesis Hall : trains_all v w.

(** The dataset [get_dataset] gives in world [w0], and what it logs. *)
Definition dataset_at (w0 : World) : Dataset :=
  default (fresh_dataset (env_of v) (next_id w0)) (dataset w0).

Definition dataset_events (w0 : World) : list Event :=
  match dataset w0 with
  | Some _ => []
  | None => [EvDataset (dataset_at w0)]
  end.

Definition next_id_after_dataset (w0 : World) : nat :=
  match dataset w0 with
  | Some _ => next_id w0
  | None => S (next_id w0)
  end.

(** [train_and_evaluate] on the training path, with the world it leaves
    described field by field. *)
Lemma train_and_evaluate_block r a wf ty w0 :
  heap w0 !! r = Some a →
  files w0 !! wf = None →
  let d := dataset_at w0 in
  let rpath := posixpath.join (snapshot_dir w0) ["results.json"] in
  let sd := (fit a d (fit_args (env_of v) wf)).1 in
  ∃ w1,
    train_and_evaluate fit get_mteb_results (env_of v) r wf ty false w0
    = (Ok (get_mteb_results (field v "task") rpath
             (EvalAdapter (with_state a sd))),
       w1, train_log' (env_of v) ty r a wf rpath (dataset_events w0) d)
    ∧ files w1 = <[wf := sd]> (files w0)
    ∧ heap w1 = <[r := with_state a sd]> (heap w0)
    ∧ dataset w1 = Some d
    ∧ snapshot_dir w1 = snapshot_dir w0
    ∧ next_id w1 = next_id_after_dataset w0.
Proof.
  intros Hr Hf d rpath sd. destruct Hall as [_ _ _ He _ Hl Hm].
  subst d rpath sd.
  unfold dataset_events, next_id_after_dataset, dataset_at.
  destruct (dataset w0) as [d0|] eqn:Hd; simpl.
  - eexists. split.
    + eapply train_and_evaluate_trains_log;
        [exact Hr|exact Hf|by apply get_dataset_cached|done|done
        |apply Hl|exact He|apply Hm].
    + by simpl.
  - eexists. split.
    + eapply train_and_evaluate_trains_log;
        [exact Hr|exact Hf|by apply get_dataset_fresh|done|done
        |apply Hl|exact He|apply Hm].
    + by simpl.
Qed.

Local Abbreviation m := (base_model v).

(** A block that builds an adapter and trains it, as the blocks of
    [query_adapted], [adapted] and [separate] do; [post] is what the block
    does with the adapter and its results. *)
Lemma plain_block {R} (b : string * string) ty q s (post : nat → Results → R)
    w0 :
  snapshot_dir w0 = snapshot_dir w →
  files w0 !! weights_path v w b = None →
  let r := next_id w0 in
  let a := new_adapter m q s r in
  let d := default (fresh_dataset (env_of v) (S r)) (dataset w0) in
  let tds := match dataset w0 with Some _ => [] | None => [EvDataset d] end in
  ∃ w1,
    LocalLogger' "adapter_type" b.1 v
      (let* dir := get_snapshot_dir in
       let* r := LinearAdapter_new' m (st_dim m) q s in
       let* res := train_and_evaluate fit get_mteb_results (env_of v) r
                     (posixpath.join dir [b.2]) ty false in
       ret (post r res)) w0
    = (Ok (post r (block_results v w b a d)), w1,
       block_log v w b ty r a [] a tds d)
    ∧ files w1 = <[weights_path v w b := block_fit v w b a d]> (files w0)
    ∧ heap w1 = <[r := with_state a (block_fit v w b a d)]>
                  (<[r := a]> (heap w0))
    ∧ dataset w1 = Some d
    ∧ snapshot_dir w1 = snapshot_dir w0
    ∧ next_id w1 = match dataset w0 with Some _ => S r | None => S (S r) end.
Proof.
  intros Hs Hf r a d tds.
  set (w0' := set_snapshot_dir (block_dir v w b.1) w0).
  set (wm := set_next_id (S r) (set_heap (<[r := a]> (heap w0')) w0')).
  destruct (train_and_evaluate_block r a (weights_path v w b) ty wm)
    as (w1 & Hrun & Hfi & Hh & Hd & Hsd & Hn).
  { apply lookup_insert_eq. }
  { exact Hf. }
  exists (set_snapshot_dir (snapshot_dir w0) w1). split.
  - etrans.
    { eapply LocalLogger_Ok. rewrite Hs. fold (block_dir v w b.1). fold w0'.
      eapply bind_Ok; [reflexivity|].
      eapply bind_Ok; [reflexivity|].
      eapply bind_Ok; [exact Hrun|reflexivity]. }
    unfold block_log, block_results, block_fit, tds, d, dataset_events,
      dataset_at. simpl. rewrite app_nil_r.
    by destruct (dataset w0).
  - simpl. rewrite Hfi, Hh, Hd, Hn. unfold next_id_after_dataset, dataset_at.
    simpl. unfold block_fit, d, dataset_at. simpl.
    by destruct (dataset w0).
Qed.

(** The block of [query_first]: the adapter starts from the weight and the
    bias of the adapter at [src]. *)
Lemma warm_block {R} (b : string * string) ty q s (post : nat → Results → R)
    w0 src asrc :
  snapshot_dir w0 = snapshot_dir w →
  files w0 !! weights_path v w b = None →
  heap w0 !! src = Some asrc → src ≠ next_id w0 →
  let r := next_id w0 in
  let a0 := new_adapter m q s r in
  let a := warm_start a0 (a_state asrc) in
  let d := default (fresh_dataset (env_of v) (S r)) (dataset w0) in
  let tds := match dataset w0 with Some _ => [] | None => [EvDataset d] end in
  ∃ w1,
    LocalLogger' "adapter_type" b.1 v
      (let* dir := get_snapshot_dir in
       let* r := LinearAdapter_new' m (st_dim m) q s in
       copy_weight_and_bias r src ;;
       let* res := train_and_evaluate fit get_mteb_results (env_of v) r
                     (posixpath.join dir [b.2]) ty false in
       ret (post r res)) w0
    = (Ok (post r (block_results v w b a d)), w1,
       block_log v w b ty r a0 [EvCopyWeights r src] a tds d)
    ∧ files w1 = <[weights_path v w b := block_fit v w b a d]> (files w0)
    ∧ dataset w1 = Some d
    ∧ snapshot_dir w1 = snapshot_dir w0
    ∧ next_id w1 = match dataset w0 with Some _ => S r | None => S (S r) end.
Proof.
  intros Hs Hf Hsrc Hne r a0 a d tds.
  set (w0' := set_snapshot_dir (block_dir v w b.1) w0).
  set (wn := set_next_id (S r) (set_heap (<[r := a0]> (heap w0')) w0')).
  set (wm := set_heap (<[r := a]> (heap wn)) wn).
  destruct (train_and_evaluate_block r a (weights_path v w b) ty wm)
    as (w1 & Hrun & Hfi & Hh & Hd & Hsd & Hn).
  { apply lookup_insert_eq. }
  { exact Hf. }
  exists (set_snapshot_dir (snapshot_dir w0) w1). split.
  - etrans.
    { eapply LocalLogger_Ok. rewrite Hs. fold (block_dir v w b.1). fold w0'.
      eapply bind_Ok; [reflexivity|].
      eapply bind_Ok; [reflexivity|].
      eapply bind_Ok.
      { apply (copy_weight_and_bias_Ok r src wn a0 asrc).
        - apply lookup_insert_eq.
        - simpl. by rewrite lookup_insert_ne. }
      eapply bind_Ok; [exact Hrun|reflexivity]. }
    unfold block_log, block_results, block_fit, tds, d, dataset_events,
      dataset_at. simpl. rewrite app_nil_r.
    by destruct (dataset w0).
  - simpl. rewrite Hfi, Hd, Hn. unfold next_id_after_dataset, dataset_at.
    simpl. unfold block_fit, d, dataset_at. simpl.
    by destruct (dataset w0).
Qed.

Lemma b_query_adapted_block : b_query_adapted ∈ blocks.
Proof. apply list_elem_of_here. Qed.
Lemma b_adapted_block : b_adapted ∈ blocks.
Proof. do 1 apply list_elem_of_further. apply list_elem_of_here. Qed.
Lemma b_query_first_block : b_query_first ∈ blocks.
Proof. do 2 apply list_elem_of_further. apply list_elem_of_here. Qed.
Lemma b_separate_block : b_separate ∈ blocks.
Proof. do 3 apply list_elem_of_further. apply list_elem_of_here. Qed.

Lemma weights_path_ne b1 b2 :
  b1 ∈ blocks → b2 ∈ blocks → b1 ≠ b2 →
  weights_path v w b1 ≠ weights_path v w b2.
Proof. intros H1 H2 Hne Heq. by apply Hne, (weights_path_inj v w). Qed.

(** The whole run. *)
Lemma run_experiment_trains_all :
  ∃ w', run_experiment' v w = (Ok tt, w', expected_log v w).
Proof.
  destruct Hall as [Hk Hv [mn Hmn] He Hck Hl Hm].
  unfold has_required_keys, required_keys in Hk.
  repeat (apply Forall_cons in Hk as [? Hk]).
  apply orb_false_elim in Hv as [Hv1 Hv2].
  apply negb_false_iff in Hv1.
  unfold blocks in Hck. repeat (apply Forall_cons in Hck as [? Hck]).
  set (n := next_id w).
  set (d := fresh_dataset (env_of v) (S n)).
  set (a1 := new_adapter m true false n).
  set (a2 := new_adapter m false false (2 + n)).
  set (a3 := new_adapter m false false (3 + n)).
  set (a3w := warm_start a3 (block_fit v w b_query_adapted a1 d)).
  set (a4 := new_adapter m false true (4 + n)).
  set (r1 := block_results v w b_query_adapted a1 d).
  set (r2 := block_results v w b_adapted a2 d).
  set (r3 := block_results v w b_query_first a3w d).
  set (r4 := block_results v w b_separate a4 d).
  (* query_adapted *)
  destruct (plain_block b_query_adapted "Query-Adapted" true false
              (λ r res, (r, <["query_adapted" := res]> (∅ : gmap string Results)))
              (set_dataset None w))
    as (w1 & Hrun1 & Hf1 & Hh1 & Hd1 & Hs1 & Hn1); [done..|].
  simpl in Hrun1, Hf1, Hh1, Hd1, Hs1, Hn1.
  (* adapted *)
  destruct (plain_block b_adapted "Joint" false false
              (λ _ res, <["adapted" := res]>
                 (<["query_adapted" := r1]> (∅ : gmap string Results))) w1)
    as (w2 & Hrun2 & Hf2 & Hh2 & Hd2 & Hs2 & Hn2).
  { by rewrite Hs1. }
  { rewrite Hf1, lookup_insert_ne; [done|].
    apply weights_path_ne;
         eauto using b_query_adapted_block, b_adapted_block,
           b_query_first_block, b_separate_block; done. }
  rewrite Hd1, Hn1 in Hrun2, Hf2, Hh2, Hd2, Hn2.
  simpl default in Hrun2, Hf2, Hh2, Hd2.
  fold n d a1 r1 in Hrun1, Hf1, Hh1, Hd1.
  fold n in Hn1, Hrun2, Hf2, Hh2, Hn2.
  change (S (S n)) with (2 + n) in Hrun2, Hf2, Hh2.
  fold a2 d r2 in Hrun2, Hf2, Hh2, Hd2.
  (* query_first *)
  destruct (warm_block b_query_first "Query-First" false false
              (λ _ res, <["query_first" := res]>
                 (<["adapted" := r2]>
                    (<["query_adapted" := r1]> (∅ : gmap string Results))))
              w2 n (with_state a1 (block_fit v w b_query_adapted a1 d)))
    as (w3 & Hrun3 & Hf3 & Hd3 & Hs3 & Hn3).
  { by rewrite Hs2, Hs1. }
  { rewrite Hf2, Hf1, !lookup_insert_ne; [done|..];
      (apply weights_path_ne;
         eauto using b_query_adapted_block, b_adapted_block,
           b_query_first_block, b_separate_block; done). }
  { rewrite Hh2, Hh1, !lookup_insert_ne by lia. apply lookup_insert_eq. }
  { rewrite Hn2. lia. }
  rewrite Hd2, Hn2 in Hrun3, Hf3, Hd3, Hn3.
  simpl default in Hrun3, Hf3, Hd3.
  change (S (S (S n))) with (3 + n) in Hrun3, Hf3.
  change (a_state (with_state a1 (block_fit v w b_query_adapted a1 d)))
    with (block_fit v w b_query_adapted a1 d) in Hrun3, Hf3.
  fold a3 in Hrun3, Hf3. fold a3w in Hrun3, Hf3. fold r3 in Hrun3.
  (* separate *)
  destruct (plain_block b_separate "Separate" false true
              (λ _ res, <["separate" := res]>
                 (<["query_first" := r3]>
                    (<["adapted" := r2]>
                       (<["query_adapted" := r1]>
                          (∅ : gmap string Results))))) w3)
    as (w4 & Hrun4 & Hf4 & Hh4 & Hd4 & Hs4 & Hn4).
  { by rewrite Hs3, Hs2, Hs1. }
  { rewrite Hf3, Hf2, Hf1, !lookup_insert_ne; [done|..];
      (apply weights_path_ne;
         eauto using b_query_adapted_block, b_adapted_block,
           b_query_first_block, b_separate_block; done). }
  rewrite Hd3, Hn3 in Hrun4. simpl default in Hrun4.
  change (S (S (S (S n)))) with (4 + n) in Hrun4.
  fold a4 in Hrun4. fold r4 in Hrun4.
  clear Hf1 Hf2 Hf3 Hf4 Hh1 Hh2 Hh4.
  (* the run *)
  eexists. unfold run_experiment. etrans.
  { do 7 (eapply bind_Ok; [by apply getitem_field|]).
    fold (field v "triplet_margin").
    rewrite andb_comm, Hv2, Hv1. simpl negb. cbv iota.
    eapply bind_Ok; [reflexivity|].
    eapply bind_Ok; [reflexivity|].
    eapply bind_Ok; [exact Hrun1|]. cbv beta iota.
    eapply bind_Ok; [exact Hrun2|].
    eapply bind_Ok; [exact Hrun3|].
    eapply bind_Ok; [exact Hrun4|].
    eapply bind_Ok.
    { unfold path_join. rewrite Hmn. reflexivity. }
    eapply bind_Ok; [reflexivity|].
    do 4 (eapply bind_Ok; [reflexivity|]).
    reflexivity. }
  unfold expected_log, baseline_path.
  replace (py_str float_repr (field v "model_name")) with mn
    by (by rewrite Hmn).
  cbn [app]. reflexivity.
Qed.


End blocks.


(** ** The expected log, block by block *)

Definition bracket (e : Event) : bool :=
  match e with EvEnter _ _ | EvExit _ _ => true | _ => false end.

Lemma in_context_flat cur l rest :
  Forall (λ e, bracket e = false) l →
  in_context cur (l ++ rest)
  = map (pair (default "" (head cur))) l ++ in_context cur rest.
Proof.
  induction 1 as [|e l He _ IH]; [done|].
  destruct e; try discriminate He; simpl; by rewrite IH.
Qed.

Lemma in_context_block cur key k body rest :
  Forall (λ e, bracket e = false) body →
  in_context cur (EvEnter key k :: body ++ EvExit key k :: rest)
  = map (pair k) body ++ in_context cur rest.
Proof. intros Hb. simpl. by rewrite in_context_flat. Qed.

Lemma epoch_events_flat i ls :
  Forall (λ e, bracket e = false) (epoch_events i ls).
Proof.
  revert i. induction ls as [|x ls IH]; intros i; simpl; [constructor|].
  repeat (constructor; [done|]). apply IH.
Qed.

(** What a block does between entering and leaving its logger. *)
Definition block_body (v : variant_t) (w : World) (b : string * string)
    (ty : string) (r : nat) (a0 : Adapter) (pre : list Event) (a : Adapter)
    (tds : list Event) (d : Dataset) : list Event :=
  [EvLinearAdapter r a0] ++ pre
  ++ train_log' (env_of v) ty r a (weights_path v w b)
       (posixpath.join (block_dir v w b.1) ["results.json"]) tds d.

Lemma block_log_body v w b ty r a0 pre a tds d rest :
  block_log v w b ty r a0 pre a tds d ++ rest
  = EvEnter "adapter_type" b.1
    :: block_body v w b ty r a0 pre a tds d
    ++ EvExit "adapter_type" b.1 :: rest.
Proof.
  unfold block_log, block_body. rewrite <- !app_assoc. reflexivity.
Qed.

Lemma block_body_flat v w b ty r a0 pre a tds d :
  Forall (λ e, bracket e = false) pre →
  Forall (λ e, bracket e = false) tds →
  Forall (λ e, bracket e = false) (block_body v w b ty r a0 pre a tds d).
Proof.
  intros Hpre Htds. unfold block_body, train_log.
  repeat (apply Forall_app; split); try done; try (by repeat constructor).
  apply epoch_events_flat.
Qed.

(** The log of the run in which every adapter is trained, each event with
    the block it happens in. *)
Lemma in_context_expected v w :
  let n := next_id w in
  let m := base_model v in
  let d := fresh_dataset (env_of v) (S n) in
  let a1 := new_adapter m true false n in
  let a2 := new_adapter m false false (2 + n) in
  let a3 := new_adapter m false false (3 + n) in
  let a3w := warm_start a3 (block_fit v w b_query_adapted a1 d) in
  let a4 := new_adapter m false true (4 + n) in
  in_context [] (expected_log v w)
  = ("", EvSentenceTransformer (field v "model_name"))
    :: map (pair "query_adapted")
         (block_body v w b_query_adapted "Query-Adapted" n a1 [] a1
            [EvDataset d] d)
    ++ map (pair "adapted")
         (block_body v w b_adapted "Joint" (2 + n) a2 [] a2 [] d)
    ++ map (pair "query_first")
         (block_body v w b_query_first "Query-First" (3 + n) a3
            [EvCopyWeights (3 + n) n] a3w [] d)
    ++ map (pair "separate")
         (block_body v w b_separate "Separate" (4 + n) a4 [] a4 [] d)
    ++ [("", EvMtebResults (field v "task") (baseline_path v) (EvalBase m));
        ("", EvPlotComparison
               [(get_mteb_results (field v "task") (baseline_path v)
                   (EvalBase m), "Baseline");
                (block_results v w b_adapted a2 d, "Linear (Joint)");
                (block_results v w b_query_adapted a1 d,
                 "Linear (Query-Only)");
                (block_results v w b_query_first a3w d,
                 "Linear (Query-First)");
                (block_results v w b_separate a4 d, "Linear (Separate)")]
               exp_name v)].
Proof.
  intros n m d a1 a2 a3 a3w a4. unfold expected_log.
  fold n m d a1 a2 a3 a3w a4.
  change ([EvSentenceTransformer (field v "model_name")] ++ ?l)
    with (EvSentenceTransformer (field v "model_name") :: l).
  cbn [in_context]. f_equal.
  rewrite !block_log_body.
  rewrite !in_context_block;
    try (apply block_body_flat; by repeat constructor).
  reflexivity.
Qed.

Lemma omap_epoch_events {B} (g : string * Event → option B) k i ls :
  (∀ row, g (k, EvRecordDict row) = None) → g (k, EvDumpTabular) = None →
  omap g (map (pair k) (epoch_events i ls)) = [].
Proof.
  intros Hr Hd. revert i. induction ls as [|x ls IH]; intros i; [done|].
  simpl. by rewrite Hr, Hd, IH.
Qed.

Lemma omap_plain_epoch_events {B} (g : Event → option B) i ls :
  (∀ row, g (EvRecordDict row) = None) → g EvDumpTabular = None →
  omap g (epoch_events i ls) = [].
Proof.
  intros Hr Hd. revert i. induction ls as [|x ls IH]; intros i; [done|].
  simpl. by rewrite Hr, Hd, IH.
Qed.

Lemma omap_head {A B} (g : A → option B) x l :
  omap g (x :: l) = option_list (g x) ++ omap g l.
Proof. simpl. by destruct (g x). Qed.

(** The adapter as evaluated and the results of a block. *)
Definition block_adapter (v : variant_t) (w : World) (b : string * string)
    (a : Adapter) (d : Dataset) : Adapter :=
  with_state a (block_fit v w b a d).

Section observed.
Variables (v : variant_t) (w : World).

Let n := next_id w.
Let m := base_model v.
Let d := fresh_dataset (env_of v) (S n).
Let a1 := new_adapter m true false n.
Let a2 := new_adapter m false false (2 + n).
Let a3 := new_adapter m false false (3 + n).
Let a3w := warm_start a3 (block_fit v w b_query_adapted a1 d).
Let a4 := new_adapter m false true (4 + n).
Let args (b : string * string) := fit_args (env_of v) (weights_path v w b).
Let rpath (b : string * string) :=
  posixpath.join (block_dir v w b.1) ["results.json"].

Ltac observe :=
  rewrite in_context_expected;
  unfold block_body, train_log;
  rewrite ?map_app; rewrite omap_head, ?omap_app;
  rewrite ?omap_epoch_events by done;
  reflexivity.

Lemma fits_expected :
  fits (expected_log v w)
  = [("query_adapted", n, a1, d, args b_query_adapted);
     ("adapted", 2 + n, a2, d, args b_adapted);
     ("query_first", 3 + n, a3w, d, args b_query_first);
     ("separate", 4 + n, a4, d, args b_separate)].
Proof. unfold fits. observe. Qed.

Lemma loads_expected : loads (expected_log v w) = [].
Proof. unfold loads. observe. Qed.

Lemma adapters_built_expected :
  adapters_built (expected_log v w)
  = [("query_adapted", n, a1); ("adapted", 2 + n, a2);
     ("query_first", 3 + n, a3); ("separate", 4 + n, a4)].
Proof. unfold adapters_built. observe. Qed.

Lemma evaluations_expected :
  evaluations (expected_log v w)
  = [("query_adapted", field v "task", rpath b_query_adapted,
      EvalAdapter (block_adapter v w b_query_adapted a1 d));
     ("adapted", field v "task", rpath b_adapted,
      EvalAdapter (block_adapter v w b_adapted a2 d));
     ("query_first", field v "task", rpath b_query_first,
      EvalAdapter (block_adapter v w b_query_first a3w d));
     ("separate", field v "task", rpath b_separate,
      EvalAdapter (block_adapter v w b_separate a4 d));
     ("", field v "task", baseline_path v, EvalBase m)].
Proof. unfold evaluations. observe. Qed.

End observed.

(** ** What every run of [run_experiment] keeps *)

(** The base model an event hands to a library is frozen. *)
Definition frozen_event (e : Event) : Prop :=
  match e with
  | EvLinearAdapter _ a | EvFit _ a _ _ => frozen (a_base a)
  | EvMtebResults _ _ (EvalAdapter a) => frozen (a_base a)
  | EvMtebResults _ _ (EvalBase m) => frozen m
  | _ => True
  end.

(** The dataset a call of [fit] is given. *)
Definition fit_dataset (e : Event) : option Dataset :=
  match e with EvFit _ _ d _ => Some d | _ => None end.

(** An event that builds no dataset and trains nothing. *)
Definition quiet (e : Event) : Prop :=
  fit_dataset e = None ∧ datasets_built [e] = [].

Definition not_ValueError (e : exn) : Prop :=
  match e with ValueError _ => False | _ => True end.

(** The invariant, for a variant whose loss type is [lt] and the adapters
    [rs] the run has built so far: each of them is on the heap and sits on a
    frozen base model, and so did every model handed to a library so far;
    the datasets built so far are the one in the [dataset] cell, if any; it
    has the kind the loss type asks for; every call of [fit] so far was
    given it; and a dataset was built only where [fit] was then called. *)
Definition launcher_inv (lt : pyval) (rs : list nat) (w : World)
    (t : list Event) : Prop :=
  (∀ r, r ∈ rs → ∃ a, heap w !! r = Some a ∧ frozen (a_base a))
  ∧ Forall frozen_event t
  ∧ datasets_built t = option_list (dataset w)
  ∧ (∀ d, dataset w = Some d → ds_kind d = expected_kind lt)
  ∧ Forall (λ e, ∀ d, fit_dataset e = Some d → dataset w = Some d) t
  ∧ (datasets_built t = [] ∨ Exists (λ e, is_Some (fit_dataset e)) t).

Lemma freeze_frozen (m0 : STModel) : frozen (freeze m0).
Proof. unfold frozen, freeze. simpl. by apply Forall_map, Forall_true. Qed.

Section safety.
Variables (lt : pyval) (rs : list nat).

Local Abbreviation Inv := (launcher_inv lt rs).
Local Abbreviation keeps' := (keeps Inv not_ValueError).

Lemma inv_ext w w' t :
  heap w' = heap w → dataset w' = dataset w → Inv w t → Inv w' t.
Proof. unfold launcher_inv. by intros -> ->. Qed.

Lemma inv_quiet w t e :
  frozen_event e → quiet e → Inv w t → Inv w (t ++ [e]).
Proof.
  intros Hfz [Hq1 Hq2] (I1 & I2 & I3 & I4 & I5 & I6). split_and!; try done.
  - apply Forall_app; split; [done|]. by apply Forall_singleton.
  - unfold datasets_built in *. by rewrite omap_app, Hq2, app_nil_r.
  - apply Forall_app; split; [done|]. apply Forall_singleton.
    intros d. by rewrite Hq1.
  - destruct I6 as [I6|I6]; [left|right; apply Exists_app; by left].
    unfold datasets_built in *. by rewrite omap_app, Hq2, app_nil_r.
Qed.

Lemma inv_heap_insert w t r a :
  frozen (a_base a) → Inv w t → Inv (set_heap (<[r := a]> (heap w)) w) t.
Proof.
  intros Hfz (I1 & I2 & I3 & I4 & I5 & I6). split_and!; try done.
  intros r' Hr'. simpl. rewrite lookup_insert.
  case_decide; [by exists a|by apply I1].
Qed.

Lemma inv_fit w t r a d args :
  frozen (a_base a) → dataset w = Some d → Inv w t →
  Inv w (t ++ [EvFit r a d args]).
Proof.
  intros Hfz Hd (I1 & I2 & I3 & I4 & I5 & I6). split_and!; try done.
  - apply Forall_app; split; [done|]. by apply Forall_singleton.
  - unfold datasets_built in *. by rewrite omap_app, app_nil_r.
  - apply Forall_app; split; [done|]. apply Forall_singleton.
    simpl. by intros ? [= <-].
  - right. apply Exists_app. right. by apply Exists_cons_hd.
Qed.

Lemma inv_dataset_fit w t d r a args :
  dataset w = None → ds_kind d = expected_kind lt → frozen (a_base a) →
  Inv w t →
  Inv (set_dataset (Some d) w) (t ++ [EvDataset d] ++ [EvFit r a d args]).
Proof.
  intros Hd Hk Hfz (I1 & I2 & I3 & I4 & I5 & I6). split_and!; simpl.
  - done.
  - apply Forall_app; split; [done|]. by repeat constructor.
  - unfold datasets_built in *. rewrite omap_app, I3, Hd. done.
  - by intros ? [= <-].
  - apply Forall_app; split.
    + eapply Forall_impl; [exact I5|]. simpl. intros e He d' Hd'.
      specialize (He d' Hd'). congruence.
    + repeat constructor; simpl; by intros ? [= <-].
  - right. apply Exists_app. right. apply Exists_cons_tl.
    by apply Exists_cons_hd.
Qed.

Lemma inv_lookup w t r a :
  Inv w t → r ∈ rs → heap w !! r = Some a → frozen (a_base a).
Proof.
  intros (I1 & _) Hrs Hr. destruct (I1 r Hrs) as (a' & Ha' & Hfz). congruence.
Qed.

Lemma keeps_quiet e : frozen_event e → quiet e → keeps' (emit e).
Proof. intros ??. apply keeps_emit. intros. by apply inv_quiet. Qed.

Lemma keeps_world (f : World → World) :
  (∀ w, heap (f w) = heap w) → (∀ w, dataset (f w) = dataset w) →
  keeps' (modify f).
Proof.
  intros Hh Hd. apply keeps_modify. intros w t H.
  by apply (inv_ext w (f w) t (Hh w) (Hd w)).
Qed.


Lemma keeps_load_state_dict r p sd :
  r ∈ rs → keeps' (load_state_dict r p sd).
Proof.
  intros Hrs w t0 H. unfold final, log, outcome, load_state_dict, deref, bind, get.
  simpl. destruct (heap w !! r) as [a|] eqn:Hr; simpl.
  - split; [|done]. apply inv_quiet; [done|done|].
    apply inv_heap_insert; [|done]. simpl. by apply (inv_lookup w t0 r a H).
  - rewrite app_nil_r. split; [done|]. by intros ? [= <-].
Qed.

Lemma keeps_copy_weight_and_bias dst src :
  dst ∈ rs → keeps' (copy_weight_and_bias dst src).
Proof.
  intros Hrs w t0 H.
  unfold final, log, outcome, copy_weight_and_bias, deref, bind, get.
  simpl. destruct (heap w !! dst) as [d|] eqn:Hd; simpl.
  - destruct (heap w !! src) as [s|] eqn:Hs; simpl.
    + split; [|done]. apply inv_quiet; [done|done|].
      apply inv_heap_insert; [|done]. simpl. by apply (inv_lookup w t0 dst d H).
    + rewrite app_nil_r. split; [done|]. by intros ? [= <-].
  - rewrite app_nil_r. split; [done|]. by intros ? [= <-].
Qed.

Lemma keeps_get_results env r task0 :
  r ∈ rs → keeps' (get_results get_mteb_results env r task0).
Proof.
  intros Hrs w t0 H.
  unfold final, log, outcome, get_results, get_snapshot_dir, deref, bind, get.
  simpl. destruct (heap w !! r) as [a|] eqn:Hr; simpl.
  - split; [|done]. apply inv_quiet; [|done|done]. simpl. by apply (inv_lookup w t0 r a H).
  - rewrite app_nil_r. split; [done|]. by intros ? [= <-].
Qed.

Lemma fresh_dataset_kind env id :
  ds_kind (fresh_dataset env id) = expected_kind (loss_type env).
Proof.
  unfold fresh_dataset, expected_kind.
  by destruct (py_eq_str (loss_type env) "triplet").
Qed.

Lemma keeps_fit env r args :
  loss_type env = lt → r ∈ rs →
  keeps' (let* ds := get_dataset env in fit_call fit r ds args).
Proof.
  intros Hlt Hrs w t0 H. unfold final, log, outcome, bind.
  destruct (dataset w) as [d|] eqn:Hd.
  - rewrite (get_dataset_cached env w d Hd).
    unfold fit_call, deref, bind, get. simpl.
    destruct (heap w !! r) as [a|] eqn:Hr; simpl.
    + destruct (fit a d args) as [sd losses]. simpl. split; [|done].
      eapply inv_ext; [| |apply (inv_heap_insert w _ r (with_state a sd))];
        [done|done|by apply (inv_lookup w t0 r a H)|].
      apply inv_fit; [by apply (inv_lookup w t0 r a H)|done|done].
    + rewrite app_nil_r. split; [done|]. by intros ? [= <-].
  - rewrite (get_dataset_fresh env w Hd).
    set (d := fresh_dataset env (next_id w)).
    unfold fit_call, deref, bind, get. simpl.
    destruct (proj1 H r Hrs) as (a & Hr & Hfz). rewrite Hr. simpl.
    destruct (fit a d args) as [sd losses]. simpl. split; [|done].
    change (t0 ++ [EvDataset d; EvFit r a d args])
      with (t0 ++ [EvDataset d] ++ [EvFit r a d args]).
    set (w1 := set_dataset (Some d) w).
    eapply inv_ext; [| |apply (inv_heap_insert w1 _ r (with_state a sd))];
      [done|done|done|].
    apply inv_dataset_fit; [done| |done|done].
    unfold d. by rewrite fresh_dataset_kind, Hlt.
Qed.

(** The rules, applied along the structure of a computation. *)
Ltac keeps_step :=
  lazymatch goal with
  | |- keeps _ _ (bind (get_dataset _) _) => apply keeps_fit
  | |- keeps _ _ (bind _ _) => apply keeps_bind; [|intros ?]
  | |- keeps _ _ (ret _) => apply keeps_ret
  | |- keeps _ _ (raise _) => apply keeps_raise; exact I
  | |- keeps _ _ get => apply keeps_get
  | |- keeps _ _ (load_state_dict _ _ _) => apply keeps_load_state_dict
  | |- keeps _ _ (get_results _ _ _ _) => apply keeps_get_results
  | |- keeps _ _ (emit _) => apply keeps_quiet; [exact I|done]
  | |- keeps _ _ (for_each _ _) => apply keeps_for_each; intros [? ?]
  | |- keeps _ _ (match ?x with _ => _ end) => destruct x
  end.

Lemma keeps_train_and_evaluate env r wf ty force :
  loss_type env = lt → r ∈ rs →
  keeps' (train_and_evaluate fit get_mteb_results env r wf ty force).
Proof.
  intros Hlt Hrs.
  unfold train_and_evaluate, path_exists, torch_load, py_sub1, last_item,
    getitem_val, record_dict, dump_tabular.
  repeat keeps_step; done.
Qed.


End safety.

(** What the invariant says of the log alone. *)
Definition log_ok (lt : pyval) (t : list Event) : Prop :=
  Forall frozen_event t
  ∧ ∃ od : option Dataset,
      datasets_built t = option_list od
      ∧ (∀ d, od = Some d → ds_kind d = expected_kind lt)
      ∧ Forall (λ e, ∀ d, fit_dataset e = Some d → od = Some d) t
      ∧ (datasets_built t = [] ∨ Exists (λ e, is_Some (fit_dataset e)) t).

Lemma inv_log_ok lt rs w t : launcher_inv lt rs w t → log_ok lt t.
Proof.
  intros (I1 & I2 & I3 & I4 & I5 & I6). split; [done|]. by exists (dataset w).
Qed.

Lemma log_ok_nil lt : log_ok lt [].
Proof. split; [done|]. exists None. split_and!; try done. by left. Qed.

Lemma inv_new_adapter lt rs w t m0 dim q s :
  frozen m0 → launcher_inv lt rs w t →
  let r := next_id w in
  let a := {| a_base := m0; a_dim := dim; a_query_only := q;
              a_separate_embeddings := s;
              a_state := LinearAdapter_init m0 dim q s r |} in
  launcher_inv lt (r :: rs)
    (set_next_id (S r) (set_heap (<[r := a]> (heap w)) w))
    (t ++ [EvLinearAdapter r a]).
Proof.
  intros Hfz (I1 & I2 & I3 & I4 & I5 & I6) r a. split_and!; simpl; try done.
  - intros r' Hr'. rewrite lookup_insert.
    case_decide as Heq; [by exists a|].
    apply elem_of_cons in Hr' as [->|Hr']; [done|by apply I1].
  - apply Forall_app; split; [done|]. by apply Forall_singleton.
  - unfold datasets_built in *. by rewrite omap_app, app_nil_r.
  - apply Forall_app; split; [done|]. by apply Forall_singleton.
  - destruct I6 as [I6|I6]; [left|right; apply Exists_app; by left].
    unfold datasets_built in *. by rewrite omap_app, I6.
Qed.


Section wp_blocks.
Variables (v : variant_t) (lt : pyval) (env : Env) (m0 : STModel).
Hypothesis Hlt : loss_type env = lt.
Hypothesis Hm0 : frozen m0.

Context {R : Type} (Φ : R → World → list Event → Prop).
Context (Ψ : exn → World → list Event → Prop).
Hypothesis HΦ : ∀ x rs w t, launcher_inv lt rs w t → Φ x w t.
Hypothesis HΨ : ∀ e rs w t, launcher_inv lt rs w t → not_ValueError e → Ψ e w t.

Lemma wp_leave key value outer (P : World → list Event → Prop) rs w t :
  launcher_inv lt rs w t →
  (∀ rs w t, launcher_inv lt rs w t → P w t) →
  wp (modify (set_snapshot_dir outer) ;; emit (EvExit key value))
    (λ _, P) Ψ w t.
Proof.
  intros H HP. apply wp_bind, wp_modify, wp_emit. apply (HP rs).
  apply inv_quiet; [done|done|]. by eapply inv_ext; [| |exact H].
Qed.

Lemma wp_plain_block key value name ty q s dim (post : nat → Results → R)
    rs w t :
  launcher_inv lt rs w t →
  wp (LocalLogger' key value v
        (let* dir := get_snapshot_dir in
         let* r := LinearAdapter_new' m0 dim q s in
         let* res := train_and_evaluate fit get_mteb_results env r
                       (posixpath.join dir [name]) ty false in
         ret (post r res))) Φ Ψ w t.
Proof.
  intros H. unfold LocalLogger, get_snapshot_dir.
  apply wp_bind, wp_bind, wp_get, wp_ret, wp_bind, wp_emit, wp_bind,
    wp_modify, wp_finally.
  apply wp_bind, wp_bind, wp_get, wp_ret.
  unfold LinearAdapter_new.
  apply wp_bind, wp_bind, wp_get. cbv zeta.
  apply wp_bind, wp_modify, wp_bind, wp_emit, wp_ret.
  apply wp_bind.
  eapply (wp_keeps (launcher_inv lt (_ :: rs)) not_ValueError).
  - apply keeps_train_and_evaluate; [done|]. apply list_elem_of_here.
  - apply inv_new_adapter; [done|].
    eapply inv_ext; [| |apply (inv_quiet lt rs w _ (EvEnter key value))];
      done.
  - intros res w' t' H'. apply wp_ret. apply (wp_leave _ _ _ _ _ _ _ H').
    intros. by eapply HΦ.
  - intros e w' t' H' He. apply (wp_leave _ _ _ _ _ _ _ H').
    intros. by eapply HΨ.
Qed.

Lemma wp_warm_block key value name ty q s dim src
    (post : nat → Results → R) rs w t :
  launcher_inv lt rs w t →
  wp (LocalLogger' key value v
        (let* dir := get_snapshot_dir in
         let* r := LinearAdapter_new' m0 dim q s in
         copy_weight_and_bias r src ;;
         let* res := train_and_evaluate fit get_mteb_results env r
                       (posixpath.join dir [name]) ty false in
         ret (post r res))) Φ Ψ w t.
Proof.
  intros H. unfold LocalLogger, get_snapshot_dir.
  apply wp_bind, wp_bind, wp_get, wp_ret, wp_bind, wp_emit, wp_bind,
    wp_modify, wp_finally.
  apply wp_bind, wp_bind, wp_get, wp_ret.
  unfold LinearAdapter_new.
  apply wp_bind, wp_bind, wp_get. cbv zeta.
  apply wp_bind, wp_modify, wp_bind, wp_emit, wp_ret.
  apply wp_bind.
  eapply (wp_keeps (launcher_inv lt (_ :: rs)) not_ValueError).
  - apply keeps_copy_weight_and_bias. apply list_elem_of_here.
  - apply inv_new_adapter; [done|].
    eapply inv_ext; [| |apply (inv_quiet lt rs w _ (EvEnter key value))];
      done.
  - intros [] w1 t1 H1. apply wp_bind.
    eapply (wp_keeps (launcher_inv lt (_ :: rs)) not_ValueError).
    + apply keeps_train_and_evaluate; [done|]. apply list_elem_of_here.
    + exact H1.
    + intros res w' t' H'. apply wp_ret.
      apply (wp_leave _ _ _ _ _ _ _ H'). intros. by eapply HΦ.
    + intros e w' t' H' He. apply (wp_leave _ _ _ _ _ _ _ H').
      intros. by eapply HΨ.
  - intros e w' t' H' He. apply (wp_leave _ _ _ _ _ _ _ H').
    intros. by eapply HΨ.
Qed.

End wp_blocks.

(** Every run of [run_experiment], from any world and for any variant:
    its log satisfies [log_ok], and a [ValueError] comes only from the two
    checks, before anything is logged. *)
Lemma run_experiment_wp v w :
  wp (run_experiment' v)
    (λ _ _ t, log_ok (field v "loss_type") t)
    (λ e _ t, log_ok (field v "loss_type") t
              ∧ ∀ msg, e = ValueError msg →
                  t = [] ∧ has_required_keys v ∧ invalid_loss v = true)
    w [].
Proof.
  unfold run_experiment.
  do 7 (apply wp_bind; unfold getitem at 1;
        lazymatch goal with
        | |- wp (match v !! ?k with _ => _ end) _ _ _ _ =>
            destruct (v !! k) eqn:?;
              [apply wp_ret
              |by apply wp_raise; split; [apply log_ok_nil|]]
        end).
  assert (has_required_keys v) as Hkeys.
  { unfold has_required_keys, required_keys.
    repeat (apply Forall_cons; split; [by eexists|]). done. }
  assert (field v "loss_type" = p5) as Hlt.
  { unfold field, dict_get. by rewrite Heqo5. }
  fold (field v "triplet_margin"). rewrite <- Hlt.
  destruct (is_None (field v "triplet_margin")
            && py_eq_str (field v "loss_type") "triplet") eqn:Hc1.
  { apply wp_raise. split; [apply log_ok_nil|]. intros msg _.
    split_and!; [done..|]. unfold invalid_loss.
    by rewrite (andb_comm (py_eq_str _ _)), Hc1, orb_true_r. }
  destruct (negb (py_in_strs (field v "loss_type") ["triplet"; "mse"; "bce"]))
    eqn:Hc2.
  { apply wp_raise. split; [apply log_ok_nil|]. intros msg _.
    split_and!; [done..|]. unfold invalid_loss. by rewrite Hc2. }
  unfold SentenceTransformer_new.
  apply wp_bind, wp_bind, wp_emit, wp_ret, wp_bind, wp_modify.
  set (lt := field v "loss_type").
  assert (launcher_inv lt [] (set_dataset None w)
            ([] ++ [EvSentenceTransformer p])) as H0.
  { split_and!; simpl; try done.
    - intros ? Hin. by apply elem_of_nil in Hin.
    - by apply Forall_singleton.
    - by apply Forall_singleton.
    - by left. }
  revert H0. generalize (set_dataset None w) ([] ++ [EvSentenceTransformer p]).
  generalize (@nil nat). intros rs w0 t0 H0'.
  assert (∀ e rs w t, launcher_inv lt rs w t → not_ValueError e →
            log_ok lt t ∧ ∀ msg, e = ValueError msg →
              t = [] ∧ has_required_keys v ∧ invalid_loss v = true) as HΨ.
  { intros e ???? He. split; [by eapply inv_log_ok|]. by intros ? ->. }
  (* query_adapted *)
  apply wp_bind.
  eapply (wp_plain_block v lt); [reflexivity|apply freeze_frozen| |exact HΨ|exact H0'].
  clear rs w0 t0 H0'. intros [q_adapted_model results] rs w0 t0 H0.
  (* adapted *)
  apply wp_bind.
  eapply (wp_plain_block v lt);
    [reflexivity|apply freeze_frozen| |exact HΨ|exact H0].
  clear rs w0 t0 H0. intros results1 rs w0 t0 H0.
  (* query_first *)
  apply wp_bind.
  eapply (wp_warm_block v lt);
    [reflexivity|apply freeze_frozen| |exact HΨ|exact H0].
  clear rs w0 t0 H0. intros results2 rs w0 t0 H0.
  (* separate *)
  apply wp_bind.
  eapply (wp_plain_block v lt);
    [reflexivity|apply freeze_frozen| |exact HΨ|exact H0].
  clear rs w0 t0 H0. intros results3 rs w0 t0 H0.
  (* the baseline and the plot *)
  apply wp_bind.
  assert (∀ (Φ : string → _) Ψ,
            (∀ s, Φ s w0 t0) → Ψ TypeError w0 t0 →
            wp (path_join proj_dir
                  [PStr "results"; p; PStr (py_str float_repr p0 +:+ ".json")])
               Φ Ψ w0 t0) as Hjoin.
  { intros Φ Ψ HΦ HT. unfold path_join.
    destruct p; try (by apply wp_bind, wp_raise).
    apply wp_bind, wp_bind, wp_bind, wp_bind, wp_ret, wp_ret, wp_ret, wp_ret,
      wp_ret. apply HΦ. }
  apply Hjoin; [|by eapply HΨ]. intros bpath.
  apply wp_bind, wp_emit.
  assert (launcher_inv lt rs w0
            (t0 ++ [EvMtebResults p0 bpath
                      (EvalBase (freeze (SentenceTransformer p)))])) as H1.
  { apply inv_quiet; [apply freeze_frozen|done|done]. }
  do 4 (apply wp_bind; unfold getitem at 1;
        lazymatch goal with
        | |- wp (match ?x with _ => _ end) _ _ _ _ =>
            destruct x;
              [apply wp_ret
              |by apply wp_raise; eapply HΨ]
        end).
  apply wp_emit. eapply inv_log_ok.
  apply inv_quiet; [done|done|exact H1].
Qed.

Lemma epoch_events_Forall (P : Event → Prop) i ls :
  (∀ row, P (EvRecordDict row)) → P EvDumpTabular →
  Forall P (epoch_events i ls).
Proof.
  intros Hr Hd. revert i. induction ls as [|x ls IH]; intros i; simpl;
    [constructor|].
  repeat (constructor; [done|]). apply IH.
Qed.

(** A block that works on the adapter at [r] calls [fit] on no other. *)
Lemma block_log_no_fit v w b ty r a0 pre a tds d rf :
  r ≠ rf →
  Forall (λ e, ∀ a d' args, e ≠ EvFit rf a d' args) pre →
  Forall (λ e, ∀ a d' args, e ≠ EvFit rf a d' args) tds →
  Forall (λ e, ∀ a d' args, e ≠ EvFit rf a d' args)
    (block_log v w b ty r a0 pre a tds d).
Proof.
  intros Hne Hpre Htds. unfold block_log, train_log.
  repeat (apply Forall_app; split); try done.
  - by repeat constructor.
  - by repeat constructor.
  - repeat constructor; try done. intros ??? [= ?]. done.
  - by apply epoch_events_Forall.
  - by repeat constructor.
Qed.

(** * The claims about the run in which every adapter is trained *)

(** The flags an adapter was constructed with: [query_only] and
    [separate_embeddings]. *)
Definition config_of (a : Adapter) : bool * bool :=
  (a_query_only a, a_separate_embeddings a).

(** The adapters [fit] was called on, in order: the block and the flags. *)
Definition trained_adapters (t : list Event) : list (string * (bool * bool)) :=
  map (λ x, (x.1.1.1.1, config_of x.1.1.2)) (fits t).

(** The adapters [get_mteb_results] was called on, in order. *)
Definition evaluated_adapters (t : list Event)
    : list (string * (bool * bool)) :=
  omap (λ x, match x.2 with
             | EvalAdapter a => Some (x.1.1.1, config_of a)
             | EvalBase _ => None
             end) (evaluations t).

(** Query-only, joint, query-first and separate-embeddings. *)
Definition four_adapters : list (string * (bool * bool)) :=
  [("query_adapted", (true, false)); ("adapted", (false, false));
   ("query_first", (false, false)); ("separate", (false, true))].



Ltac nodup_by_discriminate :=
  repeat (apply NoDup_cons; split;
          [rewrite ?elem_of_cons, elem_of_nil;
           let Hx := fresh in
           intros Hx; repeat (destruct Hx as [Hx|Hx]; [discriminate Hx|]);
           exact Hx
          |]);
  apply NoDup_nil_2.

(** The results of one call of [get_mteb_results]. *)
Definition result_of (x : string * pyval * string * EvalModel) : Results :=
  get_mteb_results x.1.1.2 x.1.2 x.2.

Lemma plots_expected v w :
  let n := next_id w in
  let m := base_model v in
  let d := fresh_dataset (env_of v) (S n) in
  let a1 := new_adapter m true false n in
  let a2 := new_adapter m false false (2 + n) in
  let a3 := new_adapter m false false (3 + n) in
  let a3w := warm_start a3 (block_fit v w b_query_adapted a1 d) in
  let a4 := new_adapter m false true (4 + n) in
  plots (expected_log v w)
  = [([(get_mteb_results (field v "task") (baseline_path v) (EvalBase m),
        "Baseline");
       (block_results v w b_adapted a2 d, "Linear (Joint)");
       (block_results v w b_query_adapted a1 d, "Linear (Query-Only)");
       (block_results v w b_query_first a3w d, "Linear (Query-First)");
       (block_results v w b_separate a4 d, "Linear (Separate)")],
      exp_name, v)].
Proof.
  intros. unfold plots, expected_log, block_log, train_log.
  rewrite !omap_app. rewrite !omap_plain_epoch_events by done. reflexivity.
Qed.



(** * The claims about every run *)


Lemma bind_pure {A B} (m : M A) (k : A → M B) w a :
  m w = (Ok a, w, []) → bind m k w = k a w.
Proof. unfold bind. intros ->. by destruct (k a w) as [[??]?]. Qed.

Lemma run_experiment_invalid v w :
  has_required_keys v → invalid_loss v = true →
  ∃ msg, run_experiment' v w = (Raise (ValueError msg), w, []).
Proof.
  intros Hk Hv. unfold has_required_keys, required_keys in Hk.
  repeat (apply Forall_cons in Hk as [? Hk]).
  unfold run_experiment.
  do 7 (rewrite (bind_pure (getitem v _) _ w _) by (by apply getitem_field)).
  fold (field v "triplet_margin").
  unfold invalid_loss in Hv.
  destruct (is_None (field v "triplet_margin")
            && py_eq_str (field v "loss_type") "triplet") eqn:Hc1;
    [by eexists|].
  rewrite andb_comm, Hc1, orb_false_r in Hv. rewrite Hv. by eexists.
Qed.

(** C8, as amended.  For a variant that has the keys [run_experiment] reads
    with [variant[...]], [run_experiment] raises [ValueError] if and only if
    the loss type is none of 'triplet', 'mse', 'bce', or it is 'triplet' and
    [triplet_margin] is absent or [None]; and when it does, nothing has been
    logged and the world is as it was: no model was loaded, no dataset built,
    nothing trained or written. *)
Theorem ValueError_iff_invalid_loss (v : variant_t) (w : World) :
  has_required_keys v →
  ((∃ msg, outcome (run_experiment' v) w = Raise (ValueError msg))
   ↔ (negb (py_in_strs (field v "loss_type") ["triplet"; "mse"; "bce"])
      || (py_eq_str (field v "loss_type") "triplet"
          && is_None (dict_get v "triplet_margin" PNone))) = true)
  ∧ (∀ msg, outcome (run_experiment' v) w = Raise (ValueError msg) →
       log (run_experiment' v) w = [] ∧ final (run_experiment' v) w = w).
Proof.
  intros Hk. fold (field v "triplet_margin"). fold (invalid_loss v).
  assert (∀ msg, outcome (run_experiment' v) w = Raise (ValueError msg) →
            invalid_loss v = true) as Hinv.
  { intros msg Hmsg.
    pose proof (wp_run _ _ _ _ (run_experiment_wp v w)) as H.
    rewrite Hmsg in H. by apply (proj2 H msg). }
  split; [split|].
  - intros [msg Hmsg]. by apply (Hinv msg).
  - intros Hv. destruct (run_experiment_invalid v w Hk Hv) as [msg Hrun].
    exists msg. unfold outcome. by rewrite Hrun.
  - intros msg Hmsg.
    destruct (run_experiment_invalid v w Hk (Hinv msg Hmsg)) as [msg' Hrun].
    unfold log, final. by rewrite Hrun.
Qed.

Lemma train_and_evaluate_resume_quiet env r wf ty w :
  is_Some (files w !! wf) →
  Forall (λ e, fit_dataset e = None ∧ datasets_built [e] = [])
    (log (train_and_evaluate fit get_mteb_results env r wf ty false) w).
Proof.
  intros [sd Hf].
  unfold log, train_and_evaluate, path_exists, torch_load,
    load_state_dict, get_results, get_snapshot_dir, deref, py_sub1,
    last_item, bind, get, emit, modify, ret, raise.
  simpl. rewrite Hf. rewrite bool_decide_eq_true_2 by eauto. simpl.
  rewrite Hf. simpl.
  destruct (heap w !! r) as [a|]; simpl; [|by repeat constructor].
  rewrite lookup_insert_eq. simpl.
  destruct (sub1 (num_epochs env)); simpl; by repeat constructor.
Qed.

(** C9.  [get_dataset] is memoized: a second call returns what the first
    returned and builds nothing.  In every run of [run_experiment] at most
    one dataset is built; it is a [TripletDataset] when the loss type is
    'triplet' and a [PairwiseScoreDataset] otherwise; every call of [fit] is
    given that one object; and a dataset is built only when some adapter is
    trained: a [train_and_evaluate] that finds its weights file calls
    neither [get_dataset] nor [fit], and a run without a call of [fit]
    builds no dataset. *)
Theorem dataset_built_at_most_once (env : Env) (w0 : World)
    (v : variant_t) (w : World) (r : nat) (wf ty : string) :
  get_dataset env (final (get_dataset env) w0)
    = (outcome (get_dataset env) w0, final (get_dataset env) w0, [])
  ∧ length (datasets_built (log (run_experiment' v) w)) ≤ 1
  ∧ Forall (λ d, ds_kind d = if py_eq_str (field v "loss_type") "triplet"
                             then TripletDataset else PairwiseScoreDataset)
      (datasets_built (log (run_experiment' v) w))
  ∧ Forall (λ e, ∀ d, fit_dataset e = Some d →
                      datasets_built (log (run_experiment' v) w) = [d])
      (log (run_experiment' v) w)
  ∧ (Forall (λ e, fit_dataset e = None) (log (run_experiment' v) w) →
     datasets_built (log (run_experiment' v) w) = [])
  ∧ (is_Some (files w0 !! wf) →
     Forall (λ e, fit_dataset e = None ∧ datasets_built [e] = [])
       (log (train_and_evaluate fit get_mteb_results env r wf ty false) w0)).
Proof.
  split; [|].
  { unfold final, outcome. destruct (dataset w0) as [d|] eqn:Hd.
    - rewrite (get_dataset_cached env w0 d Hd). simpl.
      by apply get_dataset_cached.
    - rewrite (get_dataset_fresh env w0 Hd). simpl.
      by apply get_dataset_cached. }
  assert (log_ok (field v "loss_type") (log (run_experiment' v) w)) as H.
  { pose proof (wp_run _ _ _ _ (run_experiment_wp v w)) as H.
    destruct (outcome (run_experiment' v) w); apply H. }
  destruct H as (_ & od & Hod & Hkind & Hfit & Hex).
  split_and!.
  - rewrite Hod. destruct od; simpl; lia.
  - rewrite Hod. destruct od as [d|]; simpl; [|constructor].
    constructor; [|constructor]. by apply Hkind.
  - eapply Forall_impl; [exact Hfit|]. simpl. intros e He d Hd.
    by rewrite Hod, (He d Hd).
  - intros Hno. destruct Hex as [Hex|Hex]; [done|].
    apply Exists_exists in Hex as (e & Hin & [d Hd]).
    rewrite Forall_forall in Hno. specialize (Hno e Hin). congruence.
  - apply train_and_evaluate_resume_quiet.
Qed.

(** * The claims about [train_and_evaluate] *)

(** The dataset [get_dataset] returns in world [w]. *)
Definition dataset_for (env : Env) (w : World) : Dataset :=
  default (fresh_dataset env (next_id w)) (dataset w).

Definition logs_no_row (e : Event) : Prop :=
  match e with EvRecordDict _ | EvDumpTabular => False | _ => True end.

Lemma get_dataset_run env w :
  ∃ w1 tds,
    get_dataset env w = (Ok (dataset_for env w), w1, tds)
    ∧ heap w1 = heap w ∧ snapshot_dir w1 = snapshot_dir w
    ∧ Forall logs_no_row tds.
Proof.
  unfold dataset_for. destruct (dataset w) as [d|] eqn:Hd.
  - eexists _, _. split; [by apply get_dataset_cached|done].
  - eexists _, _. split; [by apply get_dataset_fresh|].
    split_and!; try done. by repeat constructor.
Qed.

Lemma tabular_rows_skip pending l rest :
  Forall logs_no_row l →
  tabular_rows pending (l ++ rest) = tabular_rows pending rest.
Proof.
  induction 1 as [|e l He _ IH]; [done|]. by destruct e.
Qed.

Lemma tabular_rows_epochs i ls :
  tabular_rows ∅ (epoch_events i ls) = imap (λ j x, epoch_row (i + j) x) ls.
Proof.
  revert i. induction ls as [|x ls IH]; intros i; [done|].
  simpl. rewrite (right_id_L ∅ (∪)), Nat.add_0_r, IH. f_equal.
  apply imap_ext. intros j y _. simpl. f_equal. lia.
Qed.

(** C1, on the code.  When the weights file exists, [train_and_evaluate]
    loads it into the adapter instead of calling [fit] and evaluates the
    adapter; but [losses] is then still the empty list, [losses[-1]] raises
    [IndexError], and so nothing is logged and no results are returned. *)
Theorem resume_raises_IndexError (env : Env) (r : nat) (wf ty : string)
    (w : World) (a : Adapter) (sd : StateDict) (e : pyval) :
  heap w !! r = Some a →
  files w !! wf = Some sd →
  sub1 (num_epochs env) = Some e →
  let run := train_and_evaluate fit get_mteb_results env r wf ty false in
  outcome run w = Raise IndexError
  ∧ loads (log run w) = [("", r, wf)]
  ∧ fits (log run w) = []
  ∧ evaluations (log run w)
    = [("", task env, posixpath.join (snapshot_dir w) ["results.json"],
        EvalAdapter (with_state a sd))]
  ∧ heap (final run w) !! r = Some (with_state a sd)
  ∧ tabular_rows ∅ (log run w) = [].
Proof.
  intros Hr Hf He run. unfold outcome, log, final, run.
  rewrite (train_and_evaluate_resumes fit get_mteb_results env r wf ty w a sd e)
    by done.
  split_and!; try reflexivity. simpl. apply lookup_insert_eq.
Qed.

(** C10.  On the training path, with at least one loss and results that
    hold the task and the split (and no metric called 'epoch' or 'loss'),
    the first row [train_and_evaluate] writes to the tabular log is the one
    of the final epoch: its epoch is [num_epochs - 1], its loss is the last
    loss, and it carries every metric of the results.  The rows of epochs 0
    to [len(losses) - 2] follow, in increasing order, each with its epoch
    and its loss and nothing else. *)
Theorem final_epoch_row_first (env : Env) (r : nat) (wf ty : string)
    (w : World) (a : Adapter) (sd : StateDict) (losses : list pyval)
    (l e : pyval) (metrics : gmap string pyval) :
  heap w !! r = Some a →
  files w !! wf = None →
  fit a (dataset_for env w) (fit_args env wf) = (sd, losses ++ [l]) →
  sub1 (num_epochs env) = Some e →
  metrics_in (get_mteb_results (task env)
                (posixpath.join (snapshot_dir w) ["results.json"])
                (EvalAdapter (with_state a sd)))
    (task env) (split env) = Some metrics →
  metrics !! "epoch" = None → metrics !! "loss" = None →
  let run := train_and_evaluate fit get_mteb_results env r wf ty false in
  is_Some (match outcome run w with Ok res => Some res | Raise _ => None end)
  ∧ tabular_rows ∅ (log run w)
    = final_row e l metrics :: imap epoch_row losses
  ∧ final_row e l metrics !! "epoch" = Some e
  ∧ final_row e l metrics !! "loss" = Some l
  ∧ metrics ⊆ final_row e l metrics
  ∧ (∀ i x, dom (epoch_row i x) = ({["epoch"; "loss"]} : gset string)
            ∧ epoch_row i x !! "epoch" = Some (PInt (Z.of_nat i))
            ∧ epoch_row i x !! "loss" = Some x).
Proof.
  intros Hr Hf Hfit He Hm Hme Hml run.
  destruct (get_dataset_run env w) as (w1 & tds & Hds & Hh1 & Hs1 & Htds).
  unfold metrics_in in Hm.
  destruct (lookup_val _ (task env)) as [bs|] eqn:Hbs; [|done]. simpl in Hm.
  unfold outcome, log, run.
  rewrite (train_and_evaluate_trains fit get_mteb_results env r wf ty w a
             (dataset_for env w) w1 tds sd losses l e bs metrics) by done.
  simpl fst; simpl snd. split_and!.
  - by eexists.
  - cbn [tabular_rows app].
    rewrite tabular_rows_skip by done. cbn [tabular_rows app].
    rewrite (right_id_L ∅ (∪)), tabular_rows_epochs. done.
  - unfold final_row. rewrite lookup_union_r by done.
    by rewrite lookup_insert_ne, lookup_insert_eq.
  - unfold final_row. rewrite lookup_union_r by done.
    by rewrite lookup_insert_eq.
  - apply map_union_subseteq_l.
  - intros i x. unfold epoch_row. split_and!.
    + rewrite !dom_insert_L, dom_empty_L. set_solver.
    + by rewrite lookup_insert_ne, lookup_insert_eq.
    + by rewrite lookup_insert_eq.
Qed.

End Experiment.

(** * The grid of [__main__] *)

(** The number of variants of a grid: the product of the lengths of its
    lists. *)
Definition grid_size (grid : grid_t) : nat :=
  foldr (λ kv n, length kv.2 * n) 1 grid.

(** [variant['loss_type'] == s] *)
Definition loss_type_is (s : string) (v : variant_t) : bool :=
  match v !! "loss_type" with
  | Some x => py_eq_str x s
  | None => false
  end.

(** A number that tells apart the values the grid of [__main__] gives to
    one key. *)
Definition value_code (x : pyval) : Z :=
  match x with
  | PNone => 0
  | PBool b => 1 + Z.b2z b
  | PInt z => 10 + Z.abs z
  | PFloat f =>
      if (f <? 0.0005)%float then 3
      else if (f <? 0.002)%float then 4
      else if (f <? 0.005)%float then 5
      else if (f <? 0.1)%float then 6
      else 7
  | PStr s => Z.of_nat (String.length s)
  end.

Definition variant_code (v : variant_t)
    : option Z * option Z * option bool :=
  (value_code <$> v !! "lr", value_code <$> v !! "triplet_margin",
   (λ x, py_eq_str x "mse") <$> v !! "loss_type").

Lemma length_flat_map_const {A B} (f : A → list B) (l : list A) (n : nat) :
  (∀ x, length (f x) = n) → length (flat_map f l) = length l * n.
Proof.
  intros Hf. induction l as [|x l IH]; [done|].
  simpl. rewrite length_app, Hf, IH. lia.
Qed.

Lemma iterate_hyperparameters_length (grid : grid_t) :
  length (iterate_hyperparameters grid) = grid_size grid.
Proof.
  induction grid as [|[k vs] grid IH]; [done|].
  simpl. rewrite (length_flat_map_const _ _ (grid_size grid)); [done|].
  intros x. by rewrite length_map.
Qed.

(** Every variant of a grid gives to every key of the grid one of the
    values listed for it. *)
Lemma iterate_hyperparameters_picks (grid : grid_t) v k vs :
  NoDup (map fst grid) → v ∈ iterate_hyperparameters grid →
  (k, vs) ∈ grid → ∃ x, x ∈ vs ∧ v !! k = Some x.
Proof.
  induction grid as [|[k0 vs0] grid IH] in v |- *; intros Hnd Hv Hk.
  { by apply elem_of_nil in Hk. }
  simpl in Hv. apply list_elem_of_In, in_flat_map in Hv as (x0 & Hx0 & Hv).
  apply in_map_iff in Hv as (m0 & <- & Hm0).
  apply list_elem_of_In in Hx0, Hm0.
  simpl in Hnd. apply NoDup_cons in Hnd as [Hk0 Hnd].
  apply elem_of_cons in Hk as [[= -> ->]|Hk].
  - exists x0. split; [done|]. apply lookup_insert_eq.
  - destruct (IH m0 Hnd Hm0 Hk) as (x & Hx & Hlook).
    exists x. split; [done|]. rewrite lookup_insert_ne; [done|].
    intros ->. apply Hk0. apply list_elem_of_In, in_map_iff.
    exists (k, vs). split; [done|]. by apply list_elem_of_In.
Qed.

(** C3.  The sweep is a function of the list of grids, so two runs over the
    same list give the same sequence of variants.  A grid gives as many
    variants as the product of the lengths of its lists, each choosing one
    listed value per key.  For the list of [__main__] the variants are the
    4*3 = 12 of the triplet grid followed by the 4*2 = 8 of the pairwise
    grid, 20 in all, and no two of them are equal. *)
Theorem sweep_is_cartesian_product :
  (∀ vl1 vl2 : list grid_t, vl1 = vl2 → sweep vl1 = sweep vl2)
  ∧ (∀ grid, length (iterate_hyperparameters grid) = grid_size grid)
  ∧ (∀ grid v k vs,
       NoDup (map fst grid) → v ∈ iterate_hyperparameters grid →
       (k, vs) ∈ grid → ∃ x, x ∈ vs ∧ v !! k = Some x)
  ∧ (∃ triplet pairwise,
       variants_list = [triplet; pairwise]
       ∧ variants
         = iterate_hyperparameters triplet ++ iterate_hyperparameters pairwise
       ∧ length (iterate_hyperparameters triplet) = 4 * 3
       ∧ length (iterate_hyperparameters pairwise) = 4 * 2
       ∧ forallb (loss_type_is "triplet") (iterate_hyperparameters triplet)
         = true
       ∧ forallb (λ v, loss_type_is "mse" v || loss_type_is "bce" v)
           (iterate_hyperparameters pairwise) = true)
  ∧ length variants = 20
  ∧ NoDup variants.
Proof.
  split_and!.
  - by intros ?? ->.
  - apply iterate_hyperparameters_length.
  - apply iterate_hyperparameters_picks.
  - eexists _, _. split; [reflexivity|].
    split_and!; [|by vm_compute..].
    unfold variants, sweep, variants_list. cbn [flat_map].
    by rewrite app_nil_r.
  - by vm_compute.
  - apply (NoDup_fmap_1 variant_code).
    apply (bool_decide_unpack _). by vm_compute.
Qed.

(** * A concrete launcher

    Small stand-ins for the libraries, on which the statements above can be
    run: the first variant of the grid of [__main__], an empty disk, a [fit]
    of three epochs. *)

Definition demo_tensor (tag : nat) : Tensor :=
  {| t_shape := [tag]; t_data := [] |}.

Definition demo_SentenceTransformer (name : pyval) : STModel :=
  {| st_name := name; st_dim := 2;
     st_params := [ {| p_data := demo_tensor 0; requires_grad := true |} ] |}.

Definition demo_init (m : STModel) (dim : nat) (q s : bool) (r : nat)
    : StateDict :=
  {| weight0 := demo_tensor r; bias0 := demo_tensor (S r); sd_rest := [] |}.

Definition demo_fit (a : Adapter) (d : Dataset) (args : FitArgs)
    : StateDict * list pyval :=
  ({| weight0 := demo_tensor 100; bias0 := demo_tensor 101; sd_rest := [] |},
   [PFloat 0.5; PFloat 0.25; PFloat 0.125]).

Definition demo_results (task : pyval) (path : string) (m : EvalModel)
    : Results :=
  {[ "CQADupstackEnglishRetrieval" :=
       {[ "test" := {[ "ndcg_at_10" := PFloat 0.5 ]} ]} ]}.

Definition demo_dir (key value : string) (v : variant_t) (outer : string)
    : string :=
  outer +:+ "/" +:+ value.

Definition demo_world : World :=
  {| files := ∅; heap := ∅; dataset := None; snapshot_dir := "/logs";
     next_id := 0 |}.

Definition demo_variant : variant_t := default ∅ (variants !! 0).

(** The same variant with a loss type the launcher does not know. *)
Definition demo_bad_variant : variant_t :=
  <["loss_type" := PStr "cosine"]> demo_variant.

Definition demo_run : variant_t → M unit :=
  run_experiment "/proj" (λ _, "0.0") demo_SentenceTransformer demo_init
    demo_fit demo_results demo_dir.

Definition demo_env : Env :=
  env_of demo_SentenceTransformer demo_variant.

Definition demo_adapter : Adapter :=
  new_adapter demo_init (base_model demo_SentenceTransformer demo_variant)
    true false 0.

(** A world with one adapter and nothing on disk, and the same world with
    the weights of a previous run on disk. *)
Definition demo_fresh_world : World :=
  {| files := ∅; heap := {[ 0 := demo_adapter ]}; dataset := None;
     snapshot_dir := "/logs/query_adapted"; next_id := 1 |}.

Definition demo_weights_file : string :=
  "/logs/query_adapted/weights_query_adapted.pt".

Definition demo_resumed_world : World :=
  set_files {[ demo_weights_file := (demo_fit demo_adapter
                 (fresh_dataset demo_env 1)
                 (fit_args demo_env demo_weights_file)).1 ]}
    demo_fresh_world.

Lemma demo_trains_all :
  trains_all demo_fit demo_results demo_dir demo_variant demo_world.
Proof.
  split.
  - unfold has_required_keys, required_keys.
    repeat (apply Forall_cons; split; [by vm_compute; eexists|]).
    constructor.
  - by vm_compute.
  - eexists. by vm_compute.
  - vm_compute. by eexists.
  - unfold blocks. repeat (apply Forall_cons; split; [by vm_compute|]).
    constructor.
  - by intros.
  - intros. vm_compute. by eexists.
Qed.

(** * The claims at the demonstration run

    Each claim that is stated under hypotheses is applied here to the
    demonstration instance, which satisfies them. *)






Lemma demo_bad_required_keys : has_required_keys demo_bad_variant.
Proof.
  unfold has_required_keys, required_keys.
  repeat (apply Forall_cons; split; [by vm_compute; eexists|]).
  constructor.
Qed.

Lemma ValueError_iff_invalid_loss_witness :
  has_required_keys demo_bad_variant
  ∧ (∃ msg, outcome (demo_run demo_bad_variant) demo_world
            = Raise (ValueError msg))
  ∧ (∀ msg, outcome (demo_run demo_bad_variant) demo_world
            = Raise (ValueError msg) →
       log (demo_run demo_bad_variant) demo_world = []
       ∧ final (demo_run demo_bad_variant) demo_world = demo_world).
Proof.
  split; [exact demo_bad_required_keys|].
  pose proof (ValueError_iff_invalid_loss "/proj" (λ _, "0.0")
                demo_SentenceTransformer demo_init demo_fit demo_results
                demo_dir demo_bad_variant demo_world demo_bad_required_keys)
    as [Hiff Hquiet].
  split; [|exact Hquiet].
  apply Hiff. vm_compute. reflexivity.
Defined.

(** A variant that has a loss type the launcher does not know, and nothing
    else. *)
Definition demo_loss_type_only : variant_t :=
  {[ "loss_type" := PStr "cosine" ]}.

(** The loss type of that variant is none of the three, and yet the run
    raises no [ValueError]: [variant['model_name']] is read first and
    raises [KeyError], before the checks of the loss type are reached. *)
Lemma missing_key_comes_before_the_ValueError :
  (negb (py_in_strs (field demo_loss_type_only "loss_type")
           ["triplet"; "mse"; "bce"])
   || (py_eq_str (field demo_loss_type_only "loss_type") "triplet"
       && is_None (dict_get demo_loss_type_only "triplet_margin" PNone)))
  = true
  ∧ outcome (demo_run demo_loss_type_only) demo_world
    = Raise (KeyError (PStr "model_name"))
  ∧ log (demo_run demo_loss_type_only) demo_world = []
  ∧ ¬ (∃ msg, outcome (demo_run demo_loss_type_only) demo_world
              = Raise (ValueError msg)).
Proof.
  assert (outcome (demo_run demo_loss_type_only) demo_world
          = Raise (KeyError (PStr "model_name"))) as Hout
    by (vm_compute; reflexivity).
  split_and!.
  - vm_compute. reflexivity.
  - exact Hout.
  - vm_compute. reflexivity.
  - intros [msg Hmsg]. rewrite Hout in Hmsg. discriminate Hmsg.
Qed.

Lemma resume_raises_IndexError_witness :
  (heap demo_resumed_world !! 0 = Some demo_adapter
   ∧ is_Some (files demo_resumed_world !! demo_weights_file)
   ∧ sub1 (num_epochs demo_env) = Some (PInt 14))
  ∧ outcome (train_and_evaluate demo_fit demo_results demo_env 0
               demo_weights_file "Query-Adapted" false) demo_resumed_world
    = Raise IndexError
  ∧ fits (log (train_and_evaluate demo_fit demo_results demo_env 0
                 demo_weights_file "Query-Adapted" false)
            demo_resumed_world) = []
  ∧ tabular_rows ∅
      (log (train_and_evaluate demo_fit demo_results demo_env 0
              demo_weights_file "Query-Adapted" false)
         demo_resumed_world) = [].
Proof.
  assert (heap demo_resumed_world !! 0 = Some demo_adapter) as Hr
    by (vm_compute; reflexivity).
  assert (files demo_resumed_world !! demo_weights_file
          = Some (demo_fit demo_adapter (fresh_dataset demo_env 1)
                    (fit_args demo_env demo_weights_file)).1) as Hf
    by (vm_compute; reflexivity).
  assert (sub1 (num_epochs demo_env) = Some (PInt 14)) as He
    by (vm_compute; reflexivity).
  split; [split_and!; [exact Hr | rewrite Hf; eexists; reflexivity
                      | exact He]|].
  pose proof (resume_raises_IndexError demo_fit demo_results demo_env 0
                demo_weights_file "Query-Adapted" demo_resumed_world
                demo_adapter _ (PInt 14) Hr Hf He)
    as (Hout & _ & Hfits & _ & _ & Hrows).
  split_and!; [exact Hout | exact Hfits | exact Hrows].
Defined.

Lemma final_epoch_row_first_witness :
  (heap demo_fresh_world !! 0 = Some demo_adapter
   ∧ files demo_fresh_world !! demo_weights_file = None
   ∧ sub1 (num_epochs demo_env) = Some (PInt 14))
  ∧ tabular_rows ∅
      (log (train_and_evaluate demo_fit demo_results demo_env 0
              demo_weights_file "Query-Adapted" false) demo_fresh_world)
    = [ final_row (PInt 14) (PFloat 0.125) {[ "ndcg_at_10" := PFloat 0.5 ]};
        epoch_row 0 (PFloat 0.5); epoch_row 1 (PFloat 0.25) ].
Proof.
  assert (heap demo_fresh_world !! 0 = Some demo_adapter) as Hr
    by (vm_compute; reflexivity).
  assert (files demo_fresh_world !! demo_weights_file = None) as Hf
    by (vm_compute; reflexivity).
  assert (sub1 (num_epochs demo_env) = Some (PInt 14)) as He
    by (vm_compute; reflexivity).
  split; [split_and!; assumption|].
  refine (proj1 (proj2
    (final_epoch_row_first demo_fit demo_results demo_env 0
       demo_weights_file "Query-Adapted" demo_fresh_world demo_adapter
       (demo_fit demo_adapter (dataset_for demo_env demo_fresh_world)
          (fit_args demo_env demo_weights_file)).1
       [PFloat 0.5; PFloat 0.25] (PFloat 0.125) (PInt 14)
       {[ "ndcg_at_10" := PFloat 0.5 ]} Hr Hf _ He _ _ _))).
  - reflexivity.
  - vm_compute. reflexivity.
  - vm_compute. reflexivity.
  - vm_compute. reflexivity.
Defined.

(** * More of the launcher: errors, edges and what every run keeps *)

Section Errors.

Context (proj_dir : string).
Context (float_repr : float → string).
Context (SentenceTransformer : pyval → STModel).
Context (LinearAdapter_init : STModel → nat → bool → bool → nat → StateDict).
Context (fit : Adapter → Dataset → FitArgs → StateDict * list pyval).
Context (get_mteb_results : pyval → string → EvalModel → Results).
Context (local_snapshot_dir : string → string → variant_t → string → string).

Local Abbreviation run := 
  (run_experiment proj_dir float_repr SentenceTransformer LinearAdapter_init
     fit get_mteb_results local_snapshot_dir).
Local Abbreviation train := (train_and_evaluate fit get_mteb_results).

(** ** A variant that lacks a key *)

Lemma getitem_missing (v : variant_t) k w :
  v !! k = None → getitem v k w = (Raise (KeyError (PStr k)), w, []).
Proof. intros H. unfold getitem. by rewrite H. Qed.

(** X1.  [variant[k]] is read for the keys of [required_keys], in that order:
    the first of them the variant lacks is the [KeyError] of the run, and
    nothing has happened by then. The keys read with [variant.get] are never
    missed, and the checks of the loss type come later. *)
Theorem first_missing_key_is_the_KeyError (v : variant_t) (w : World)
    (pre : list string) (k : string) (post : list string) :
  required_keys = pre ++ k :: post →
  Forall (λ k', is_Some (v !! k')) pre →
  v !! k = None →
  outcome (run v) w = Raise (KeyError (PStr k))
  ∧ log (run v) w = []
  ∧ final (run v) w = w.
Proof.
  intros Hreq Hpre Hk.
  assert (run v w = (Raise (KeyError (PStr k)), w, [])) as Hrun.
  { unfold required_keys in Hreq. unfold run_experiment.
    do 7 (destruct pre as [|k' pre];
          [injection Hreq as <- _; by rewrite (bind_Raise _ _ _ _ _ _
                                           (getitem_missing v _ w Hk))
          |injection Hreq as <- Hreq;
           apply Forall_cons in Hpre as [? Hpre];
           rewrite (bind_pure (getitem v _) _ w _)
             by (by apply getitem_field)]).
    by destruct pre. }
  unfold outcome, log, final. by rewrite Hrun.
Qed.

(** ** The two messages of [ValueError] *)

(** X2.  The check of the margin comes first: a 'triplet' variant without a
    margin gets the message about the margin; a variant whose loss type is
    none of the three gets the message that names the loss type, as [str]
    prints it. *)
Theorem ValueError_messages (v : variant_t) (w : World) :
  has_required_keys v →
  (py_eq_str (field v "loss_type") "triplet" = true →
   is_None (field v "triplet_margin") = true →
   outcome (run v) w
   = Raise (ValueError "Must provide triplet_margin if using triplet loss."))
  ∧ (py_in_strs (field v "loss_type") ["triplet"; "mse"; "bce"] = false →
     outcome (run v) w
     = Raise (ValueError ("Invalid loss type: "
                          +:+ py_str float_repr (field v "loss_type")))).
Proof.
  intros Hk. unfold has_required_keys, required_keys in Hk.
  repeat (apply Forall_cons in Hk as [? Hk]).
  unfold outcome, run_experiment.
  do 7 (rewrite (bind_pure (getitem v _) _ w _) by (by apply getitem_field)).
  fold (field v "triplet_margin"). split.
  - by intros -> ->.
  - intros Hin.
    assert (py_eq_str (field v "loss_type") "triplet" = false) as ->.
    { simpl in Hin. by apply orb_false_elim in Hin as [? _]. }
    by rewrite andb_false_r, Hin.
Qed.

End Errors.

(** * [train_and_evaluate]: what goes wrong after training *)

Section TrainErrors.

Context (fit : Adapter → Dataset → FitArgs → StateDict * list pyval).
Context (get_mteb_results : pyval → string → EvalModel → Results).

Local Abbreviation train := (train_and_evaluate fit get_mteb_results).

(** The key [results[task][split]] fails on, if it does. *)
Definition missing_key (res : Results) (task split : pyval) : option pyval :=
  match lookup_val res task with
  | None => Some task
  | Some by_split =>
      match lookup_val by_split split with
      | None => Some split
      | Some _ => None
      end
  end.

Lemma in_context_flat_all cur l :
  Forall (λ e, bracket e = false) l →
  in_context cur l = map (pair (default "" (head cur))) l.
Proof.
  intros H. rewrite <- (app_nil_r l) at 1.
  by rewrite in_context_flat, app_nil_r.
Qed.

Ltac run_train Hr Hf Hfit :=
  unfold outcome, log, final, train_and_evaluate, path_exists, fit_call,
    get_results, get_snapshot_dir, deref, py_sub1, last_item, getitem_val,
    dataset_for, get_dataset, new_dataset, fresh_dataset, fit_args in *;
  unfold bind, get, emit, modify, ret, raise; simpl;
  rewrite ?Hf; rewrite ?bool_decide_eq_false_2 by (by intros [? ?]);
  simpl.

(** X3.  When [fit] returns no loss, the adapter has been trained and
    evaluated by the time [losses[-1]] raises [IndexError], and no row of the
    tabular log is written. *)
Theorem no_loss_raises_IndexError (env : Env) (r : nat) (wf ty : string)
    (w : World) (a : Adapter) (sd : StateDict) (e : pyval) :
  heap w !! r = Some a →
  files w !! wf = None →
  fit a (dataset_for env w) (fit_args env wf) = (sd, []) →
  sub1 (num_epochs env) = Some e →
  outcome (train env r wf ty false) w = Raise IndexError
  ∧ fits (log (train env r wf ty false) w)
    = [("", r, a, dataset_for env w, fit_args env wf)]
  ∧ evaluations (log (train env r wf ty false) w)
    = [("", task env, posixpath.join (snapshot_dir w) ["results.json"],
        EvalAdapter (with_state a sd))]
  ∧ heap (final (train env r wf ty false) w) !! r = Some (with_state a sd)
  ∧ tabular_rows ∅ (log (train env r wf ty false) w) = [].
Proof.
  intros Hr Hf Hfit He. run_train Hr Hf Hfit.
  destruct (dataset w) as [d|] eqn:Hd; simpl in *.
  - rewrite Hr. simpl. rewrite Hfit. simpl. rewrite lookup_insert_eq. simpl.
    rewrite He. simpl. split_and!; try reflexivity. apply lookup_insert_eq.
  - destruct (py_eq_str (loss_type env) "triplet"); simpl in *;
      rewrite Hr; simpl; rewrite Hfit; simpl; rewrite lookup_insert_eq; simpl;
      rewrite He; simpl; (split_and!; try reflexivity; apply lookup_insert_eq).
Qed.

(** X4.  The results lack the task, or the split: [results[task][split]]
    raises [KeyError] on the key that is missing, after the adapter has been
    trained and evaluated, and no row of the tabular log is written. *)
Theorem missing_result_raises_KeyError (env : Env) (r : nat)
    (wf ty : string) (w : World) (a : Adapter) (sd : StateDict)
    (losses : list pyval) (l e k : pyval) :
  heap w !! r = Some a →
  files w !! wf = None →
  fit a (dataset_for env w) (fit_args env wf) = (sd, losses ++ [l]) →
  sub1 (num_epochs env) = Some e →
  missing_key
    (get_mteb_results (task env)
       (posixpath.join (snapshot_dir w) ["results.json"])
       (EvalAdapter (with_state a sd)))
    (task env) (split env) = Some k →
  outcome (train env r wf ty false) w = Raise (KeyError k)
  ∧ fits (log (train env r wf ty false) w)
    = [("", r, a, dataset_for env w, fit_args env wf)]
  ∧ heap (final (train env r wf ty false) w) !! r = Some (with_state a sd)
  ∧ tabular_rows ∅ (log (train env r wf ty false) w) = [].
Proof.
  intros Hr Hf Hfit He Hk. unfold missing_key in Hk. run_train Hr Hf Hfit.
  destruct (dataset w) as [d|] eqn:Hd; simpl in *.
  - rewrite Hr. simpl. rewrite Hfit. simpl. rewrite lookup_insert_eq. simpl.
    rewrite He. simpl. rewrite last_snoc. simpl.
    destruct (lookup_val _ (task env)) as [bs|]; simpl.
    + destruct (lookup_val bs (split env)); [done|]. simpl.
      injection Hk as <-. split_and!; try reflexivity. apply lookup_insert_eq.
    + injection Hk as <-. split_and!; try reflexivity. apply lookup_insert_eq.
  - destruct (py_eq_str (loss_type env) "triplet"); simpl in *;
      rewrite Hr; simpl; rewrite Hfit; simpl; rewrite lookup_insert_eq; simpl;
      rewrite He; simpl; rewrite last_snoc; simpl;
      (destruct (lookup_val _ (task env)) as [bs|]; simpl;
       [destruct (lookup_val bs (split env)); [done|]; simpl|]);
      injection Hk as <-;
      (split_and!; try reflexivity; apply lookup_insert_eq).
Qed.

(** X5.  With [force=True] the weights file is not looked at: the adapter is
    trained although the file exists, nothing is loaded, and [fit] is told to
    save over the file. *)
Theorem force_trains_over_checkpoint (env : Env) (r : nat)
    (wf ty : string) (w : World) (a : Adapter) (sd0 sd : StateDict)
    (losses : list pyval) (l e : pyval) (metrics : gmap string pyval) :
  heap w !! r = Some a →
  files w !! wf = Some sd0 →
  fit a (dataset_for env w) (fit_args env wf) = (sd, losses ++ [l]) →
  sub1 (num_epochs env) = Some e →
  metrics_in (get_mteb_results (task env)
                (posixpath.join (snapshot_dir w) ["results.json"])
                (EvalAdapter (with_state a sd)))
    (task env) (split env) = Some metrics →
  outcome (train env r wf ty true) w
  = Ok (get_mteb_results (task env)
          (posixpath.join (snapshot_dir w) ["results.json"])
          (EvalAdapter (with_state a sd)))
  ∧ loads (log (train env r wf ty true) w) = []
  ∧ fits (log (train env r wf ty true) w)
    = [("", r, a, dataset_for env w, fit_args env wf)]
  ∧ heap (final (train env r wf ty true) w) !! r = Some (with_state a sd)
  ∧ tabular_rows ∅ (log (train env r wf ty true) w)
    = final_row e l metrics :: imap epoch_row losses.
Proof.
  intros Hr Hf Hfit He Hm.
  destruct (get_dataset_run env w) as (w1 & tds & Hds & Hh1 & Hs1 & Htds).
  unfold metrics_in in Hm.
  destruct (lookup_val _ (task env)) as [bs|] eqn:Hbs; [|done].
  simpl in Hm.
  assert (train env r wf ty true w
          = (Ok (get_mteb_results (task env)
                   (posixpath.join (snapshot_dir w) ["results.json"])
                   (EvalAdapter (with_state a sd))),
             trained r a sd wf w1,
             [EvMakedirs (posixpath.dirname wf);
              EvPrint ("Training " +:+ ty +:+ " Linear Adapter...")]
             ++ tds
             ++ [EvFit r a (dataset_for env w) (fit_args env wf);
                 EvMtebResults (task env)
                   (posixpath.join (snapshot_dir w) ["results.json"])
                   (EvalAdapter (with_state a sd));
                 EvRecordDict (final_row e l metrics); EvDumpTabular]
             ++ epoch_events 0 losses)%list) as Hrun.
  { unfold train_and_evaluate. etrans.
    eapply bind_Ok; [reflexivity|].
    eapply bind_Ok; [reflexivity|]. simpl.
    rewrite andb_false_r.
    eapply bind_Ok.
    { eapply bind_Ok; [reflexivity|]. eapply bind_Ok; [exact Hds|].
      unfold fit_call. eapply bind_Ok.
      { unfold deref, bind, get. simpl. rewrite Hh1, Hr. reflexivity. }
      eapply bind_Ok; [reflexivity|]. fold (fit_args env wf). rewrite Hfit.
      eapply bind_Ok; reflexivity. }
    simpl.
    eapply bind_Ok.
    { unfold get_results. eapply bind_Ok; [reflexivity|]. simpl.
      eapply bind_Ok.
      { unfold deref, bind, get. simpl. rewrite lookup_insert_eq.
        reflexivity. }
      eapply bind_Ok; reflexivity. }
    rewrite Hs1.
    eapply bind_Ok; [unfold py_sub1; rewrite He; reflexivity|].
    eapply bind_Ok; [unfold last_item; rewrite last_snoc; reflexivity|].
    eapply bind_Ok; [unfold getitem_val; simpl in Hbs; rewrite Hbs;
                     reflexivity|].
    eapply bind_Ok; [unfold getitem_val; rewrite Hm; reflexivity|].
    eapply bind_Ok; [reflexivity|].
    eapply bind_Ok; [reflexivity|].
    eapply bind_Ok.
    { rewrite removelast_last. apply for_each_epochs. }
    reflexivity.
    simpl. by rewrite Hs1, app_nil_r, <- app_assoc. }
  unfold outcome, log, final. rewrite Hrun. cbn [fst snd].
  assert (tds = [] ∨ ∃ d, tds = [EvDataset d]) as Htd.
  { revert Hds. destruct (dataset w) as [d|] eqn:Hd.
    - rewrite (get_dataset_cached env w d Hd). intros [= _ _ <-]. by left.
    - rewrite (get_dataset_fresh env w Hd). intros [= _ _ <-]. right.
      by eexists. }
  assert (∀ pre, Forall (λ e, bracket e = false) pre →
            loads (pre ++ epoch_events 0 losses) = omap load_of (map (pair "") pre)
            ∧ fits (pre ++ epoch_events 0 losses) = omap fit_of (map (pair "") pre))
    as Hobs.
  { intros pre Hpre. unfold loads, fits.
    rewrite in_context_flat by done. cbn [head default].
    rewrite (in_context_flat_all _ _ (epoch_events_flat 0 losses)).
    cbn [head default]. rewrite !omap_app.
    by rewrite !omap_epoch_events, !app_nil_r. }
  split_and!.
  - reflexivity.
  - rewrite !app_assoc.
    destruct Htd as [->|[d ->]];
      lazymatch goal with
      | |- loads (?p ++ _) = _ =>
          by rewrite (proj1 (Hobs p ltac:(by repeat constructor)))
      end.
  - rewrite !app_assoc.
    destruct Htd as [->|[d ->]];
      lazymatch goal with
      | |- fits (?p ++ _) = _ =>
          by rewrite (proj2 (Hobs p ltac:(by repeat constructor)))
      end.
  - simpl. apply lookup_insert_eq.
  - cbn [tabular_rows app].
    rewrite tabular_rows_skip by done. cbn [tabular_rows app].
    rewrite (right_id_L ∅ (∪)), tabular_rows_epochs. done.
Qed.


End TrainErrors.

(** * What every run of [run_experiment] hands to the libraries *)

(** Two more rules for [keeps]: a key that is read is there afterwards,
    and the value a call returns is known where it is only logged. *)
Lemma keeps_getitem {V B} (Inv : World → list Event → Prop)
    (E : exn → Prop) (v : gmap string V) (k : string) (f : V → M B) :
  E (KeyError (PStr k)) →
  (∀ x, v !! k = Some x → keeps Inv E (f x)) →
  keeps Inv E (bind (getitem v k) f).
Proof.
  intros HE Hf. unfold getitem. destruct (v !! k) as [x|] eqn:Hx.
  - intros w t0 H. destruct (Hf x eq_refl w t0 H) as [H1 H2].
    unfold final, log, outcome, bind in *. simpl.
    by destruct (f x w) as [[??]?].
  - intros w t0 H. unfold final, log, outcome, bind. simpl.
    rewrite app_nil_r. split; [done|]. by intros ? [= <-].
Qed.

Lemma keeps_emit_ret {A B} (Inv : World → list Event → Prop)
    (E : exn → Prop) (ev : Event) (a : A) (f : A → M B) :
  (∀ w t, Inv w t → Inv w (t ++ [ev])) →
  keeps Inv E (f a) →
  keeps Inv E (bind (emit ev ;; ret a) f).
Proof.
  intros Hev Hf w t0 H. destruct (Hf w (t0 ++ [ev]) (Hev w t0 H)) as [H1 H2].
  unfold final, log, outcome, bind, emit, ret in *. simpl.
  destruct (f a w) as [[??]?]. simpl in *. by rewrite <- app_assoc in H1.
Qed.

Definition any_exn (e : exn) : Prop := True.

(** The structure of a computation, walked with [leaf] at every [emit] and
    [modify]. *)
Ltac walk leaf :=
  lazymatch goal with
  | |- keeps _ _ (bind (getitem _ _) _) =>
      apply keeps_getitem; [exact I|intros ? ?]
  | |- keeps _ _ (bind (emit _ ;; ret _) _) => apply keeps_emit_ret; [leaf|]
  | |- keeps _ _ (bind _ _) => apply keeps_bind; [|intros ?]
  | |- keeps _ _ (finally _ _) => apply keeps_finally
  | |- keeps _ _ (ret _) => apply keeps_ret
  | |- keeps _ _ (raise _) => apply keeps_raise; exact I
  | |- keeps _ _ get => apply keeps_get
  | |- keeps _ _ (for_each _ _) => apply keeps_for_each; intros [? ?]
  | |- keeps _ _ (emit _) => apply keeps_emit; leaf
  | |- keeps _ _ (modify _) => apply keeps_modify; leaf
  | |- keeps _ _ (match ?x with _ => _ end) => destruct x
  end.

Section EveryRun.

Context (proj_dir : string).
Context (float_repr : float → string).
Context (SentenceTransformer : pyval → STModel).
Context (LinearAdapter_init : STModel → nat → bool → bool → nat → StateDict).
Context (fit : Adapter → Dataset → FitArgs → StateDict * list pyval).
Context (get_mteb_results : pyval → string → EvalModel → Results).
Context (local_snapshot_dir : string → string → variant_t → string → string).

Local Abbreviation run :=
  (run_experiment proj_dir float_repr SentenceTransformer LinearAdapter_init
     fit get_mteb_results local_snapshot_dir).
Local Abbreviation train := (train_and_evaluate fit get_mteb_results).
Local Abbreviation env_of' := (env_of SentenceTransformer).

(** What the launcher may hand to a library, for the locals [env] of
    [run_experiment]: an adapter is constructed on the model of [env], with
    its embedding dimension; a dataset is one built from [env]; [fit] is
    given such a dataset, the hyperparameters of [env] and a weights file
    with one of the four names; an evaluation is of the task of [env], of
    an adapter into a file [results.json], or of the model of [env]. *)
Definition launcher_event (env : Env) (e : Event) : Prop :=
  match e with
  | EvLinearAdapter _ a =>
      a_base a = model env ∧ a_dim a = st_dim (model env)
      ∧ a_query_only a && a_separate_embeddings a = false
  | EvDataset d => ∃ id, d = fresh_dataset env id
  | EvFit _ _ d args =>
      (∃ id, d = fresh_dataset env id)
      ∧ ∃ dir name, name ∈ map snd blocks
                    ∧ args = fit_args env (posixpath.join dir [name])
  | EvMtebResults tk path m =>
      tk = task env
      ∧ match m with
        | EvalAdapter _ => ∃ dir, path = posixpath.join dir ["results.json"]
        | EvalBase m0 => m0 = model env
        end
  | _ => True
  end.

Definition shape_inv (env : Env) (w : World) (t : list Event) : Prop :=
  Forall (launcher_event env) t
  ∧ ∀ d, dataset w = Some d → ∃ id, d = fresh_dataset env id.

Ltac shape_leaf :=
  let H1 := fresh in let H2 := fresh in
  intros ? ? [H1 H2]; split;
  [first [exact H1
         |apply Forall_app; split;
          [exact H1
          |apply Forall_singleton; simpl;
           first [done | by eauto | by split_and!; eauto]]]
  |first [exact H2 | by intros ? [=]]].

Lemma keeps_shape_fit env r dir name :
  name ∈ map snd blocks →
  keeps (shape_inv env) any_exn
    (let* ds := get_dataset env in
     fit_call fit r ds (fit_args env (posixpath.join dir [name]))).
Proof.
  intros Hname w t0 [H1 H2]. unfold final, log, outcome, bind.
  destruct (dataset w) as [d|] eqn:Hd.
  - rewrite (get_dataset_cached env w d Hd).
    unfold fit_call, deref, bind, get. simpl.
    destruct (heap w !! r) as [a|]; simpl.
    + destruct (fit a d _) as [sd losses]. simpl. split; [|done]. split.
      * apply Forall_app; split; [done|]. apply Forall_singleton. simpl.
        split; [by apply H2|by eauto].
      * simpl. by rewrite Hd.
    + rewrite app_nil_r. split; [|done]. split; [done|]. by rewrite Hd.
  - rewrite (get_dataset_fresh env w Hd).
    set (d := fresh_dataset env (next_id w)).
    unfold fit_call, deref, bind, get. simpl.
    destruct (heap w !! r) as [a|]; simpl.
    + destruct (fit a d _) as [sd losses]. simpl. split; [|done]. split.
      * apply Forall_app; split; [done|].
        repeat constructor; simpl; by eauto.
      * simpl. intros ? [= <-]. by eauto.
    + split; [|done]. split.
      * apply Forall_app; split; [done|]. apply Forall_singleton. by eexists.
      * simpl. intros ? [= <-]. by eauto.
Qed.

Lemma keeps_shape_train env r dir name ty force :
  name ∈ map snd blocks →
  keeps (shape_inv env) any_exn
    (train env r (posixpath.join dir [name]) ty force).
Proof.
  intros Hname.
  unfold train_and_evaluate, path_exists, torch_load, load_state_dict,
    get_results, get_snapshot_dir, deref, py_sub1, last_item, getitem_val,
    record_dict, dump_tabular.
  repeat first
    [ lazymatch goal with
      | |- keeps _ _ (bind (get_dataset _) _) =>
          apply (keeps_shape_fit env r dir name Hname)
      end
    | walk shape_leaf ].
Qed.

Lemma env_of_locals (v : variant_t) x0 x1 x2 x3 x4 x5 x6 :
  v !! "model_name" = Some x0 → v !! "task" = Some x1 →
  v !! "split" = Some x2 → v !! "num_epochs" = Some x3 →
  v !! "lr" = Some x4 → v !! "batch_size" = Some x5 →
  v !! "loss_type" = Some x6 →
  {| model := freeze (SentenceTransformer x0); task := x1; split := x2;
     num_epochs := x3; lr := x4; batch_size := x5;
     triplet_margin := dict_get v "triplet_margin" PNone; loss_type := x6;
     data_negative_sampling :=
       dict_get v "data_negative_sampling" (PBool true);
     data_synthetic_gen := dict_get v "data_synthetic_gen" (PBool false);
     data_augmentation_threshold :=
       dict_get v "data_augmentation_threshold" (PInt 10) |}
  = env_of' v.
Proof.
  intros H0 H1 H2 H3 H4 H5 H6. unfold env_of, base_model, field, dict_get.
  by rewrite H0, H1, H2, H3, H4, H5, H6.
Qed.

(** Every event of every run is one the launcher may emit for the locals
    it read from the variant. *)
Lemma run_events (v : variant_t) (w : World) :
  Forall (launcher_event (env_of' v)) (log (run v) w).
Proof.
  cut (wp (run v) (λ _ _ t, Forall (launcher_event (env_of' v)) t)
          (λ _ _ t, Forall (launcher_event (env_of' v)) t) w []).
  { intros H. apply wp_run in H. by destruct (outcome (run v) w). }
  unfold run_experiment.
  do 7 (apply wp_bind; unfold getitem at 1;
        lazymatch goal with
        | |- wp (match v !! ?k with _ => _ end) _ _ _ _ =>
            destruct (v !! k) eqn:?; [apply wp_ret|by apply wp_raise]
        end).
  repeat lazymatch goal with
         | |- wp (if ?c then _ else _) _ _ _ _ =>
             destruct c; [by apply wp_raise|]
         end.
  unfold SentenceTransformer_new.
  apply wp_bind, wp_bind, wp_emit, wp_ret, wp_bind, wp_modify.
  erewrite <- env_of_locals by eassumption.
  lazymatch goal with
  | |- wp _ (λ _ _ t, Forall (launcher_event ?env) t) _ _ _ =>
      eapply (wp_keeps (shape_inv env) any_exn)
  end.
  - unfold LocalLogger, LinearAdapter_new, copy_weight_and_bias, path_join,
      get_snapshot_dir, deref.
    repeat first
      [ lazymatch goal with
        | |- keeps _ _ (train_and_evaluate _ _ _ _ _ _ _) =>
            apply keeps_shape_train; unfold blocks; simpl; set_solver
        end
      | walk shape_leaf ].
  - split; [by repeat constructor|]. by intros ? [=].
  - by intros ? ? ? [? ?].
  - by intros ? ? ? [? ?].
Qed.

(** X6.  Every call of [fit], in every run, is given the hyperparameters of
    the variant as they are: [num_epochs], [lr], [batch_size] and [loss_type]
    are [variant[...]], the margin is [variant.get('triplet_margin')], also
    for a pairwise loss, and the weights are saved under one of the four file
    names. *)
Theorem fit_is_given_the_hyperparameters (v : variant_t) (w : World) :
  Forall (λ e, match e with
               | EvFit _ _ _ args =>
                   fa_num_epochs args = field v "num_epochs"
                   ∧ fa_lr args = field v "lr"
                   ∧ fa_batch_size args = field v "batch_size"
                   ∧ fa_loss_type args = field v "loss_type"
                   ∧ fa_margin args = dict_get v "triplet_margin" PNone
                   ∧ posixpath.basename (fa_model_save_path args)
                     ∈ ["weights_query_adapted.pt"; "weights.pt";
                        "weights_query_first.pt"; "weights_separate.pt"]
               | _ => True
               end) (log (run v) w).
Proof.
  eapply Forall_impl; [apply run_events|].
  intros [] He; try exact I. destruct He as (_ & dir & name & Hn & ->).
  split_and!; try reflexivity. unfold fit_args. cbn [fa_model_save_path].
  unfold blocks in Hn. cbn [map snd] in Hn.
  rewrite posixpath_facts.basename_join; [exact Hn|].
  repeat (apply elem_of_cons in Hn as [->|Hn]; [done|]).
  by apply elem_of_nil in Hn.
Qed.

(** X7.  Every dataset built, in every run, is built from the variant: the
    task and the split are [variant[...]], the relevance threshold is 0.5, and
    the three data options are [variant.get] with the defaults [True], [False]
    and [10]; a pairwise dataset is normalized. *)
Theorem dataset_is_built_from_the_variant (v : variant_t) (w : World) :
  Forall (λ d,
            ds_task d = field v "task"
            ∧ ds_split d = field v "split"
            ∧ ds_relevance_threshold d = 0.5%float
            ∧ ds_negative_sampling d
              = dict_get v "data_negative_sampling" (PBool true)
            ∧ ds_synthetic_data d
              = dict_get v "data_synthetic_gen" (PBool false)
            ∧ ds_data_augmentation_threshold d
              = dict_get v "data_augmentation_threshold" (PInt 10)
            ∧ ds_normalized d
              = if py_eq_str (field v "loss_type") "triplet"
                then None else Some true)
    (datasets_built (log (run v) w)).
Proof.
  pose proof (run_events v w) as H. unfold datasets_built.
  induction H as [|e t He _ IH]; [constructor|].
  destruct e; simpl; try exact IH. constructor; [|exact IH].
  destruct He as [id ->]. unfold fresh_dataset. simpl.
  by destruct (py_eq_str (field v "loss_type") "triplet").
Qed.

(** X8.  Every evaluation, in every run, is of the task of the variant. The
    results of an adapter go to a file [results.json], whatever the directory;
    the model evaluated without an adapter is the frozen base model of the
    variant. *)
Theorem evaluations_are_of_the_task (v : variant_t) (w : World) :
  Forall (λ e, match e with
               | EvMtebResults tk path m =>
                   tk = field v "task"
                   ∧ match m with
                     | EvalAdapter _ =>
                         posixpath.basename path = "results.json"
                     | EvalBase m0 =>
                         m0 = freeze (SentenceTransformer
                                        (field v "model_name"))
                     end
               | _ => True
               end) (log (run v) w).
Proof.
  eapply Forall_impl; [apply run_events|].
  intros [] He; try exact I. destruct He as [-> Hm]. split; [done|].
  destruct m; [done|]. destruct Hm as [dir ->].
  by apply posixpath_facts.basename_join.
Qed.

(** X9.  Every adapter, in every run, is constructed on the frozen base model
    of the variant, with the embedding dimension of that model, and with at
    most one of [query_only] and [separate_embeddings]. *)
Theorem adapters_are_built_on_the_base_model (v : variant_t) (w : World) :
  Forall (λ e, match e with
               | EvLinearAdapter _ a =>
                   a_base a = freeze (SentenceTransformer
                                        (field v "model_name"))
                   ∧ a_dim a
                     = st_dim (SentenceTransformer (field v "model_name"))
                   ∧ a_query_only a && a_separate_embeddings a = false
               | _ => True
               end) (log (run v) w).
Proof.
  eapply Forall_impl; [apply run_events|].
  intros [] He; try exact I. exact He.
Qed.

End EveryRun.

(** * The logger contexts of a run *)

(** The context that is open after the events [t], starting from [cur]:
    [None] when an [EvEnter] comes inside an open context, or an [EvExit]
    does not close the context that is open. *)
Fixpoint ctx_run (cur : option string) (t : list Event)
    : option (option string) :=
  match t with
  | [] => Some cur
  | EvEnter _ v :: t' =>
      match cur with None => ctx_run (Some v) t' | Some _ => None end
  | EvExit _ v :: t' =>
      match cur with
      | Some u => if String.eqb u v then ctx_run None t' else None
      | None => None
      end
  | _ :: t' => ctx_run cur t'
  end.

(** Where the launcher does what: the base model is loaded and evaluated,
    and the comparison is plotted, outside every context; everything that
    touches an adapter happens inside the context of one of the four
    adapter types. *)
Definition placed (c : string) (e : Event) : Prop :=
  match e with
  | EvSentenceTransformer _ | EvPlotComparison _ _ _
  | EvMtebResults _ _ (EvalBase _) => c = ""
  | EvEnter _ _ | EvExit _ _ => True
  | _ => c ∈ ["query_adapted"; "adapted"; "query_first"; "separate"]
  end.

Definition ctx_inv (c : option string) (w : World) (t : list Event) : Prop :=
  ctx_run None t = Some c
  ∧ Forall (λ ce, placed ce.1 ce.2) (in_context [] t).

Lemma ctx_run_app cur t1 t2 :
  ctx_run cur (t1 ++ t2) = ctx_run cur t1 ≫= λ c, ctx_run c t2.
Proof.
  revert cur. induction t1 as [|e t1 IH]; intros cur; [done|].
  destruct e; simpl; try apply IH.
  - destruct cur; [done|apply IH].
  - destruct cur as [u|]; [|done]. destruct (String.eqb u value); [apply IH|done].
Qed.

Lemma in_context_app_ctx cur c t1 t2 :
  ctx_run cur t1 = Some c →
  in_context (option_list cur) (t1 ++ t2)
  = in_context (option_list cur) t1 ++ in_context (option_list c) t2.
Proof.
  revert cur. induction t1 as [|e t1 IH]; intros cur H.
  - by injection H as ->.
  - destruct e; simpl in *; try (by rewrite (IH cur H)).
    + destruct cur; [done|]. apply (IH (Some value) H).
    + destruct cur as [u|]; [|done].
      destruct (String.eqb u value); [|done]. apply (IH None H).
Qed.

Lemma ctx_inv_emit c w t e :
  bracket e = false → placed (default "" c) e →
  ctx_inv c w t → ctx_inv c w (t ++ [e]).
Proof.
  intros Hb Hp [H1 H2]. split.
  - rewrite ctx_run_app, H1. simpl. by destruct e.
  - rewrite (in_context_app_ctx None c) by done. apply Forall_app.
    split; [done|]. destruct e, c; simpl in *; try done; by apply Forall_singleton.
Qed.

Lemma ctx_inv_enter w t k v :
  ctx_inv None w t → ctx_inv (Some v) w (t ++ [EvEnter k v]).
Proof.
  intros [H1 H2]. split.
  - by rewrite ctx_run_app, H1.
  - rewrite (in_context_app_ctx None None) by done. simpl.
    by rewrite app_nil_r.
Qed.

Lemma ctx_inv_exit w t k v :
  ctx_inv (Some v) w t → ctx_inv None w (t ++ [EvExit k v]).
Proof.
  intros [H1 H2]. split.
  - rewrite ctx_run_app, H1. simpl. by rewrite String.eqb_refl.
  - rewrite (in_context_app_ctx None (Some v)) by done. simpl.
    by rewrite app_nil_r.
Qed.

Section Contexts.

Context (proj_dir : string).
Context (float_repr : float → string).
Context (SentenceTransformer : pyval → STModel).
Context (LinearAdapter_init : STModel → nat → bool → bool → nat → StateDict).
Context (fit : Adapter → Dataset → FitArgs → StateDict * list pyval).
Context (get_mteb_results : pyval → string → EvalModel → Results).
Context (local_snapshot_dir : string → string → variant_t → string → string).

Local Abbreviation run :=
  (run_experiment proj_dir float_repr SentenceTransformer LinearAdapter_init
     fit get_mteb_results local_snapshot_dir).
Local Abbreviation train := (train_and_evaluate fit get_mteb_results).

Ltac ctx_leaf :=
  first
    [ intros ? ? ?; apply ctx_inv_emit; [reflexivity| |assumption];
      simpl;
      first [ reflexivity | assumption
            | repeat first [apply list_elem_of_here
                           |apply list_elem_of_further] ]
    | intros ? ? [? ?]; by split ].

Lemma keeps_ctx_LocalLogger {A} key value v (body : M A) :
  keeps (ctx_inv (Some value)) any_exn body →
  keeps (ctx_inv None) any_exn
    (LocalLogger local_snapshot_dir key value v body).
Proof.
  intros Hb w t0 H.
  set (w1 := set_snapshot_dir
               (local_snapshot_dir key value v (snapshot_dir w)) w).
  destruct (Hb w1 (t0 ++ [EvEnter key value])) as [Hin _].
  { apply ctx_inv_enter. by destruct H. }
  unfold final, log, outcome, LocalLogger, get_snapshot_dir, finally, bind,
    get, emit, modify, ret in *. simpl. fold w1.
  destruct (body w1) as [[r w2] t]. simpl in *. split; [|done].
  replace (t0 ++ EvEnter key value :: t ++ [EvExit key value])
    with (((t0 ++ [EvEnter key value]) ++ t) ++ [EvExit key value])
    by (by rewrite <- !app_assoc).
  destruct r; simpl; apply (ctx_inv_exit w2); by destruct Hin.
Qed.

Lemma keeps_ctx_train env r wf ty force b :
  b ∈ ["query_adapted"; "adapted"; "query_first"; "separate"] →
  keeps (ctx_inv (Some b)) any_exn (train env r wf ty force).
Proof.
  intros Hb.
  unfold train_and_evaluate, path_exists, torch_load, load_state_dict,
    get_results, fit_call, get_dataset, new_dataset, get_snapshot_dir, deref,
    py_sub1, last_item, getitem_val, record_dict, dump_tabular.
  repeat walk ctx_leaf.
Qed.

Lemma keeps_ctx_run (v : variant_t) : keeps (ctx_inv None) any_exn (run v).
Proof.
  unfold run_experiment, SentenceTransformer_new, path_join.
  repeat first
    [ lazymatch goal with
      | |- keeps _ _ (LocalLogger _ _ _ _ _) =>
          apply keeps_ctx_LocalLogger;
          unfold LinearAdapter_new, copy_weight_and_bias, get_snapshot_dir,
            deref
      | |- keeps _ _ (train_and_evaluate _ _ _ _ _ _ _) =>
          apply keeps_ctx_train;
          repeat first [apply list_elem_of_here|apply list_elem_of_further]
      end
    | walk ctx_leaf ].
Qed.

(** X10.  In every run, however it ends, the logger contexts are entered and
    left in turn: none is entered inside another, each is left with the value
    it was entered with, and none is open at the end, also when the body
    raised. The base model is loaded and evaluated, and the comparison is
    plotted, outside every context; whatever touches an adapter happens inside
    the context of one of the four adapter types. *)
Theorem contexts_are_closed_and_separate (v : variant_t) (w : World) :
  ctx_run None (log (run v) w) = Some None
  ∧ Forall (λ ce, placed ce.1 ce.2) (in_context [] (log (run v) w)).
Proof.
  destruct (keeps_ctx_run v w []) as [H _]; [by split|]. exact H.
Qed.

End Contexts.

(** * The run that returns *)

Lemma wp_eq {A} (m : M A) (Φ : A → World → list Event → Prop)
    (Ψ : exn → World → list Event → Prop) w t0 a w' t :
  m w = (Ok a, w', t) → Φ a w' (t0 ++ t) → wp m Φ Ψ w t0.
Proof. unfold wp. by intros ->. Qed.

Lemma wp_mono {A} (m : M A) (Φ Φ' : A → World → list Event → Prop)
    (Ψ : exn → World → list Event → Prop) w t0 :
  wp m Φ Ψ w t0 → (∀ a w' t', Φ a w' t' → Φ' a w' t') → wp m Φ' Ψ w t0.
Proof.
  unfold wp. destruct (m w) as [[[a|e] w1] t1]; [|done]. intros H HΦ.
  by apply HΦ.
Qed.

Lemma path_join_pure a l w :
  (∃ s, path_join a l w = (Ok s, w, []))
  ∨ path_join a l w = (Raise TypeError, w, []).
Proof.
  unfold path_join.
  match goal with |- context [bind (?g l)] => set (go := g) end.
  assert ((∃ cs, go l w = (Ok cs, w, []))
          ∨ go l w = (Raise TypeError, w, [])) as [[cs H]|H].
  { induction l as [|x l IH]; [left; by eexists|].
    destruct x; try (by right).
    simpl. unfold bind.
    destruct IH as [[cs ->]| ->]; [left; simpl; by eexists|by right]. }
  - left. eexists. unfold bind. by rewrite H.
  - right. unfold bind. by rewrite H.
Qed.

Definition no_post (e : exn) (w : World) (t : list Event) : Prop := True.

Lemma wp_finally_returns {A} (m : M A) (h : M unit)
    (Φ : A → World → list Event → Prop) w t0 :
  wp m (λ a w1 t1, wp h (λ _, Φ a) no_post w1 t1) no_post w t0 →
  wp (finally m h) Φ no_post w t0.
Proof.
  unfold wp, finally. destruct (m w) as [[[a|e] w1] t1];
    destruct (h w1) as [[[[]|e'] w2] t2]; try done.
  by rewrite app_assoc.
Qed.

(** One step along a computation, for a postcondition on the runs that
    return. *)
Ltac wp_step :=
  lazymatch goal with
  | |- wp (bind _ _) _ _ _ _ => apply wp_bind
  | |- wp (ret _) _ _ _ _ => apply wp_ret
  | |- wp (raise _) _ no_post _ _ => apply wp_raise; exact I
  | |- wp (emit _) _ _ _ _ => apply wp_emit
  | |- wp (modify _) _ _ _ _ => apply wp_modify
  | |- wp get _ _ _ _ => apply wp_get
  | |- wp (finally _ _) _ no_post _ _ => apply wp_finally_returns
  | |- wp (match ?x with _ => _ end) _ _ _ _ => destruct x eqn:?
  end;
  cbn [heap files dataset snapshot_dir next_id set_heap set_files
       set_dataset set_snapshot_dir set_next_id].

(** What [train_and_evaluate] logs when it returns: it has trained the
    adapter [a] at [r]. *)
Definition train_trace (r : nat) (a : Adapter) (t : list Event) : Prop :=
  ∃ dir line tds d args tk path sd row losses,
    t = [EvMakedirs dir; EvPrint line] ++ tds
        ++ [EvFit r a d args;
            EvMtebResults tk path (EvalAdapter (with_state a sd));
            EvRecordDict row; EvDumpTabular]
        ++ epoch_events 0 losses
    ∧ (tds = [] ∨ tds = [EvDataset d]).

(** What a call of [fit] leaves on disk: the weights file [wf] is there,
    no file has gone, and the snapshot directory is the same. *)
Definition saved (w0 w' : World) (wf : string) : Prop :=
  snapshot_dir w' = snapshot_dir w0
  ∧ is_Some (files w' !! wf)
  ∧ ∀ p, is_Some (files w0 !! p) → is_Some (files w' !! p).

Section Returns.

Context (proj_dir : string).
Context (float_repr : float → string).
Context (SentenceTransformer : pyval → STModel).
Context (LinearAdapter_init : STModel → nat → bool → bool → nat → StateDict).
Context (fit : Adapter → Dataset → FitArgs → StateDict * list pyval).
Context (get_mteb_results : pyval → string → EvalModel → Results).
Context (local_snapshot_dir : string → string → variant_t → string → string).

Local Abbreviation run :=
  (run_experiment proj_dir float_repr SentenceTransformer LinearAdapter_init
     fit get_mteb_results local_snapshot_dir).
Local Abbreviation train := (train_and_evaluate fit get_mteb_results).

Lemma wp_train_returns env r wf ty w t0 a
    (Φ : Results → World → list Event → Prop) :
  heap w !! r = Some a →
  (∀ res w' t, train_trace r a t → saved w w' wf →
               is_Some (sub1 (num_epochs env)) → Φ res w' (t0 ++ t)) →
  wp (train env r wf ty false) Φ no_post w t0.
Proof.
  intros Hr HΦ.
  unfold train_and_evaluate, path_exists, torch_load, load_state_dict,
    get_results, fit_call, get_dataset, new_dataset, get_snapshot_dir, deref,
    py_sub1, last_item, getitem_val, record_dict, dump_tabular.
  repeat (wp_step; rewrite ?lookup_insert_eq, ?Hr; cbn [last]).
  all: eapply wp_eq; [apply for_each_epochs|]; apply wp_ret;
    rewrite <- !app_assoc; apply HΦ;
    [|split_and!; cbn;
      [done|by rewrite lookup_insert_eq
      |intros q' Hq'; rewrite lookup_insert; by case_decide]
     |by eexists].
  - eexists _, _, [], _, _, _, _, _, _, _. split; [reflexivity|by left].
  - eexists _, _, [_], _, _, _, _, _, _, _. split; [reflexivity|by right].
  - eexists _, _, [_], _, _, _, _, _, _, _. split; [reflexivity|by right].
Qed.

(** The adapters trained, the files loaded and the comparisons plotted so
    far, outside every context. *)
Definition progress (n : nat) (t : list Event) : Prop :=
  ctx_run None t = Some None
  ∧ trained_adapters t = take n four_adapters
  ∧ loads t = []
  ∧ plots t = [].

Lemma train_trace_observed r a t c :
  train_trace r a t →
  Forall (λ e, bracket e = false) t
  ∧ map (λ x, (x.1.1.1.1, config_of x.1.1.2))
      (omap fit_of (map (pair c) t)) = [(c, config_of a)]
  ∧ omap load_of (map (pair c) t) = []
  ∧ plots t = [].
Proof.
  intros (dir & line & tds & d & args & tk & path & sd & row & losses
          & -> & Htds).
  split_and!.
  - repeat (apply Forall_app; split); try (by repeat constructor).
    + by destruct Htds as [-> | ->]; repeat constructor.
    + apply epoch_events_flat.
  - rewrite !map_app, !omap_app, omap_epoch_events by done.
    by destruct Htds as [-> | ->].
  - rewrite !map_app, !omap_app, omap_epoch_events by done.
    by destruct Htds as [-> | ->].
  - unfold plots. rewrite !omap_app, omap_plain_epoch_events by done.
    by destruct Htds as [-> | ->].
Qed.

Lemma observers_app (t1 t2 : list Event) :
  ctx_run None t1 = Some None →
  trained_adapters (t1 ++ t2) = trained_adapters t1 ++ trained_adapters t2
  ∧ loads (t1 ++ t2) = loads t1 ++ loads t2
  ∧ plots (t1 ++ t2) = plots t1 ++ plots t2.
Proof.
  intros H. unfold trained_adapters, fits, loads, plots.
  pose proof (in_context_app_ctx None None t1 t2 H) as E. simpl in E.
  by rewrite E, !omap_app, map_app.
Qed.

Lemma ctx_run_block key b l :
  Forall (λ e, bracket e = false) l →
  ctx_run None (EvEnter key b :: l ++ [EvExit key b]) = Some None.
Proof.
  intros Hl. simpl. rewrite ctx_run_app.
  assert (ctx_run (Some b) l = Some (Some b)) as ->.
  { induction Hl as [|e l He _ IH]; [done|]. by destruct e. }
  simpl. by rewrite String.eqb_refl.
Qed.

Lemma progress_block n t0 key b pre body r a :
  progress n t0 →
  Forall (λ e, bracket e = false ∧ fit_of (b, e) = None
               ∧ load_of (b, e) = None ∧ plots [e] = []) pre →
  train_trace r a body →
  four_adapters !! n = Some (b, config_of a) →
  progress (S n) (t0 ++ EvEnter key b :: (pre ++ body) ++ [EvExit key b]).
Proof.
  intros (H1 & H2 & H3 & H4) Hpre Hbody Hn.
  destruct (train_trace_observed r a body b Hbody) as (B1 & B2 & B3 & B4).
  destruct (observers_app t0 (EvEnter key b :: (pre ++ body)
                                ++ [EvExit key b]) H1) as (O1 & O2 & O3).
  assert (Forall (λ e, bracket e = false) (pre ++ body)) as Hflat.
  { apply Forall_app; split; [|done].
    eapply Forall_impl; [exact Hpre|]. by intros ? (? & _). }
  assert (omap fit_of (map (pair b) pre) = []
          ∧ omap load_of (map (pair b) pre) = [] ∧ plots pre = [])
    as (P1 & P2 & P3).
  { clear -Hpre. induction Hpre as [|e l (_ & F & L & P) _ (I1 & I2 & I3)];
      [done|].
    cbn [map]. rewrite !omap_head, F, L. cbn [option_list app].
    split_and!; [exact I1|exact I2|].
    change (e :: l) with ([e] ++ l). unfold plots in *.
    by rewrite omap_app, P. }
  split_and!.
  - rewrite ctx_run_app, H1. exact (ctx_run_block key b _ Hflat).
  - rewrite O1, H2. unfold trained_adapters at 1, fits.
    rewrite (in_context_block [] key b (pre ++ body) [] Hflat).
    cbn [in_context]. rewrite app_nil_r, map_app, omap_app, P1.
    cbn [app]. rewrite B2. by rewrite (take_S_r _ _ _ Hn).
  - rewrite O2, H3. unfold loads.
    rewrite (in_context_block [] key b (pre ++ body) [] Hflat).
    cbn [in_context]. by rewrite app_nil_r, map_app, omap_app, P2, B3.
  - rewrite O3, H4. unfold plots in *. simpl.
    by rewrite !omap_app, P3, B4.
Qed.


(** What a block leaves when it returns. *)
Definition block_done (n : nat) (w : World) (wf : string) (env : Env)
    (w' : World) (t' : list Event) : Prop :=
  progress (S n) t' ∧ saved w w' wf ∧ is_Some (sub1 (num_epochs env)).

Lemma wp_block_returns {R} key b v name ty q s m0 dim env
    (post : nat → Results → R) n w t :
  progress n t →
  four_adapters !! n = Some (b, (q, s)) →
  wp (LocalLogger local_snapshot_dir key b v
        (let* dir := get_snapshot_dir in
         let* r := LinearAdapter_new LinearAdapter_init m0 dim q s in
         let* res := train env r (posixpath.join dir [name]) ty false in
         ret (post r res)))
    (λ _, block_done n w
            (posixpath.join (local_snapshot_dir key b v (snapshot_dir w))
               [name]) env)
    no_post w t.
Proof.
  intros H Hn. unfold LocalLogger, get_snapshot_dir, LinearAdapter_new.
  repeat wp_step.
  eapply wp_train_returns; [apply lookup_insert_eq|].
  intros res w' t' Ht' (S1 & S2 & S3) He. do 4 wp_step.
  split_and!; [|done..].
  rewrite <- !app_assoc. cbn [app].
  change (EvLinearAdapter ?r ?a :: t' ++ ?l)
    with (([EvLinearAdapter r a] ++ t') ++ l).
  eapply progress_block; [exact H| |exact Ht'|exact Hn].
  by repeat constructor.
Qed.

Lemma wp_warm_block_returns {R} key b v name ty q s m0 dim env src
    (post : nat → Results → R) n w t :
  progress n t →
  four_adapters !! n = Some (b, (q, s)) →
  wp (LocalLogger local_snapshot_dir key b v
        (let* dir := get_snapshot_dir in
         let* r := LinearAdapter_new LinearAdapter_init m0 dim q s in
         copy_weight_and_bias r src ;;
         let* res := train env r (posixpath.join dir [name]) ty false in
         ret (post r res)))
    (λ _, block_done n w
            (posixpath.join (local_snapshot_dir key b v (snapshot_dir w))
               [name]) env)
    no_post w t.
Proof.
  intros H Hn. unfold LocalLogger, get_snapshot_dir, LinearAdapter_new,
    copy_weight_and_bias, deref.
  repeat (wp_step; rewrite ?lookup_insert_eq).
  eapply wp_train_returns; [apply lookup_insert_eq|].
  intros res w' t' Ht' (S1 & S2 & S3) He. do 4 wp_step.
  split_and!; [|done..].
  rewrite <- !app_assoc. cbn [app].
  change (EvLinearAdapter ?r ?a :: ?c :: t' ++ ?l)
    with (([EvLinearAdapter r a; c] ++ t') ++ l).
  eapply progress_block; [exact H| |exact Ht'|exact Hn].
  by repeat constructor.
Qed.

Lemma progress_emit n t e :
  bracket e = false → fit_of ("", e) = None → load_of ("", e) = None →
  plots [e] = [] →
  progress n t → progress n (t ++ [e]).
Proof.
  intros Hb Hf Hl Hp (H1 & H2 & H3 & H4).
  destruct (observers_app t [e] H1) as (O1 & O2 & O3).
  split_and!.
  - rewrite ctx_run_app, H1. by destruct e.
  - rewrite O1, H2. unfold trained_adapters, fits.
    destruct e; try done; simpl in *; by rewrite app_nil_r.
  - rewrite O2, H3. unfold loads. destruct e; try done.
  - by rewrite O3, H4, Hp.
Qed.

(** The run has trained the four adapters, loaded nothing and plotted the
    comparison once. *)
Definition finished (v : variant_t) (t : list Event) : Prop :=
  trained_adapters t = four_adapters
  ∧ loads t = []
  ∧ ∃ series, plots t = [(series, exp_name, v)]
              ∧ map snd series
                = ["Baseline"; "Linear (Joint)"; "Linear (Query-Only)";
                   "Linear (Query-First)"; "Linear (Separate)"].

(** What a run leaves when it returns: besides what it has logged, the
    snapshot directory is as it was, the four weights files are on disk, and
    the variant has passed the checks. *)
Definition run_done (v : variant_t) (w w' : World) (t : list Event) : Prop :=
  finished v t
  ∧ snapshot_dir w' = snapshot_dir w
  ∧ Forall (λ b, is_Some (files w' !! weights_path local_snapshot_dir v w b))
      blocks
  ∧ has_required_keys v
  ∧ invalid_loss v = false
  ∧ is_Some (sub1 (field v "num_epochs")).

Lemma run_returns_done (v : variant_t) (w : World) :
  wp (run v) (λ _, run_done v w) no_post w [].
Proof.
  unfold run_experiment, getitem, SentenceTransformer_new.
  repeat wp_step.
  (* query_adapted *)
  eapply wp_mono.
  { eapply (wp_block_returns _ _ _ _ _ _ _ _ _ _ _ 0); [|reflexivity].
    apply progress_emit; done. }
  intros [q_adapted_model results] w1 t1 (H1 & (A1 & A2 & A3) & He).
  cbv beta iota. wp_step.
  (* adapted *)
  eapply wp_mono.
  { eapply (wp_block_returns _ _ _ _ _ _ _ _ _ _ _ 1); [exact H1|reflexivity]. }
  intros results1 w2 t2 (H2 & (B1 & B2 & B3) & _). cbv beta. wp_step.
  (* query_first *)
  eapply wp_mono.
  { eapply (wp_warm_block_returns _ _ _ _ _ _ _ _ _ _ _ _ 2);
      [exact H2|reflexivity]. }
  intros results2 w3 t3 (H3 & (C1 & C2 & C3) & _). cbv beta. wp_step.
  (* separate *)
  eapply wp_mono.
  { eapply (wp_block_returns _ _ _ _ _ _ _ _ _ _ _ 3); [exact H3|reflexivity]. }
  intros results3 w4 t4 (H4 & (D1 & D2 & D3) & _). cbv beta. wp_step.
  (* the baseline and the plot *)
  destruct (path_join_pure proj_dir
              [PStr "results"; p; PStr (py_str float_repr p0 +:+ ".json")] w4)
    as [[bpath Hj]|Hj].
  2: { unfold wp. by rewrite Hj. }
  eapply wp_eq; [exact Hj|]. rewrite app_nil_r.
  repeat wp_step.
  assert (progress 4 (t4 ++ [EvMtebResults p0 bpath
                               (EvalBase (freeze (SentenceTransformer p)))]))
    as (F1 & F2 & F3 & F4) by (by apply progress_emit).
  match goal with
  | |- run_done v w w4 (?t ++ [?e]) =>
      destruct (observers_app t [e] F1) as (O1 & O2 & O3)
  end.
  cbn in A1, A2. rewrite A1 in B1, B2. rewrite B1 in C1, C2.
  rewrite C1 in D1, D2.
  split_and!.
  - split_and!.
    + by rewrite O1, F2, app_nil_r.
    + by rewrite O2, F3.
    + eexists. rewrite O3, F4. split; reflexivity.
  - exact D1.
  - unfold blocks, weights_path, block_dir.
    repeat (apply Forall_cons; split); cbn [fst snd]; [..|constructor].
    + by apply D3, C3, B3.
    + by apply D3, C3.
    + by apply D3.
    + exact D2.
  - unfold has_required_keys, required_keys.
    repeat (apply Forall_cons; split; [by eexists|]). constructor.
  - unfold invalid_loss, field, dict_get in *. rewrite Heqo5. simpl default.
    rewrite Heqb0. by rewrite andb_comm, Heqb.
  - unfold field, dict_get. by rewrite Heqo2.
Qed.

(** X11.  Whenever [run_experiment] returns, it has trained the four adapters,
    in their order: the query-only one, the joint one, the query-first one and
    the separate-embeddings one; it has loaded no weights file; and it has
    plotted one comparison, of the five results in their order. A run that
    resumes from a weights file never returns. *)
Theorem returns_only_after_training_all (v : variant_t) (w : World) :
  outcome (run v) w = Ok tt →
  trained_adapters (log (run v) w) = four_adapters
  ∧ loads (log (run v) w) = []
  ∧ ∃ series,
      plots (log (run v) w) = [(series, exp_name, v)]
      ∧ map snd series
        = ["Baseline"; "Linear (Joint)"; "Linear (Query-Only)";
           "Linear (Query-First)"; "Linear (Separate)"].
Proof.
  intros Hok. pose proof (wp_run _ _ _ _ (run_returns_done v w)) as H.
  rewrite Hok in H. exact (proj1 H).
Qed.

(** ** The run that finds a weights file *)

(** The run of a variant that passes the checks, when the weights file of
    the first block is there. *)
Lemma run_resumes_first_block (v : variant_t) (w : World) sd e :
  has_required_keys v → invalid_loss v = false →
  files w !! weights_path local_snapshot_dir v w b_query_adapted = Some sd →
  sub1 (field v "num_epochs") = Some e →
  let n := next_id w in
  let a := new_adapter LinearAdapter_init (base_model SentenceTransformer v)
             true false n in
  let wf := weights_path local_snapshot_dir v w b_query_adapted in
  ∃ w',
    run v w
    = (Raise IndexError, w',
       [EvSentenceTransformer (field v "model_name");
        EvEnter "adapter_type" "query_adapted";
        EvLinearAdapter n a;
        EvMakedirs (posixpath.dirname wf);
        EvLoadStateDict n wf;
        EvMtebResults (field v "task")
          (posixpath.join
             (block_dir local_snapshot_dir v w "query_adapted")
             ["results.json"])
          (EvalAdapter (with_state a sd));
        EvExit "adapter_type" "query_adapted"]).
Proof.
  intros Hk Hv Hf He n a wf.
  unfold has_required_keys, required_keys in Hk.
  repeat (apply Forall_cons in Hk as [? Hk]).
  apply orb_false_elim in Hv as [Hv1 Hv2].
  apply negb_false_iff in Hv1.
  eexists. unfold run_experiment. etrans.
  { do 7 (eapply bind_Ok; [by apply getitem_field|]).
    fold (field v "triplet_margin").
    rewrite andb_comm, Hv2, Hv1. simpl negb. cbv iota.
    eapply bind_Ok; [reflexivity|].
    eapply bind_Ok; [reflexivity|].
    apply bind_Raise. eapply LocalLogger_Raise.
    eapply bind_Ok; [reflexivity|].
    eapply bind_Ok; [reflexivity|].
    apply bind_Raise.
    eapply (train_and_evaluate_resumes fit get_mteb_results _ _ _ _ _ _ sd e).
    - apply lookup_insert_eq.
    - exact Hf.
    - exact He. }
  reflexivity.
Qed.

(** X12.  A variant that passes the checks, with the weights file of the
    query-only adapter on disk: the run loads the file and evaluates the
    adapter, and ends there with [IndexError]. No adapter is trained, the
    three other adapters are not even constructed, and nothing is plotted. *)
Theorem checkpoint_stops_the_run (v : variant_t) (w : World)
    (sd : StateDict) (e : pyval) :
  has_required_keys v → invalid_loss v = false →
  files w !! weights_path local_snapshot_dir v w b_query_adapted = Some sd →
  sub1 (field v "num_epochs") = Some e →
  outcome (run v) w = Raise IndexError
  ∧ loads (log (run v) w)
    = [("query_adapted", next_id w,
        weights_path local_snapshot_dir v w b_query_adapted)]
  ∧ fits (log (run v) w) = []
  ∧ map (λ x, x.1.1) (adapters_built (log (run v) w)) = ["query_adapted"]
  ∧ map (λ x, x.1.1.1) (evaluations (log (run v) w)) = ["query_adapted"]
  ∧ plots (log (run v) w) = [].
Proof.
  intros Hk Hv Hf He.
  destruct (run_resumes_first_block v w sd e Hk Hv Hf He) as [w' Hrun].
  unfold outcome, log. rewrite Hrun. by split_and!.
Qed.

(** X13.  A second run of a variant whose first run returned: [fit] has saved
    the weights of the first run, the logger is back in the directory it was
    in, and so the second run finds the weights file of the query-only
    adapter, loads it and ends with [IndexError]; it trains nothing and plots
    nothing. *)
Theorem second_run_fails (v : variant_t) (w : World) :
  outcome (run v) w = Ok tt →
  outcome (run v) (final (run v) w) = Raise IndexError
  ∧ map (λ x, x.1.1) (loads (log (run v) (final (run v) w)))
    = ["query_adapted"]
  ∧ fits (log (run v) (final (run v) w)) = []
  ∧ plots (log (run v) (final (run v) w)) = [].
Proof.
  intros Hok. pose proof (wp_run _ _ _ _ (run_returns_done v w)) as H.
  rewrite Hok in H. destruct H as (_ & Hs & Hfiles & Hk & Hv & [e He]).
  unfold blocks in Hfiles. apply Forall_cons in Hfiles as [[sd Hsd] _].
  assert (weights_path local_snapshot_dir v (final (run v) w) b_query_adapted
          = weights_path local_snapshot_dir v w b_query_adapted) as Hwp.
  { unfold weights_path, block_dir. by rewrite Hs. }
  assert (files (final (run v) w)
            !! weights_path local_snapshot_dir v (final (run v) w)
                 b_query_adapted = Some sd) as Hsd'
    by (rewrite Hwp; exact Hsd).
  destruct (run_resumes_first_block v _ sd e Hk Hv Hsd' He) as [w' Hrun].
  unfold outcome at 1, log. rewrite Hrun. by split_and!.
Qed.

End Returns.

(** * The key the launcher reads and never uses *)

(** An event without the variant [plot_comparison] is given. *)
Definition forget_variant (e : Event) : Event :=
  match e with
  | EvPlotComparison s n _ => EvPlotComparison s n ∅
  | _ => e
  end.

(** Two runs that end alike and log the same calls, the variant handed to
    [plot_comparison] apart. *)
Definition same_run {A} (x y : result A * World * list Event) : Prop :=
  x.1 = y.1 ∧ map forget_variant x.2 = map forget_variant y.2.

Lemma same_run_refl {A} (x : result A * World * list Event) : same_run x x.
Proof. done. Qed.

Lemma same_run_bind {A B} (m1 m2 : M A) (k1 k2 : A → M B) w :
  same_run (m1 w) (m2 w) →
  (∀ a w1, same_run (k1 a w1) (k2 a w1)) →
  same_run (bind m1 k1 w) (bind m2 k2 w).
Proof.
  unfold same_run, bind. intros [H1 H2] Hk.
  destruct (m1 w) as [[r1 w1] t1], (m2 w) as [[r2 w2] t2].
  simpl in *. injection H1 as -> ->. destruct r2 as [a|e]; [|done].
  specialize (Hk a w2).
  destruct (k1 a w2) as [[r3 w3] t3], (k2 a w2) as [[r4 w4] t4].
  simpl in *. destruct Hk as [-> Ht]. by rewrite !map_app, H2, Ht.
Qed.

Lemma getitem_insert_ne {V} (d : gmap string V) (k k' : string) (x : V) :
  k ≠ k' → getitem (<[k := x]> d) k' = getitem d k'.
Proof. intros H. unfold getitem. by rewrite lookup_insert_ne. Qed.

Lemma dict_get_insert_ne (d : variant_t) (k k' : string) (x dflt : pyval) :
  k ≠ k' → dict_get (<[k := x]> d) k' dflt = dict_get d k' dflt.
Proof. intros H. unfold dict_get. by rewrite lookup_insert_ne. Qed.

Section Force.

Context (proj_dir : string).
Context (float_repr : float → string).
Context (SentenceTransformer : pyval → STModel).
Context (LinearAdapter_init : STModel → nat → bool → bool → nat → StateDict).
Context (fit : Adapter → Dataset → FitArgs → StateDict * list pyval).
Context (get_mteb_results : pyval → string → EvalModel → Results).
Context (local_snapshot_dir : string → string → variant_t → string → string).

Local Abbreviation run :=
  (run_experiment proj_dir float_repr SentenceTransformer LinearAdapter_init
     fit get_mteb_results local_snapshot_dir).

Lemma LocalLogger_variant {A} key value v1 v2 (body : M A) w :
  (∀ outer, local_snapshot_dir key value v1 outer
            = local_snapshot_dir key value v2 outer) →
  LocalLogger local_snapshot_dir key value v1 body w
  = LocalLogger local_snapshot_dir key value v2 body w.
Proof.
  intros H. unfold LocalLogger, get_snapshot_dir, bind, get, ret. simpl.
  by rewrite H.
Qed.

(** X14.  [run_experiment] reads [variant.get('force', False)] and does
    nothing with it: whatever value the variant gives to 'force', the run ends
    the same way, in the same world, after the same calls with the same
    arguments (the variant itself, which [plot_comparison] is handed, apart),
    as long as the directory [LocalLogger] chooses does not depend on that
    key. *)
Theorem force_is_never_used (v : variant_t) (x : pyval) (w : World) :
  (∀ key value outer,
     local_snapshot_dir key value (<["force" := x]> v) outer
     = local_snapshot_dir key value v outer) →
  outcome (run (<["force" := x]> v)) w = outcome (run v) w
  ∧ final (run (<["force" := x]> v)) w = final (run v) w
  ∧ map forget_variant (log (run (<["force" := x]> v)) w)
    = map forget_variant (log (run v) w).
Proof.
  intros Hdir.
  cut (same_run (run (<["force" := x]> v) w) (run v w)).
  { unfold same_run, outcome, final, log. intros [H1 H2].
    by rewrite H1, H2. }
  unfold run_experiment.
  rewrite !getitem_insert_ne by done.
  rewrite (dict_get_insert_ne v "force" "triplet_margin"),
    (dict_get_insert_ne v "force" "data_negative_sampling"),
    (dict_get_insert_ne v "force" "data_synthetic_gen"),
    (dict_get_insert_ne v "force" "data_augmentation_threshold") by done.
  cbv zeta.
  do 7 (apply same_run_bind; [apply same_run_refl|intros ? ?]).
  repeat lazymatch goal with
         | |- same_run ((if ?c then _ else _) _) _ =>
             destruct c; [apply same_run_refl|]
         end.
  do 2 (apply same_run_bind; [apply same_run_refl|intros ? ?]).
  apply same_run_bind;
    [rewrite (LocalLogger_variant _ _ _ v) by apply Hdir;
     apply same_run_refl|intros [? ?] ?].
  do 3 (apply same_run_bind;
          [rewrite (LocalLogger_variant _ _ _ v) by apply Hdir;
           apply same_run_refl|intros ? ?]).
  do 6 (apply same_run_bind; [apply same_run_refl|intros ? ?]).
  by split.
Qed.

End Force.

(** * The demonstration run, once more *)

(** A variant without its split and its learning rate. *)
Definition demo_short_variant : variant_t :=
  delete "split" (delete "lr" demo_variant).

(** A [fit] that returns no loss, and results that hold no task. *)
Definition demo_fit_no_loss (a : Adapter) (d : Dataset) (args : FitArgs)
    : StateDict * list pyval :=
  ((demo_fit a d args).1, []).

Definition demo_no_results (task : pyval) (path : string) (m : EvalModel)
    : Results := ∅.

(** The world of a second run: the weights of the query-only adapter are
    on disk. *)
Definition demo_second_world : World :=
  set_files {[ demo_weights_file := (demo_fit demo_adapter
                 (fresh_dataset demo_env 1)
                 (fit_args demo_env demo_weights_file)).1 ]}
    demo_world.

Lemma first_missing_key_is_the_KeyError_witness :
  demo_short_variant !! "split" = None
  ∧ outcome (demo_run demo_short_variant) demo_world
    = Raise (KeyError (PStr "split"))
  ∧ log (demo_run demo_short_variant) demo_world = [].
Proof.
  assert (demo_short_variant !! "split" = None) as Hk
    by (vm_compute; reflexivity).
  split; [exact Hk|].
  pose proof (first_missing_key_is_the_KeyError "/proj" (λ _, "0.0")
                demo_SentenceTransformer demo_init demo_fit demo_results
                demo_dir demo_short_variant demo_world
                ["model_name"; "task"] "split"
                ["num_epochs"; "lr"; "batch_size"; "loss_type"]
                eq_refl) as H.
  destruct H as (H1 & H2 & _); [|exact Hk|by split].
  repeat (apply Forall_cons; split; [by vm_compute; eexists|]).
  constructor.
Defined.

Lemma ValueError_messages_witness :
  has_required_keys demo_bad_variant
  ∧ outcome (demo_run demo_bad_variant) demo_world
    = Raise (ValueError "Invalid loss type: cosine").
Proof.
  split; [exact demo_bad_required_keys|].
  apply (proj2 (ValueError_messages "/proj" (λ _, "0.0")
                  demo_SentenceTransformer demo_init demo_fit demo_results
                  demo_dir demo_bad_variant demo_world
                  demo_bad_required_keys)).
  vm_compute. reflexivity.
Defined.

Lemma no_loss_raises_IndexError_witness :
  (heap demo_fresh_world !! 0 = Some demo_adapter
   ∧ files demo_fresh_world !! demo_weights_file = None
   ∧ sub1 (num_epochs demo_env) = Some (PInt 14))
  ∧ outcome (train_and_evaluate demo_fit_no_loss demo_results demo_env 0
               demo_weights_file "Query-Adapted" false) demo_fresh_world
    = Raise IndexError
  ∧ tabular_rows ∅
      (log (train_and_evaluate demo_fit_no_loss demo_results demo_env 0
              demo_weights_file "Query-Adapted" false) demo_fresh_world)
    = [].
Proof.
  assert (heap demo_fresh_world !! 0 = Some demo_adapter) as Hr
    by (vm_compute; reflexivity).
  assert (files demo_fresh_world !! demo_weights_file = None) as Hf
    by (vm_compute; reflexivity).
  assert (sub1 (num_epochs demo_env) = Some (PInt 14)) as He
    by (vm_compute; reflexivity).
  split; [by split_and!|].
  pose proof (no_loss_raises_IndexError demo_fit_no_loss demo_results
                demo_env 0 demo_weights_file "Query-Adapted"
                demo_fresh_world demo_adapter _ (PInt 14) Hr Hf eq_refl He)
    as (H1 & _ & _ & _ & H5).
  by split.
Defined.

Lemma missing_result_raises_KeyError_witness :
  (heap demo_fresh_world !! 0 = Some demo_adapter
   ∧ files demo_fresh_world !! demo_weights_file = None
   ∧ sub1 (num_epochs demo_env) = Some (PInt 14))
  ∧ outcome (train_and_evaluate demo_fit demo_no_results demo_env 0
               demo_weights_file "Query-Adapted" false) demo_fresh_world
    = Raise (KeyError (PStr "CQADupstackEnglishRetrieval"))
  ∧ tabular_rows ∅
      (log (train_and_evaluate demo_fit demo_no_results demo_env 0
              demo_weights_file "Query-Adapted" false) demo_fresh_world)
    = [].
Proof.
  assert (heap demo_fresh_world !! 0 = Some demo_adapter) as Hr
    by (vm_compute; reflexivity).
  assert (files demo_fresh_world !! demo_weights_file = None) as Hf
    by (vm_compute; reflexivity).
  assert (sub1 (num_epochs demo_env) = Some (PInt 14)) as He
    by (vm_compute; reflexivity).
  split; [by split_and!|].
  pose proof (missing_result_raises_KeyError demo_fit demo_no_results
                demo_env 0 demo_weights_file "Query-Adapted"
                demo_fresh_world demo_adapter _
                [PFloat 0.5; PFloat 0.25] (PFloat 0.125) (PInt 14)
                (PStr "CQADupstackEnglishRetrieval") Hr Hf eq_refl He)
    as H.
  destruct H as (H1 & _ & _ & H4); [vm_compute; reflexivity|].
  by split.
Defined.

Lemma force_trains_over_checkpoint_witness :
  (heap demo_resumed_world !! 0 = Some demo_adapter
   ∧ is_Some (files demo_resumed_world !! demo_weights_file)
   ∧ sub1 (num_epochs demo_env) = Some (PInt 14))
  ∧ loads (log (train_and_evaluate demo_fit demo_results demo_env 0
                  demo_weights_file "Query-Adapted" true)
             demo_resumed_world) = []
  ∧ length (fits (log (train_and_evaluate demo_fit demo_results demo_env 0
                         demo_weights_file "Query-Adapted" true)
                    demo_resumed_world)) = 1.
Proof.
  assert (heap demo_resumed_world !! 0 = Some demo_adapter) as Hr
    by (vm_compute; reflexivity).
  assert (files demo_resumed_world !! demo_weights_file
          = Some (demo_fit demo_adapter (fresh_dataset demo_env 1)
                    (fit_args demo_env demo_weights_file)).1) as Hf
    by (vm_compute; reflexivity).
  assert (sub1 (num_epochs demo_env) = Some (PInt 14)) as He
    by (vm_compute; reflexivity).
  split; [split_and!; [exact Hr|rewrite Hf; by eexists|exact He]|].
  pose proof (force_trains_over_checkpoint demo_fit demo_results demo_env 0
                demo_weights_file "Query-Adapted" demo_resumed_world
                demo_adapter _ _ [PFloat 0.5; PFloat 0.25] (PFloat 0.125)
                (PInt 14) {[ "ndcg_at_10" := PFloat 0.5 ]}
                Hr Hf eq_refl He) as H.
  destruct H as (_ & H2 & H3 & _); [vm_compute; reflexivity|].
  split; [exact H2|]. by rewrite H3.
Defined.

Lemma demo_run_returns :
  outcome (demo_run demo_variant) demo_world = Ok tt.
Proof. vm_compute. reflexivity. Qed.

Lemma returns_only_after_training_all_witness :
  outcome (demo_run demo_variant) demo_world = Ok tt
  ∧ trained_adapters (log (demo_run demo_variant) demo_world)
    = four_adapters
  ∧ loads (log (demo_run demo_variant) demo_world) = [].
Proof.
  split; [exact demo_run_returns|].
  pose proof (returns_only_after_training_all "/proj" (λ _, "0.0")
                demo_SentenceTransformer demo_init demo_fit demo_results
                demo_dir demo_variant demo_world demo_run_returns)
    as (H1 & H2 & _).
  by split.
Defined.

Lemma demo_variant_passes :
  has_required_keys demo_variant
  ∧ invalid_loss demo_variant = false.
Proof.
  split; [|by vm_compute].
  unfold has_required_keys, required_keys.
  repeat (apply Forall_cons; split; [by vm_compute; eexists|]).
  constructor.
Qed.

Lemma checkpoint_stops_the_run_witness :
  (has_required_keys demo_variant
   ∧ invalid_loss demo_variant = false
   ∧ is_Some (files demo_second_world
                !! weights_path demo_dir demo_variant demo_second_world
                     b_query_adapted))
  ∧ outcome (demo_run demo_variant) demo_second_world = Raise IndexError
  ∧ fits (log (demo_run demo_variant) demo_second_world) = []
  ∧ plots (log (demo_run demo_variant) demo_second_world) = [].
Proof.
  destruct demo_variant_passes as [Hk Hv].
  assert (files demo_second_world
            !! weights_path demo_dir demo_variant demo_second_world
                 b_query_adapted
          = Some (demo_fit demo_adapter (fresh_dataset demo_env 1)
                    (fit_args demo_env demo_weights_file)).1) as Hf
    by (vm_compute; reflexivity).
  split; [split_and!; [exact Hk|exact Hv|rewrite Hf; by eexists]|].
  pose proof (checkpoint_stops_the_run "/proj" (λ _, "0.0")
                demo_SentenceTransformer demo_init demo_fit demo_results
                demo_dir demo_variant demo_second_world _ (PInt 14)
                Hk Hv Hf) as H.
  destruct H as (H1 & _ & H3 & _ & _ & H6); [vm_compute; reflexivity|].
  by split_and!.
Defined.

Lemma second_run_fails_witness :
  outcome (demo_run demo_variant) demo_world = Ok tt
  ∧ outcome (demo_run demo_variant)
      (final (demo_run demo_variant) demo_world) = Raise IndexError
  ∧ fits (log (demo_run demo_variant)
            (final (demo_run demo_variant) demo_world)) = [].
Proof.
  split; [exact demo_run_returns|].
  pose proof (second_run_fails "/proj" (λ _, "0.0")
                demo_SentenceTransformer demo_init demo_fit demo_results
                demo_dir demo_variant demo_world demo_run_returns)
    as (H1 & _ & H3 & _).
  by split.
Defined.

Lemma force_is_never_used_witness :
  (∀ key value outer,
     demo_dir key value (<["force" := PBool true]> demo_variant) outer
     = demo_dir key value demo_variant outer)
  ∧ outcome (demo_run (<["force" := PBool true]> demo_variant)) demo_world
    = outcome (demo_run demo_variant) demo_world
  ∧ final (demo_run (<["force" := PBool true]> demo_variant)) demo_world
    = final (demo_run demo_variant) demo_world.
Proof.
  assert (∀ key value outer,
            demo_dir key value (<["force" := PBool true]> demo_variant) outer
            = demo_dir key value demo_variant outer) as Hdir
    by (intros; reflexivity).
  split; [exact Hdir|].
  pose proof (force_is_never_used "/proj" (λ _, "0.0")
                demo_SentenceTransformer demo_init demo_fit demo_results
                demo_dir demo_variant (PBool true) demo_world Hdir)
    as (H1 & H2 & _).
  by split.
Defined.
